(** * mcp-smalledit: the request handlers of the SmallEdit server

    A shallow embedding of the tool handlers of [server.setRequestHandler
    (CallToolRequestSchema, ...)]: the JavaScript built-ins they call, the
    file system they read and write, the shell commands they hand to
    [execAsync], and the handlers themselves, followed by the properties
    of the specification that were checked against them. *)

From Stdlib Require Import ZArith String Ascii List Lia Sorted.
From Stdlib Require Import DecimalString DecimalNat DecimalPos.
From stdpp Require Import gmap strings list fin_maps.

(** ** JavaScript built-ins *)

Module JS.

(** A JavaScript number, as far as the handlers use one: an integer or
    [NaN] (what [parseInt] gives on text that is not a number). *)
Inductive num : Type :=
  | NaN
  | Int (z : Z).

Definition nl : ascii := "010"%char.
Definition NL : string := String nl "".

(** The double quote of a template literal. *)
Definition DQ : string := String (ascii_of_nat 34) "".

(** [s.split(sep)] for a one-character separator: never empty, a
    trailing separator gives a trailing empty piece. *)
Fixpoint split (sep : ascii) (s : string) : list string :=
  match s with
  | EmptyString => [ "" ]
  | String c s' =>
      if Ascii.eqb c sep then "" :: split sep s'
      else match split sep s' with
           | x :: xs => String c x :: xs
           | [] => [ String c "" ]
           end
  end.

(** [arr.join(sep)]. *)
Definition join (sep : string) (l : list string) : string := String.concat sep l.

(** [s.includes(c)] for a one-character needle. *)
Fixpoint includes (c : ascii) (s : string) : bool :=
  match s with
  | EmptyString => false
  | String d s' => Ascii.eqb d c || includes c s'
  end.

Fixpoint spaces (n : nat) : string :=
  match n with
  | O => ""
  | S n' => String " " (spaces n')
  end.

(** [s.padStart(n)]: spaces on the left up to length [n]. *)
Definition padStart (n : nat) (s : string) : string :=
  spaces (n - String.length s) +:+ s.

(** [z.toString()] and [`${z}`] for an integer. *)
Definition Z_toString (z : Z) : string := NilEmpty.string_of_int (Z.to_int z).

Definition toString (x : num) : string :=
  match x with
  | NaN => "NaN"
  | Int z => Z_toString z
  end.

Definition add (x y : num) : num :=
  match x, y with
  | Int a, Int b => Int (a + b)
  | _, _ => NaN
  end.

Definition sub (x y : num) : num :=
  match x, y with
  | Int a, Int b => Int (a - b)
  | _, _ => NaN
  end.

(** [x < y], [x > y], [x <= y], [x === y]: false as soon as one side is NaN. *)
Definition lt (x y : num) : bool :=
  match x, y with
  | Int a, Int b => (a <? b)%Z
  | _, _ => false
  end.

Definition gt (x y : num) : bool := lt y x.

Definition le (x y : num) : bool :=
  match x, y with
  | Int a, Int b => (a <=? b)%Z
  | _, _ => false
  end.

Definition strict_eq (x y : num) : bool :=
  match x, y with
  | Int a, Int b => (a =? b)%Z
  | _, _ => false
  end.

(** [Math.max], [Math.min]: NaN as soon as one argument is. *)
Definition Math_max (x y : num) : num :=
  match x, y with
  | Int a, Int b => Int (Z.max a b)
  | _, _ => NaN
  end.

Definition Math_min (x y : num) : num :=
  match x, y with
  | Int a, Int b => Int (Z.min a b)
  | _, _ => NaN
  end.

(** *** parseInt *)

Definition digit_of (c : ascii) : option Z :=
  let n := nat_of_ascii c in
  if (48 <=? n)%nat && (n <=? 57)%nat then Some (Z.of_nat (n - 48)) else None.

Definition hexdigit_of (c : ascii) : option Z :=
  let n := nat_of_ascii c in
  if (48 <=? n)%nat && (n <=? 57)%nat then Some (Z.of_nat (n - 48))
  else if (97 <=? n)%nat && (n <=? 102)%nat then Some (Z.of_nat (n - 87))
  else if (65 <=? n)%nat && (n <=? 70)%nat then Some (Z.of_nat (n - 55))
  else None.

(** The value of the longest prefix of digits, [None] when there is none. *)
Fixpoint digits (dig : ascii -> option Z) (radix : Z) (acc : option Z) (s : string)
  : option Z :=
  match s with
  | EmptyString => acc
  | String c s' =>
      match dig c with
      | Some d => digits dig radix (Some (radix * default 0%Z acc + d)%Z) s'
      | None => acc
      end
  end.

Definition is_space (c : ascii) : bool :=
  let n := nat_of_ascii c in
  (n =? 32)%nat || ((9 <=? n)%nat && (n <=? 13)%nat).

Fixpoint trimStart (s : string) : string :=
  match s with
  | String c s' => if is_space c then trimStart s' else s
  | EmptyString => ""
  end.

Definition unsigned_int (s : string) : option Z :=
  match s with
  | String "0" (String "x" s') | String "0" (String "X" s') =>
      digits hexdigit_of 16 None s'
  | _ => digits digit_of 10 None s
  end.

(** [parseInt(s)]: leading white space, a sign, then digits (hexadecimal
    after [0x]); whatever follows the digits is ignored. The integer is
    given as it is written; the numbers of the source are doubles, which
    are these integers up to 2^53. *)
Definition parseInt (s : string) : num :=
  let body (neg : bool) (t : string) :=
    match unsigned_int t with
    | Some v => Int (if neg then - v else v)
    | None => NaN
    end in
  match trimStart s with
  | String "-" t => body true t
  | String "+" t => body false t
  | t => body false t
  end.

(** [arr.slice(a, b)]: a negative index counts from the end, NaN is 0,
    both ends are clamped into the array. *)
Definition rel_index (len : nat) (x : num) : nat :=
  match x with
  | NaN => 0
  | Int z =>
      if (z <? 0)%Z then Z.to_nat (Z.max (Z.of_nat len + z) 0)
      else Nat.min (Z.to_nat z) len
  end.

Definition slice {A} (l : list A) (a b : num) : list A :=
  let k := rel_index (length l) a in
  let e := rel_index (length l) b in
  firstn (e - k) (skipn k l).

(** [arr.map((x, index) => f x index)]. *)
Fixpoint mapi_from {A B} (i : nat) (f : A -> nat -> B) (l : list A) : list B :=
  match l with
  | [] => []
  | x :: l' => f x i :: mapi_from (S i) f l'
  end.

Definition mapi {A B} (f : A -> nat -> B) (l : list A) : list B := mapi_from 0 f l.

(** [arr[i]] inside a template literal: a missing element prints as
    [undefined]. *)
Definition at_index (l : list string) (i : Z) : string :=
  if (i <? 0)%Z then "undefined" else nth (Z.to_nat i) l "undefined".

(** The values [i] of [for (let i = a; i <= b; i++)]. *)
Definition for_range (a b : num) : list Z :=
  match a, b with
  | Int x, Int y => map (fun k => (x + Z.of_nat k)%Z) (seq 0 (Z.to_nat (y - x + 1)))
  | _, _ => []
  end.

End JS.

(** ** The file system and the effects of a handler *)

Module Fs.

(** What a handler can throw: [new Error(message)], or the rejection of
    [execAsync] when the command exits with a non-zero status. *)
Inductive exn : Type :=
  | Error (message : string)
  | ExecException (cmd : string) (code : nat).

(** The end of an effectful step: a value, an exception, or a shell
    command that lies outside the modelled fragment of the shell. *)
Inductive res (A : Type) : Type :=
  | Ret (a : A)
  | Throw (e : exn)
  | Stuck.
Arguments Ret {A} a.
Arguments Throw {A} e.
Arguments Stuck {A}.

(** A handler step on the files under the working directory, a
    [gmap string string] from path to content. The content of a file is
    its text in UTF-8: [readFile(p, 'utf-8')] gives it and [writeFile]
    stores it as they are. Effects made before an exception stay in the
    file system. *)
Definition M (A : Type) : Type := gmap string string -> res A * gmap string string.

Definition ret {A} (a : A) : M A := fun s => (Ret a, s).

Definition bind {A B} (m : M A) (k : A -> M B) : M B :=
  fun s =>
    match m s with
    | (Ret a, s') => k a s'
    | (Throw e, s') => (Throw e, s')
    | (Stuck, s') => (Stuck, s')
    end.

Definition throw {A} (e : exn) : M A := fun s => (Throw e, s).

Definition existsSync (p : string) (s : gmap string string) : bool :=
  bool_decide (is_Some (s !! p)).

(** [if (cond(fs)) ...] inside a handler. *)
Definition test_fs (f : gmap string string -> bool) : M bool := fun s => (Ret (f s), s).

Definition readFile (p : string) : M string :=
  fun s =>
    match s !! p with
    | Some c => (Ret c, s)
    | None => (Throw (Error ("ENOENT: no such file or directory, open '" +:+ p +:+ "'")), s)
    end.

Definition writeFile (p : string) (c : string) : M unit :=
  fun s => (Ret tt, <[p := c]> s).

End Fs.

Declare Scope handler_scope.
Delimit Scope handler_scope with handler.
Notation "'do' x <- m ; k" := (Fs.bind m (fun x => k))
  (at level 10, x name, m at level 100, k at level 200) : handler_scope.
Notation "'do_' m ; k" := (Fs.bind m (fun _ => k))
  (at level 10, m at level 100, k at level 200) : handler_scope.

(** ** Regular expressions of the host *)

(** [new RegExp(pattern, flags)] and the search behind [regex.exec]:
    [RegExp_search r s i] is the index at which the first match of [r] in
    [s] that starts at or after index [i] ends. The engine is the host's;
    the handlers are modelled over any engine. *)
Record RegExpEngine : Type := {
  regexp : Type;
  RegExp_new : string -> string -> option regexp;
  RegExp_search : regexp -> string -> nat -> option nat
}.

(** [regex.test(s)] on a regular expression with the [g] flag: the search
    starts at [lastIndex], which a match moves to the end of the match and
    a failure resets to 0. *)
Definition RegExp_test (E : RegExpEngine) (r : regexp E) (s : string) (lastIndex : nat)
  : bool * nat :=
  if (String.length s <? lastIndex)%nat then (false, 0)
  else match RegExp_search E r s lastIndex with
       | Some e => (true, e)
       | None => (false, 0)
       end.

(** The pattern matches the line: a [test] from a fresh [lastIndex]. *)
Definition RegExp_matches (E : RegExpEngine) (r : regexp E) (s : string) : bool :=
  fst (RegExp_test E r s 0).

(** An engine for the patterns that are plain text (letters, digits,
    spaces): such a pattern matches where it occurs as a substring.
    Other patterns get no meaning from this engine. Positions count the
    bytes of a line, which are its characters in a line of ASCII text. *)
Module PlainRegExp.

Definition plain_char (c : ascii) : bool :=
  let n := nat_of_ascii c in
  ((48 <=? n)%nat && (n <=? 57)%nat) || ((65 <=? n)%nat && (n <=? 90)%nat)
  || ((97 <=? n)%nat && (n <=? 122)%nat) || (n =? 32)%nat.

Fixpoint plain (s : string) : bool :=
  match s with
  | EmptyString => true
  | String c s' => plain_char c && plain s'
  end.

Definition lower (c : ascii) : ascii :=
  let n := nat_of_ascii c in
  if (65 <=? n)%nat && (n <=? 90)%nat then ascii_of_nat (n + 32) else c.

Definition same (ci : bool) (a b : ascii) : bool :=
  if ci then Ascii.eqb (lower a) (lower b) else Ascii.eqb a b.

Fixpoint prefix_at (ci : bool) (p s : string) : bool :=
  match p, s with
  | EmptyString, _ => true
  | String a p', String b s' => same ci a b && prefix_at ci p' s'
  | String _ _, EmptyString => false
  end.

(** The end of the first occurrence of [p] in [s] at or after [from];
    [pos] is the index of the head of [s]. *)
Fixpoint search (ci : bool) (p s : string) (pos from : nat) : option nat :=
  if (from <=? pos)%nat && prefix_at ci p s then Some (pos + String.length p)
  else match s with
       | EmptyString => None
       | String _ s' => search ci p s' (S pos) from
       end.

Definition engine : RegExpEngine := {|
  regexp := string * bool;
  RegExp_new := fun pattern flags =>
    if plain pattern then Some (pattern, JS.includes "i" flags) else None;
  RegExp_search := fun r s from => search (snd r) (fst r) s 0 from
|}.

End PlainRegExp.

(** ** The stream editor *)

(** [sed], for the scripts the handlers build: one command, [d] or
    [s/regex/replacement/flags], under an optional line address. A regular
    expression is given a meaning when it denotes plain text; every other
    script is either one that sed rejects ([Bad], for the cases listed
    below) or outside this model ([NotModelled]). *)
Module Sed.

Inductive addr : Type :=
  | Line (n : nat)
  | Last.

Inductive range : Type :=
  | Every
  | One (a : addr)
  | Two (a1 a2 : addr).

(** A piece of the right-hand side of [s]: a character, or [&]. *)
Inductive ritem : Type :=
  | RChar (c : ascii)
  | RMatch.

Inductive cmd : Type :=
  | Delete
  | Subst (find : string) (repl : list ritem) (global : bool).

Inductive parsed : Type :=
  | Script (r : range) (c : cmd)
  | Bad
  | NotModelled.

(** A decimal number at the head of the text, and what follows it. *)
Fixpoint number (acc : N) (s : string) : N * string :=
  match s with
  | EmptyString => (acc, "")
  | String c s' =>
      match JS.digit_of c with
      | Some d => number (10 * acc + Z.to_N d) s'
      | None => (acc, s)
      end
  end.

Definition is_digit (c : ascii) : bool := bool_decide (is_Some (JS.digit_of c)).

(** One address: a line number or [$]. *)
Definition address (s : string) : option (addr * string) :=
  match s with
  | String "$" s' => Some (Last, s')
  | String c _ =>
      if is_digit c then let '(n, rest) := number 0 s in Some (Line (N.to_nat n), rest)
      else None
  | EmptyString => None
  end.

(** The line address 0, which sed refuses as the first address; as the
    second address of a range it is a line before the first, like any
    smaller line number. *)
Definition zero_addr (a : addr) : bool :=
  match a with
  | Line 0 => true
  | _ => false
  end.

(** The text up to the next unescaped delimiter, and what follows the
    delimiter. A backslash keeps the character after it. *)
Fixpoint until (delim : ascii) (s : string) : option (string * string) :=
  match s with
  | EmptyString => None
  | String c s' =>
      if Ascii.eqb c delim then Some ("", s')
      else if Ascii.eqb c "\" then
        match s' with
        | String d s'' =>
            match until delim s'' with
            | Some (x, rest) => Some (String c (String d x), rest)
            | None => None
            end
        | EmptyString => None
        end
      else
        match until delim s' with
        | Some (x, rest) => Some (String c x, rest)
        | None => None
        end
  end.

(** The characters with a meaning of their own in a basic regular
    expression. *)
Definition bre_special (c : ascii) : bool :=
  existsb (Ascii.eqb c) [ "."; "*"; "["; "]"; "^"; "$"; "\" ]%char.

(** The plain text a basic regular expression denotes: ordinary characters
    stand for themselves, and so does a special character, or the
    delimiter, after a backslash. Any other construct ([.], [*], a bracket,
    an anchor, [\(], [\{], [\+], [\?], [\|], ...) is not plain text. *)
Fixpoint bre_literal (delim : ascii) (s : string) : option string :=
  match s with
  | EmptyString => Some ""
  | String c s' =>
      if Ascii.eqb c "\" then
        match s' with
        | String d s'' =>
            if bre_special d || Ascii.eqb d delim then
              match bre_literal delim s'' with
              | Some x => Some (String d x)
              | None => None
              end
            else None
        | EmptyString => None
        end
      else if bre_special c then None
      else
        match bre_literal delim s' with
        | Some x => Some (String c x)
        | None => None
        end
  end.

(** The right-hand side of [s]: [&] is the matched text; a backslash
    makes [&], the backslash and the delimiter ordinary. *)
Fixpoint rhs (delim : ascii) (s : string) : option (list ritem) :=
  match s with
  | EmptyString => Some []
  | String c s' =>
      if Ascii.eqb c "\" then
        match s' with
        | String d s'' =>
            if Ascii.eqb d "&" || Ascii.eqb d "\" || Ascii.eqb d delim then
              match rhs delim s'' with
              | Some x => Some (RChar d :: x)
              | None => None
              end
            else None
        | EmptyString => None
        end
      else
        match rhs delim s' with
        | Some x => Some ((if Ascii.eqb c "&" then RMatch else RChar c) :: x)
        | None => None
        end
  end.

(** The flags of [s]: none, or [g]. A first character that is no flag at
    all makes sed reject the script. *)
Definition flag_char (c : ascii) : bool :=
  existsb (Ascii.eqb c) [ "g"; "p"; "i"; "I"; "m"; "M"; "e"; "w" ]%char || is_digit c.

Definition flag_end (c : ascii) : bool :=
  existsb (Ascii.eqb c) [ " "; ";"; "}"; "#" ]%char.

Definition flags (s : string) : option bool + bool :=
  match s with
  | EmptyString => inl (Some false)
  | String "g" EmptyString => inl (Some true)
  | String c _ => if flag_char c || flag_end c then inl None else inr true
  end.

Definition command (r : range) (s : string) : parsed :=
  match s with
  | String "d" EmptyString => Script r Delete
  | String "s" (String delim body) =>
      if Ascii.eqb delim JS.nl || Ascii.eqb delim "\" then Bad
      else
        match until delim body with
        | None => Bad
        | Some (re, body') =>
            match bre_literal delim re with
            | Some (String c f) =>
                match until delim body' with
                | None => Bad
                | Some (rep, fl) =>
                    match flags fl with
                    | inr _ => Bad
                    | inl None => NotModelled
                    | inl (Some g) =>
                        match rhs delim rep with
                        | Some items => Script r (Subst (String c f) items g)
                        | None => NotModelled
                        end
                    end
                end
            | _ => NotModelled
            end
      end
  | _ => NotModelled
  end.

Definition parse (script : string) : parsed :=
  if JS.includes JS.nl script then NotModelled
  else
    match address script with
    | None => command Every script
    | Some (a1, String "," rest) =>
        match address rest with
        | Some (a2, rest') =>
            if zero_addr a1 then Bad else command (Two a1 a2) rest'
        | None => NotModelled
        end
    | Some (a1, rest) => if zero_addr a1 then Bad else command (One a1) rest
    end.

(** *** Lines *)

(** The lines of a file, each with whether a newline ends it (only the
    last line of a file can lack one). *)
Fixpoint read_lines (s : string) : list (string * bool) :=
  match s with
  | EmptyString => []
  | String c s' =>
      if Ascii.eqb c JS.nl then ("", true) :: read_lines s'
      else match read_lines s' with
           | (x, t) :: r => (String c x, t) :: r
           | [] => [ (String c "", false) ]
           end
  end.

Definition write_line (l : string * bool) : string :=
  if snd l then fst l +:+ JS.NL else fst l.

Fixpoint write_lines (ls : list (string * bool)) : string :=
  match ls with
  | [] => ""
  | l :: ls' => write_line l +:+ write_lines ls'
  end.

Definition resolve (a : addr) (count : nat) : nat :=
  match a with
  | Line n => n
  | Last => count
  end.

(** Whether line [i] of [count] lines is addressed. A range begins at its
    first address and always holds that line; it goes on up to the second
    address. *)
Definition selects (r : range) (count i : nat) : bool :=
  match r with
  | Every => true
  | One a => (i =? resolve a count)%nat
  | Two a1 a2 =>
      let s := resolve a1 count in
      (i =? s)%nat || ((s <? i)%nat && (i <=? resolve a2 count)%nat)
  end.

Fixpoint starts_with (p s : string) : bool :=
  match p, s with
  | EmptyString, _ => true
  | String a p', String b s' => Ascii.eqb a b && starts_with p' s'
  | String _ _, EmptyString => false
  end.

Fixpoint expand (find : string) (items : list ritem) : string :=
  match items with
  | [] => ""
  | RChar c :: r => String c (expand find r)
  | RMatch :: r => find +:+ expand find r
  end.

Fixpoint drop (n : nat) (s : string) : string :=
  match n, s with
  | S n', String _ s' => drop n' s'
  | _, _ => s
  end.

(** [s/find/to/]: the first occurrence in the line. *)
Fixpoint replace_first (find to : string) (s : string) : string :=
  match s with
  | EmptyString => ""
  | String c s' =>
      if starts_with find s then to +:+ drop (String.length find - 1) s'
      else String c (replace_first find to s')
  end.

(** [s/find/to/g]: every occurrence in the line, left to right, none
    overlapping an earlier one; [skip] characters of the occurrence just
    replaced are still to pass. *)
Fixpoint replace_all (find to : string) (skip : nat) (s : string) : string :=
  match s with
  | EmptyString => ""
  | String c s' =>
      match skip with
      | S k => replace_all find to k s'
      | O =>
          if starts_with find s then to +:+ replace_all find to (String.length find - 1) s'
          else String c (replace_all find to 0 s')
      end
  end.

Definition substitute (find : string) (items : list ritem) (global : bool) (s : string)
  : string :=
  if global then replace_all find (expand find items) 0 s
  else replace_first find (expand find items) s.

(** The lines sed writes, [i] being the number of the first of [ls]. *)
Fixpoint apply_from (r : range) (c : cmd) (count i : nat) (ls : list (string * bool))
  : list (string * bool) :=
  match ls with
  | [] => []
  | l :: ls' =>
      let rest := apply_from r c count (S i) ls' in
      if selects r count i then
        match c with
        | Delete => rest
        | Subst find items g => (substitute find items g (fst l), snd l) :: rest
        end
      else l :: rest
  end.

Definition apply (r : range) (c : cmd) (content : string) : string :=
  let ls := read_lines content in
  write_lines (apply_from r c (length ls) 1 ls).

End Sed.

(** ** The shell *)

(** The command line handed to [execAsync], for the commands the handlers
    build: words, single quotes, a backslash before a character, [;],
    [&&], [||], [|] and [>]. *)
Module Sh.

Inductive token : Type :=
  | W (w : string)
  | Semi
  | AndAnd
  | OrOr
  | Pipe
  | Gt.

(** The end of reading a command line: its meaning, a syntax error of the
    shell, or a construct outside the model (a variable, a glob, double
    quotes, a command substitution, ...). *)
Inductive front (A : Type) : Type :=
  | Parsed (a : A)
  | SyntaxError
  | Unsupported.
Arguments Parsed {A} a.
Arguments SyntaxError {A}.
Arguments Unsupported {A}.

Definition front_bind {A B} (x : front A) (f : A -> front B) : front B :=
  match x with
  | Parsed a => f a
  | SyntaxError => SyntaxError
  | Unsupported => Unsupported
  end.

Definition front_map {A B} (f : A -> B) (x : front A) : front B :=
  front_bind x (fun a => Parsed (f a)).

(** The characters that stand for themselves outside quotes. *)
Definition word_char (c : ascii) : bool :=
  let n := nat_of_ascii c in
  ((48 <=? n)%nat && (n <=? 57)%nat) || ((65 <=? n)%nat && (n <=? 90)%nat)
  || ((97 <=? n)%nat && (n <=? 122)%nat)
  || existsb (Ascii.eqb c) [ "-"; "."; "_"; "/"; ","; ":"; "+"; "@"; "%" ]%char.

Definition push (cur : option string) (c : ascii) : option string :=
  Some (default "" cur +:+ String c "").

Definition flush (cur : option string) : list token :=
  match cur with
  | Some w => [ W w ]
  | None => []
  end.

(** [q]: inside single quotes; [cur]: the word being read, if any. *)
Fixpoint lex (s : string) (q : bool) (cur : option string) : front (list token) :=
  match s with
  | EmptyString => if q then SyntaxError else Parsed (flush cur)
  | String c s' =>
      if q then
        if Ascii.eqb c "'" then lex s' false cur else lex s' true (push cur c)
      else if Ascii.eqb c "'" then lex s' true (Some (default "" cur))
      else if Ascii.eqb c "\" then
        match s' with
        | String d s'' =>
            if Ascii.eqb d JS.nl then Unsupported else lex s'' false (push cur d)
        | EmptyString => Unsupported
        end
      else if Ascii.eqb c " " then
        front_map (app (flush cur)) (lex s' false None)
      else if Ascii.eqb c ";" then
        front_map (app (flush cur ++ [ Semi ])) (lex s' false None)
      else if Ascii.eqb c "&" then
        match s' with
        | String "&" s'' => front_map (app (flush cur ++ [ AndAnd ])) (lex s'' false None)
        | _ => Unsupported
        end
      else if Ascii.eqb c "|" then
        match s' with
        | String "|" s'' => front_map (app (flush cur ++ [ OrOr ])) (lex s'' false None)
        | _ => front_map (app (flush cur ++ [ Pipe ])) (lex s' false None)
        end
      else if Ascii.eqb c ">" then
        match cur, s' with
        | Some _, _ => Unsupported
        | None, String ">" _ => Unsupported
        | None, _ => front_map (cons Gt) (lex s' false None)
        end
      else if word_char c then lex s' false (push cur c)
      else Unsupported
  end.

(** A simple command: its words and where its output goes. *)
Record simple : Type := {
  argv : list string;
  redirect : option string
}.

Fixpoint parse_simple (ts : list token) (args : list string) (out : option string)
  : front simple :=
  match ts with
  | [] =>
      match args with
      | [] => SyntaxError
      | _ => Parsed {| argv := args; redirect := out |}
      end
  | W w :: ts' => parse_simple ts' (args ++ [ w ]) out
  | Gt :: W p :: ts' =>
      match out with
      | None => parse_simple ts' args (Some p)
      | Some _ => Unsupported
      end
  | _ => SyntaxError
  end.

Definition is_sep (seps : list token) (t : token) : bool :=
  existsb (fun u => match t, u with
                    | Semi, Semi | AndAnd, AndAnd | OrOr, OrOr | Pipe, Pipe => true
                    | _, _ => false
                    end) seps.

(** The tokens cut at the separators [seps]: each piece with the separator
    that came before it ([None] for the first piece). *)
Fixpoint pieces (seps : list token) (ts : list token) (before : option token)
  (cur : list token) : list (option token * list token) :=
  match ts with
  | [] => [ (before, cur) ]
  | t :: ts' =>
      if is_sep seps t then (before, cur) :: pieces seps ts' (Some t) []
      else pieces seps ts' before (cur ++ [ t ])
  end.

Definition pipeline : Type := list simple.

Fixpoint all_parsed {A} (l : list (front A)) : front (list A) :=
  match l with
  | [] => Parsed []
  | x :: l' => front_bind x (fun a => front_map (cons a) (all_parsed l'))
  end.

Definition parse_pipeline (ts : list token) : front pipeline :=
  all_parsed (map (fun p => parse_simple (snd p) [] None) (pieces [ Pipe ] ts None [])).

(** An and-or list: pipelines, each after the first with [true] for [&&]
    and [false] for [||]. *)
Definition andor : Type := list (bool * pipeline).

Definition parse_andor (ts : list token) : front andor :=
  all_parsed
    (map (fun p => front_map (pair (match fst p with Some OrOr => false | _ => true end))
                     (parse_pipeline (snd p)))
         (pieces [ AndAnd; OrOr ] ts None [])).

(** The and-or lists between [;]; a last [;] may end the line. *)
Definition parse_list (ts : list token) : front (list andor) :=
  let ps := map snd (pieces [ Semi ] ts None []) in
  let ps := match rev ps with
            | [] :: r => rev r
            | _ => ps
            end in
  all_parsed (map parse_andor ps).

Definition parse (cmd : string) : front (list andor) :=
  front_bind (lex cmd false None) parse_list.

End Sh.

(** ** The commands the handlers run *)

(** What the run of a script leaves behind on its own: the exit status,
    and what it wrote to its standard output and to its standard error. *)
Record ran : Type := {
  exit_code : nat;
  printed : string;
  warned : string
}.

(** The programs whose scripts are the caller's own: [perl -pe], [awk] and
    the text [diff -u] prints for two files that differ. A script is
    taken to read its input and to write to its standard streams only,
    with any exit status and anything on either stream. [perl_pe] also
    gives the text perl rewrites the file with, when it gets that far
    ([None]: the file is not touched, as for a script that does not
    compile). *)
Record Tools : Type := {
  perl_pe : string -> bool -> string -> ran * option string;
  awk : string -> string -> ran;
  diff_u : string -> string -> string -> string -> string
}.

Module Cmd.

(** What a command leaves behind. *)
Record outcome : Type := {
  status : nat;
  out : string;
  err : string;
  files : gmap string string
}.

Definition start (s : gmap string string) : outcome :=
  {| status := 0; out := ""; err := ""; files := s |}.

Definition quiet (code : nat) (s : gmap string string) : outcome :=
  {| status := code; out := ""; err := ""; files := s |}.

Definition failed (code : nat) (diag : string) (s : gmap string string) : outcome :=
  {| status := code; out := ""; err := diag; files := s |}.

(** An operand that is a path: not empty, and not read as an option. *)
Definition operand (p : string) : bool :=
  match p with
  | EmptyString => false
  | String c _ => negb (Ascii.eqb c "-")
  end.

(** The suffix of [-iSUFFIX], when it is a plain one. *)
Definition in_place (opt : string) : option string :=
  if Sed.starts_with "-i" opt then
    let suffix := Sed.drop 2 opt in
    if JS.includes "*" suffix || JS.includes "/" suffix then None else Some suffix
  else None.

Definition keep_backup (suffix file content : string) (s : gmap string string)
  : gmap string string :=
  match suffix with
  | EmptyString => s
  | _ => <[file +:+ suffix := content]> s
  end.

(** [head -n]: the text up to its [n]-th newline. *)
Fixpoint head_lines (n : nat) (s : string) : string :=
  match n, s with
  | O, _ => ""
  | _, EmptyString => ""
  | S k, String c s' =>
      String c (head_lines (if Ascii.eqb c JS.nl then k else n) s')
  end.

Definition sed (opt script file : string) (s : gmap string string) : option outcome :=
  match in_place opt with
  | Some suffix =>
      if operand script && operand file then
        match Sed.parse script with
        | Sed.Bad => Some (failed 1 "sed: -e expression #1: invalid command" s)
        | Sed.NotModelled => None
        | Sed.Script r c =>
            match s !! file with
            | None => Some (failed 2 ("sed: can't read " +:+ file) s)
            | Some content =>
                Some (quiet 0 (<[file := Sed.apply r c content]>
                                 (keep_backup suffix file content s)))
            end
        end
      else None
  | None => None
  end.

Definition perl (T : Tools) (opt : string) (slurp : bool) (script file : string)
  (s : gmap string string) : option outcome :=
  match in_place opt with
  | Some suffix =>
      if operand file then
        match s !! file with
        | None => Some (failed 0 ("Can't open " +:+ file) s)
        | Some content =>
            let '(r, edit) := perl_pe T script slurp content in
            Some {| status := exit_code r; out := printed r; err := warned r;
                    files := match edit with
                             | Some text => <[file := text]> (keep_backup suffix file content s)
                             | None => s
                             end |}
        end
      else None
  | None => None
  end.

(** One program with its arguments, reading [stdin]. *)
Definition run_argv (T : Tools) (args : list string) (stdin : string)
  (s : gmap string string) : option outcome :=
  match args with
  | prog :: rest =>
      if String.eqb prog "rm" then
        match rest with
        | flag :: ps =>
            if String.eqb flag "-f" && forallb operand ps
            then Some (quiet 0 (foldr delete s ps)) else None
        | [] => None
        end
      else if String.eqb prog "cp" then
        match rest with
        | [ a; b ] =>
            if operand a && operand b then
              match s !! a with
              | Some c => if String.eqb a b then Some (failed 1 "cp: same file" s)
                          else Some (quiet 0 (<[b := c]> s))
              | None => Some (failed 1 ("cp: cannot stat " +:+ a) s)
              end
            else None
        | _ => None
        end
      else if String.eqb prog "mv" then
        match rest with
        | [ a; b ] =>
            if operand a && operand b then
              match s !! a with
              | Some c => if String.eqb a b then Some (failed 1 "mv: same file" s)
                          else Some (quiet 0 (<[b := c]> (delete a s)))
              | None => Some (failed 1 ("mv: cannot stat " +:+ a) s)
              end
            else None
        | _ => None
        end
      else if String.eqb prog "true" then
        match rest with
        | [] => Some (quiet 0 s)
        | _ => None
        end
      else if String.eqb prog "head" then
        match rest with
        | [ n ] => if String.eqb n "-50"
                   then Some {| status := 0; out := head_lines 50 stdin; err := ""; files := s |}
                   else None
        | _ => None
        end
      else if String.eqb prog "diff" then
        match rest with
        | [ u; a; b ] =>
            if String.eqb u "-u" && operand a && operand b then
              match s !! a, s !! b with
              | Some ca, Some cb =>
                  if String.eqb ca cb then Some (quiet 0 s)
                  else Some {| status := 1; out := diff_u T a b ca cb; err := ""; files := s |}
              | _, _ => Some (failed 2 "diff: No such file or directory" s)
              end
            else None
        | _ => None
        end
      else if String.eqb prog "sed" then
        match rest with
        | [ opt; script; file ] => sed opt script file s
        | _ => None
        end
      else if String.eqb prog "perl" then
        match rest with
        | [ opt; pe; script; file ] =>
            if String.eqb pe "-pe" then perl T opt false script file s else None
        | [ opt; whole; pe; script; file ] =>
            if String.eqb whole "-0777" && String.eqb pe "-pe"
            then perl T opt true script file s else None
        | _ => None
        end
      else if String.eqb prog "awk" then
        match rest with
        | [ script; file ] =>
            if operand script && operand file then
              match s !! file with
              | Some content =>
                  let r := awk T script content in
                  Some {| status := exit_code r; out := printed r; err := warned r; files := s |}
              | None => Some (failed 2 ("awk: cannot open " +:+ file) s)
              end
            else None
        | _ => None
        end
      else None
  | [] => None
  end.

(** [> path] empties the file before the program runs and holds its
    output afterwards. *)
Definition run_simple (T : Tools) (c : Sh.simple) (stdin : string)
  (s : gmap string string) : option outcome :=
  match Sh.redirect c with
  | None => run_argv T (Sh.argv c) stdin s
  | Some p =>
      if operand p then
        match run_argv T (Sh.argv c) stdin (<[p := ""]> s) with
        | Some o => Some {| status := status o; out := ""; err := err o;
                            files := <[p := out o]> (files o) |}
        | None => None
        end
      else None
  end.

(** A pipeline: each command reads what the one before wrote; the status
    is the last command's. *)
Fixpoint run_pipeline (T : Tools) (p : Sh.pipeline) (acc : outcome) : option outcome :=
  match p with
  | [] => Some acc
  | c :: p' =>
      match run_simple T c (out acc) (files acc) with
      | Some o => run_pipeline T p'
                    {| status := status o; out := out o;
                       err := err acc +:+ err o; files := files o |}
      | None => None
      end
  end.

Definition after (acc o : outcome) : outcome :=
  {| status := status o; out := out acc +:+ out o;
     err := err acc +:+ err o; files := files o |}.

(** [a && b] runs [b] after a zero status, [a || b] after a non-zero one. *)
Fixpoint run_andor (T : Tools) (l : Sh.andor) (acc : outcome) : option outcome :=
  match l with
  | [] => Some acc
  | (on_success, p) :: l' =>
      if Bool.eqb on_success (status acc =? 0)%nat then
        match run_pipeline T p (start (files acc)) with
        | Some o => run_andor T l' (after acc o)
        | None => None
        end
      else run_andor T l' acc
  end.

Fixpoint run_list (T : Tools) (l : list Sh.andor) (acc : outcome) : option outcome :=
  match l with
  | [] => Some acc
  | a :: l' =>
      match run_andor T a (start (files acc)) with
      | Some o => run_list T l' (after acc o)
      | None => None
      end
  end.

(** [sh -c cmd]. *)
Definition sh (T : Tools) (cmd : string) (s : gmap string string) : option outcome :=
  match Sh.parse cmd with
  | Sh.Parsed l => run_list T l (start s)
  | Sh.SyntaxError => Some (failed 2 "sh: Syntax error" s)
  | Sh.Unsupported => None
  end.

(** [await execAsync(cmd)]: the output of the command, or a rejection
    when its status is not zero. *)
Definition execAsync (T : Tools) (cmd : string) : Fs.M (string * string) :=
  fun s =>
    match sh T cmd s with
    | Some o =>
        if (status o =? 0)%nat then (Fs.Ret (out o, err o), files o)
        else (Fs.Throw (Fs.ExecException cmd (status o)), files o)
    | None => (Fs.Stuck, s)
    end.

End Cmd.

(** ** The tool handlers *)

Module Server.

Import Fs.
Local Open Scope handler_scope.

Section Handlers.

Variable T : Tools.
Variable E : RegExpEngine.

(** [new RegExp(...)] throws a [SyntaxError] on a pattern the engine
    refuses. *)
Definition syntax_error (pattern : string) : exn :=
  Error ("Invalid regular expression: /" +:+ pattern +:+ "/").

(** [if (typeof file === 'string' && !existsSync(file)) throw ...]. *)
Definition require_file (file : string) : M unit :=
  do found <- test_fs (existsSync file);
  if found then ret tt else throw (Error ("File not found: " +:+ file)).

(** *** sed_edit *)

Definition sed_edit (file pattern : string) (backup preview : bool) : M string :=
  do_ require_file file;
  do sedCmd <-
    (if preview then
       let tempFile := file +:+ ".preview.tmp" in
       do_ Cmd.execAsync T ("rm -f .bak; cp '" +:+ file +:+ "' '" +:+ tempFile +:+ "'");
       ret ("perl -i -pe '" +:+ pattern +:+ "' '" +:+ tempFile +:+ "' && diff -u '"
            +:+ file +:+ "' '" +:+ tempFile +:+ "' | head -50; rm -f '" +:+ tempFile +:+ "'")
     else
       let backupExt := if backup then ".bak" else "" in
       ret ("perl -i" +:+ backupExt +:+ " -pe '" +:+ pattern +:+ "' '" +:+ file +:+ "'"));
  do r <- Cmd.execAsync T sedCmd;
  let '(stdout, stderr) := r in
  if negb (String.eqb stderr "") then throw (Error ("Sed error: " +:+ stderr))
  else
    ret (if preview then
           "Preview of changes:" +:+ JS.NL
           +:+ (if String.eqb stdout "" then "No changes would be made" else stdout)
         else
           "Successfully edited " +:+ file
           +:+ (if backup then " (backup created as .bak)" else "")).

(** *** awk_process *)

(** [outputFile] counts when it is given and not empty. *)
Definition given (x : option string) : option string :=
  match x with
  | Some (String c r) => Some (String c r)
  | _ => None
  end.

Definition awk_process (file script : string) (outputFile : option string) : M string :=
  do_ require_file file;
  let awkCmd := "awk '" +:+ script +:+ "' '" +:+ file +:+ "'" in
  let awkCmd := match given outputFile with
                | Some out => awkCmd +:+ " > '" +:+ out +:+ "'"
                | None => awkCmd
                end in
  do r <- Cmd.execAsync T awkCmd;
  let '(stdout, stderr) := r in
  if negb (String.eqb stderr "") then throw (Error ("AWK error: " +:+ stderr))
  else
    ret (match given outputFile with
         | Some out => "Processed " +:+ file +:+ " -> " +:+ out
         | None => if String.eqb stdout "" then "AWK processing complete" else stdout
         end).

(** *** quick_replace *)

(** [s.replace(/[class]/g, '\\$&')]: a backslash before every character of
    the class. *)
Fixpoint escape (class : ascii -> bool) (s : string) : string :=
  match s with
  | EmptyString => ""
  | String c s' =>
      if class c then String "\" (String c (escape class s'))
      else String c (escape class s')
  end.

(** [s.replace(/'/g, "'\\''")]. *)
Fixpoint escape_quotes (s : string) : string :=
  match s with
  | EmptyString => ""
  | String c s' =>
      if Ascii.eqb c "'" then "'\''" +:+ escape_quotes s'
      else String c (escape_quotes s')
  end.

(** [/[.*+?^${}()|[\]\\]/]. *)
Definition find_class (c : ascii) : bool :=
  existsb (Ascii.eqb c)
    [ "."; "*"; "+"; "?"; "^"; "$"; "{"; "}"; "("; ")"; "|"; "["; "]"; "\" ]%char.

(** [/[&/\\]/]. *)
Definition replace_class (c : ascii) : bool :=
  existsb (Ascii.eqb c) [ "&"; "/"; "\" ]%char.

Definition escapedFind (find : string) : string :=
  escape_quotes (escape find_class find).

Definition escapedReplace (replace : string) : string :=
  escape_quotes (escape replace_class replace).

(** The sed script of [quick_replace], before it is quoted for the shell. *)
Definition replace_script (find replace : string) (all : bool) : string :=
  "s/" +:+ escape find_class find +:+ "/" +:+ escape replace_class replace
  +:+ (if all then "/g" else "/").

Definition quick_replace (file find replace : string) (all : bool) : M string :=
  do_ require_file file;
  let pattern :=
    if all then "s/" +:+ escapedFind find +:+ "/" +:+ escapedReplace replace +:+ "/g"
    else "s/" +:+ escapedFind find +:+ "/" +:+ escapedReplace replace +:+ "/" in
  let sedCmd := "sed -i.bak '" +:+ pattern +:+ "' '" +:+ file +:+ "'" in
  do_ Cmd.execAsync T sedCmd;
  ret ("Replaced " +:+ JS.DQ +:+ find +:+ JS.DQ +:+ " with " +:+ JS.DQ +:+ replace
       +:+ JS.DQ +:+ " in " +:+ file).

(** *** line_edit *)

(** [lineRange || `${lineNumber}`]. *)
Definition range_of (lineNumber : option Z) (lineRange : option string) : string :=
  match lineRange with
  | Some (String c r) => String c r
  | _ => match lineNumber with
         | Some n => JS.Z_toString n
         | None => "undefined"
         end
  end.

Definition line_edit (file : string) (lineNumber : option Z) (lineRange : option string)
  (action : string) (content : option string) : M string :=
  do_ require_file file;
  let range := range_of lineNumber lineRange in
  let escapedContent := escape_quotes (default "" content) in
  do sedCmd <-
    (if String.eqb action "replace" then
       ret ("sed -i.bak '" +:+ range +:+ "s/.*/" +:+ escapedContent +:+ "/' '" +:+ file +:+ "'")
     else if String.eqb action "delete" then
       ret ("sed -i.bak '" +:+ range +:+ "d' '" +:+ file +:+ "'")
     else if String.eqb action "insert_after" then
       ret ("sed -i.bak '" +:+ range +:+ "a\" +:+ JS.NL +:+ escapedContent
            +:+ "' '" +:+ file +:+ "'")
     else if String.eqb action "insert_before" then
       ret ("sed -i.bak '" +:+ range +:+ "i\" +:+ JS.NL +:+ escapedContent
            +:+ "' '" +:+ file +:+ "'")
     else throw (Error ("Unknown action: " +:+ action)));
  do_ Cmd.execAsync T sedCmd;
  ret ("Successfully performed " +:+ action +:+ " on line(s) " +:+ range
       +:+ " in " +:+ file).

(** *** perl_edit *)

Definition perl_edit (file script : string) (backup multiline : bool) : M string :=
  do_ require_file file;
  let backupExt := if backup then ".bak" else "" in
  let multilineFlag := if multiline then "-0777 " else "" in
  let perlCmd := "perl -i" +:+ backupExt +:+ " " +:+ multilineFlag +:+ "-pe '" +:+ script
                 +:+ "' '" +:+ file +:+ "'" in
  do_ Cmd.execAsync T perlCmd;
  ret ("Successfully edited " +:+ file +:+ " using Perl"
       +:+ (if backup then " (backup created as .bak)" else "")).

(** *** diff_preview *)

Inductive tool_name : Type :=
  | ToolPerl
  | ToolSed
  | ToolAwk.

Definition diff_preview (file command : string) (tool : tool_name) : M string :=
  do_ require_file file;
  let tempFile := file +:+ ".preview.tmp" in
  do_ Cmd.execAsync T ("rm -f .bak; cp '" +:+ file +:+ "' '" +:+ tempFile +:+ "'");
  let editCmd :=
    match tool with
    | ToolPerl => "perl -i -pe '" +:+ command +:+ "' '" +:+ tempFile +:+ "'"
    | ToolSed => "sed -i.tmp '" +:+ command +:+ "' '" +:+ tempFile +:+ "' && rm -f '"
                 +:+ tempFile +:+ ".tmp'"
    | ToolAwk => "awk '" +:+ command +:+ "' '" +:+ tempFile +:+ "' > '" +:+ tempFile
                 +:+ ".new' && mv '" +:+ tempFile +:+ ".new' '" +:+ tempFile +:+ "'"
    end in
  do_ Cmd.execAsync T editCmd;
  do r <- Cmd.execAsync T ("diff -u '" +:+ file +:+ "' '" +:+ tempFile +:+ "' || true");
  do_ Cmd.execAsync T ("rm -f '" +:+ tempFile +:+ "'");
  ret (if String.eqb (fst r) "" then "No changes would be made"
       else "Preview of changes:" +:+ JS.NL +:+ fst r).

(** *** restore_backup *)

Definition alternatives (file : string) (s : gmap string string) : list string :=
  List.filter (fun p => existsSync p s)
    [ file +:+ "~"; file +:+ ".backup"; file +:+ ".orig" ].

Definition restore_backup (file : string) (keepBackup : bool) : M string :=
  let backupFile := file +:+ ".bak" in
  do found <- test_fs (existsSync backupFile);
  if negb found then
    do alts <- (fun s => (Ret (alternatives file s), s));
    match alts with
    | _ :: _ => throw (Error ("No .bak file found, but found: " +:+ JS.join ", " alts))
    | [] => throw (Error ("No backup file found for " +:+ file))
    end
  else
    do backupContent <- readFile backupFile;
    do current <- test_fs (existsSync file);
    do_ (if current then
           do c <- readFile file;
           writeFile (file +:+ ".before-restore") c
         else ret tt);
    do_ writeFile file backupContent;
    do_ (if negb keepBackup then
           do_ Cmd.execAsync T ("rm -f '" +:+ backupFile +:+ "'");
           ret tt
         else ret tt);
    ret ("Successfully restored " +:+ file +:+ " from backup"
         +:+ (if negb keepBackup then " (backup removed)" else "")
         +:+ JS.NL +:+ "Safety backup created: " +:+ file +:+ ".before-restore").

(** *** list_backups *)

(** [backupFile.replace(/\.(bak|backup|orig|~)$/, '')], the name of the
    original file that [list_backups] shows beside a backup: the text
    before the first dot that is followed by exactly one of the four
    suffixes up to the end of the name. *)
Fixpoint originalFile (backupFile : string) : string :=
  match backupFile with
  | EmptyString => ""
  | String c rest =>
      if Ascii.eqb c "." && existsb (String.eqb rest) [ "bak"; "backup"; "orig"; "~" ]
      then ""
      else String c (originalFile rest)
  end.

(** *** read_file, search_in_file, show_around_line *)

(** One line of a context window: the marker, the line number in a field
    of 4, the text. *)
Definition numbered (marker : string) (n : JS.num) (text : string) : string :=
  marker +:+ " " +:+ JS.padStart 4 (JS.toString n) +:+ ": " +:+ text.

(** The block pushed for a match at [index] (0-based): the given heading,
    then the window. *)
Definition match_block (heading : string) (fileLines : list string) (index : nat)
  (context : Z) : list string :=
  let startLine := JS.Math_max (JS.Int 0) (JS.sub (JS.Int (Z.of_nat index)) (JS.Int context)) in
  let endLine := JS.Math_min (JS.Int (Z.of_nat (length fileLines) - 1))
                   (JS.add (JS.Int (Z.of_nat index)) (JS.Int context)) in
  heading ::
  map (fun i =>
         let marker := if (i =? Z.of_nat index)%Z then ">" else " " in
         numbered marker (JS.Int (i + 1)) (JS.at_index fileLines i))
      (JS.for_range startLine endLine).

(** [fileLines.forEach((line, index) => { if (regex.test(line)) ... })]:
    the regular expression carries its [lastIndex] from one line to the
    next. Gives [results] and [matchCount]. *)
Fixpoint search_each (heading : nat -> nat -> string) (regex : regexp E)
  (fileLines : list string) (context : Z) (rest : list string) (index : nat)
  (lastIndex matchCount : nat) : list string * nat :=
  match rest with
  | [] => ([], matchCount)
  | line :: rest' =>
      let '(hit, lastIndex') := RegExp_test E regex line lastIndex in
      if hit then
        let matchCount' := S matchCount in
        let '(results, n) :=
          search_each heading regex fileLines context rest' (S index) lastIndex' matchCount' in
        (match_block (heading matchCount' index) fileLines index context ++ results, n)
      else search_each heading regex fileLines context rest' (S index) lastIndex' matchCount
  end.

(** The [lines] argument of [read_file]: a string or an array. *)
Inductive lines_arg : Type :=
  | LinesString (s : string)
  | LinesArray (l : list string).

Definition truthy_lines (lines : option lines_arg) : bool :=
  match lines with
  | None | Some (LinesString EmptyString) => false
  | Some _ => true
  end.

(** [parseInt(x)] of a piece that may be missing ([undefined]). *)
Definition parse_piece (x : option string) : JS.num :=
  match x with
  | Some s => JS.parseInt s
  | None => JS.NaN
  end.

(** [[startStr, endStr] = lines], or the pieces of [lines.split('-')], or
    [lines] twice. *)
Definition range_pieces (lines : option lines_arg) : option string * option string :=
  match lines with
  | Some (LinesArray l) => (l !! 0%nat, l !! 1%nat)
  | Some (LinesString s) =>
      if JS.includes "-" s
      then (JS.split "-" s !! 0%nat, JS.split "-" s !! 1%nat)
      else (Some s, Some s)
  | None => (None, None)
  end.

Definition read_file (file : string) (lines : option lines_arg) (search : option string)
  (context : Z) : M string :=
  do_ require_file file;
  do content <- readFile file;
  let fileLines := JS.split JS.nl content in
  match search with
  | Some (String c p) =>
      let search := String c p in
      match RegExp_new E search "gi" with
      | None => throw (syntax_error search)
      | Some regex =>
          let heading (_ index : nat) :=
            JS.NL +:+ "--- Match at line " +:+ JS.Z_toString (Z.of_nat index + 1) +:+ " ---" in
          let results := fst (search_each heading regex fileLines context fileLines 0 0 0) in
          ret (match results with
               | _ :: _ =>
                   "Search results for " +:+ JS.DQ +:+ search +:+ JS.DQ +:+ " in " +:+ file
                   +:+ ":" +:+ JS.NL +:+ JS.join JS.NL results
               | [] =>
                   "No matches found for " +:+ JS.DQ +:+ search +:+ JS.DQ +:+ " in " +:+ file
               end)
      end
  | _ =>
      if truthy_lines lines then
        let '(startStr, endStr) := range_pieces lines in
        let start := parse_piece startStr in
        let end_ := if bool_decide (endStr = Some "$")
                    then JS.Int (Z.of_nat (length fileLines)) else parse_piece endStr in
        let selectedLines := JS.slice fileLines (JS.sub start (JS.Int 1)) end_ in
        let numberedLines :=
          JS.mapi (fun line index =>
                     JS.padStart 4 (JS.toString (JS.add start (JS.Int (Z.of_nat index))))
                     +:+ ": " +:+ line) selectedLines in
        ret ("Lines " +:+ JS.toString start +:+ "-"
             +:+ (if JS.strict_eq end_ (JS.Int (Z.of_nat (length fileLines)))
                  then "$" else JS.toString end_)
             +:+ " of " +:+ file +:+ ":" +:+ JS.NL +:+ JS.join JS.NL numberedLines)
      else
        let maxLines := 100%nat in
        let displayLines :=
          if (maxLines <? length fileLines)%nat then JS.slice fileLines (JS.Int 0) (JS.Int 100)
          else fileLines in
        let numberedLines :=
          JS.mapi (fun line index =>
                     JS.padStart 4 (JS.Z_toString (Z.of_nat index + 1)) +:+ ": " +:+ line)
                  displayLines in
        let truncated :=
          if (maxLines <? length fileLines)%nat then
            JS.NL +:+ "... (showing first " +:+ JS.Z_toString 100 +:+ " of "
            +:+ JS.Z_toString (Z.of_nat (length fileLines)) +:+ " lines)"
          else "" in
        ret ("Contents of " +:+ file +:+ ":" +:+ JS.NL +:+ JS.join JS.NL numberedLines
             +:+ truncated)
  end.

Definition search_in_file (file pattern : string) (context : Z) (caseInsensitive : bool)
  : M string :=
  do_ require_file file;
  do content <- readFile file;
  let fileLines := JS.split JS.nl content in
  let flags := if caseInsensitive then "gi" else "g" in
  match RegExp_new E pattern flags with
  | None => throw (syntax_error pattern)
  | Some regex =>
      let heading (matchCount index : nat) :=
        JS.NL +:+ "--- Match " +:+ JS.Z_toString (Z.of_nat matchCount) +:+ " at line "
        +:+ JS.Z_toString (Z.of_nat index + 1) +:+ " ---" in
      let '(results, matchCount) :=
        search_each heading regex fileLines context fileLines 0 0 0 in
      ret (match results with
           | _ :: _ =>
               "Found " +:+ JS.Z_toString (Z.of_nat matchCount) +:+ " matches for " +:+ JS.DQ
               +:+ pattern +:+ JS.DQ +:+ " in " +:+ file +:+ ":" +:+ JS.NL
               +:+ JS.join JS.NL results
           | [] =>
               "No matches found for " +:+ JS.DQ +:+ pattern +:+ JS.DQ +:+ " in " +:+ file
           end)
  end.

(** The [lineNumber] argument: a number, or text to [parseInt]. *)
Inductive line_number : Type :=
  | Number (n : JS.num)
  | Text (s : string).

Definition show_around_line (file : string) (lineNumber : line_number) (context : Z)
  : M string :=
  do_ require_file file;
  do content <- readFile file;
  let fileLines := JS.split JS.nl content in
  let targetLine := match lineNumber with
                    | Number n => n
                    | Text s => JS.parseInt s
                    end in
  let count := JS.Int (Z.of_nat (length fileLines)) in
  if JS.lt targetLine (JS.Int 1) || JS.gt targetLine count then
    throw (Error ("Line number " +:+ JS.toString targetLine +:+ " is out of range (file has "
                  +:+ JS.toString count +:+ " lines)"))
  else
    let startLine := JS.Math_max (JS.Int 1) (JS.sub targetLine (JS.Int context)) in
    let endLine := JS.Math_min count (JS.add targetLine (JS.Int context)) in
    let results :=
      map (fun i =>
             let marker := if JS.strict_eq (JS.Int i) targetLine then ">" else " " in
             numbered marker (JS.Int i) (JS.at_index fileLines (i - 1)))
          (JS.for_range startLine endLine) in
    ret ("Context around line " +:+ JS.toString targetLine +:+ " in " +:+ file +:+ ":"
         +:+ JS.NL +:+ JS.join JS.NL results).

End Handlers.

End Server.

(** ** Notions the properties are stated with *)

Module Spec.

(** [s] mentions [sub]. *)
Definition mentions (s sub : string) : Prop :=
  exists pre post, s = pre +:+ sub +:+ post.

(** The same request made [n] times in a row: the results, and the file
    system at the end. *)
Fixpoint calls {A} (m : Fs.M A) (n : nat) (s : gmap string string)
  : list (Fs.res A) * gmap string string :=
  match n with
  | O => ([], s)
  | S n' =>
      let '(r, s') := m s in
      let '(rs, s'') := calls m n' s' in
      (r :: rs, s'')
  end.

(** The error of [restore_backup] when there is nothing to restore from. *)
Definition no_backup_error (msg : string) : Prop :=
  exists rest, msg = "No backup file found" +:+ rest \/ msg = "No .bak file found" +:+ rest.

(** The suffixes of the backups that are looked for but never used. *)
Definition alternate_suffixes : list string := [ "~"; ".backup"; ".orig" ].

(** The text for line [n] (1-based) of [lines] in a window centred on
    line [center]: the marker on the centre line, the number padded on the
    left to 4 characters, the line. *)
Definition rendered (lines : list string) (center n : Z) (text : string) : Prop :=
  exists line,
    nth_error lines (Z.to_nat (n - 1)) = Some line
    /\ text = (if (n =? center)%Z then ">" else " ") +:+ " "
              +:+ JS.padStart 4 (JS.Z_toString n) +:+ ": " +:+ line.

(** [w] shows exactly the lines [lo] to [hi] (1-based, both included), in
    order, one entry a line. *)
Definition shows (w lines : list string) (center lo hi : Z) : Prop :=
  length w = Z.to_nat (hi - lo + 1)
  /\ forall n, (lo <= n <= hi)%Z ->
       exists text, nth_error w (Z.to_nat (n - lo)) = Some text /\ rendered lines center n text.

(** The context window of line [i] with radius [c] in a file of [count]
    lines. *)
Definition window_lo (i c : Z) : Z := Z.max 1 (i - c).
Definition window_hi (count i c : Z) : Z := Z.min count (i + c).

(** The lines (0-based, counted from [index]) that the search reports:
    those on which the test of the regular expression, carried from line
    to line, succeeds. *)
Fixpoint reported (E : RegExpEngine) (regex : regexp E) (rest : list string)
  (index lastIndex : nat) : list nat :=
  match rest with
  | [] => []
  | line :: rest' =>
      let '(hit, lastIndex') := RegExp_test E regex line lastIndex in
      if hit then index :: reported E regex rest' (S index) lastIndex'
      else reported E regex rest' (S index) lastIndex'
  end.

(** The heading of the block of the [k]-th match, found on line [index]
    (0-based), in [search_in_file]. *)
Definition match_heading (k index : nat) : string :=
  JS.NL +:+ "--- Match " +:+ JS.Z_toString (Z.of_nat k) +:+ " at line "
  +:+ JS.Z_toString (Z.of_nat index + 1) +:+ " ---".

(** The block of the [k]-th match, on line [index] (0-based): its heading
    and the window of that line. *)
Definition is_block (lines : list string) (context : Z) (heading : nat -> nat -> string)
  (m : nat * nat) (block : list string) : Prop :=
  exists w,
    block = heading (fst m) (snd m) :: w
    /\ shows w lines (Z.of_nat (snd m) + 1)
         (window_lo (Z.of_nat (snd m) + 1) context)
         (window_hi (Z.of_nat (length lines)) (Z.of_nat (snd m) + 1) context).

(** A line number as the caller writes it in [lineRange], and as
    [`${lineNumber}`] prints it. *)
Definition decimal (n : nat) : string := JS.Z_toString (Z.of_nat n).

Fixpoint all_digits (s : string) : bool :=
  match s with
  | EmptyString => true
  | String c s' => Sed.is_digit c && all_digits s'
  end.

(** The lines sed reads from a file: no newline inside a line, a newline
    after every line but, possibly, the last, and a last line without
    newline is not empty. *)
Fixpoint file_lines (ls : list (string * bool)) : Prop :=
  match ls with
  | [] => True
  | (x, t) :: r =>
      JS.includes JS.nl x = false
      /\ match r with
         | [] => t = true \/ x <> ""
         | _ => t = true
         end
      /\ file_lines r
  end.

(** How often [find] occurs in [s], counting every position. *)
Fixpoint occurrences (find s : string) : nat :=
  match s with
  | EmptyString => 0
  | String _ s' => (if Sed.starts_with find s then 1 else 0) + occurrences find s'
  end.

(** The characters of a text to find that [quick_replace] gets through
    to sed as themselves: all but the newline, the [/] that it does not
    escape, and the characters that its backslash turns into operators of
    a basic regular expression. *)
Definition literal_for_sed (c : ascii) : bool :=
  negb (existsb (Ascii.eqb c) [ "+"; "?"; "{"; "}"; "("; ")"; "|"; "/"; JS.nl ]%char).

Fixpoint all_chars (p : ascii -> bool) (s : string) : bool :=
  match s with
  | EmptyString => true
  | String c s' => p c && all_chars p s'
  end.

(** What [quick_replace] does to one line of the file. *)
Definition replace_in_line (find replace : string) (all : bool) (l : string * bool)
  : string * bool :=
  (if all then Sed.replace_all find replace 0 (fst l)
   else Sed.replace_first find replace (fst l), snd l).

(** Tools whose scripts leave the text as it is, for examples. *)
Definition idle_tools : Tools := {|
  perl_pe := fun _ _ text => ({| exit_code := 0; printed := ""; warned := "" |}, Some text);
  awk := fun _ text => {| exit_code := 0; printed := text; warned := "" |};
  diff_u := fun a b _ _ => "--- " +:+ a +:+ JS.NL +:+ "+++ " +:+ b +:+ JS.NL
|}.

(** A path that the shell passes on unchanged between single quotes and
    that no program reads as an option. *)
Definition no_quote (p : string) : bool := negb (JS.includes "'" p).

Definition safe_path (p : string) : bool := Cmd.operand p && no_quote p.

(** The name ends with a dot. *)
Fixpoint ends_with_dot (p : string) : bool :=
  match p with
  | EmptyString => false
  | String c EmptyString => Ascii.eqb c "."
  | String _ r => ends_with_dot r
  end.

(** The line does not match the pattern. *)
Definition no_match (E : RegExpEngine) (regex : regexp E) (line : string) : Prop :=
  RegExp_matches E regex line = false.

(** A text that [exec] passes on: it buffers what a command writes to its
    standard output, and to its standard error, up to 1024 * 1024 bytes
    each. *)
Definition within_buffer (x : string) : bool :=
  (N.of_nat (String.length x) <=? 1048576)%N.

(** A run whose output [exec] passes on. *)
Definition buffered (r : ran) : bool :=
  within_buffer (printed r) && within_buffer (warned r).

(** What the command of a preview makes of the content, when the tool
    ends with status 0 and an output that [exec] passes on. *)
Definition preview_edit (T : Tools) (tool : Server.tool_name) (command content : string)
  : option string :=
  match tool with
  | Server.ToolPerl =>
      let '(r, edit) := perl_pe T command false content in
      if (exit_code r =? 0)%nat && buffered r then Some (default content edit) else None
  | Server.ToolSed =>
      match Sed.parse command with
      | Sed.Script r c => Some (Sed.apply r c content)
      | _ => None
      end
  | Server.ToolAwk =>
      let r := awk T command content in
      if (exit_code r =? 0)%nat && buffered r then Some (printed r) else None
  end.

(** Tools whose scripts leave the text as it is and warn on their
    standard error, for examples. *)
Definition noisy_tools : Tools := {|
  perl_pe := fun _ _ text =>
    ({| exit_code := 0; printed := ""; warned := "warning" |}, Some text);
  awk := fun _ text => {| exit_code := 0; printed := text; warned := "warning" |};
  diff_u := diff_u idle_tools
|}.

(** The last component of a path: two paths with different last
    components name different files, however they are spelled. *)
Fixpoint base_name (p : string) : string :=
  match p with
  | EmptyString => ""
  | String c r =>
      if JS.includes "/" r then base_name r
      else if Ascii.eqb c "/" then r
      else p
  end.

(** Well-formed UTF-8: the texts that [readFile(p, 'utf-8')] gives as
    they are stored and that [writeFile] stores as they are given. *)
Definition byte_in (lo hi : nat) (c : ascii) : bool :=
  ((lo <=? nat_of_ascii c)%nat && (nat_of_ascii c <=? hi)%nat)%bool.

Fixpoint utf8 (s : string) : bool :=
  match s with
  | EmptyString => true
  | String c r =>
      if byte_in 0 127 c then utf8 r
      else if byte_in 194 223 c then
        match r with
        | String c1 r1 => byte_in 128 191 c1 && utf8 r1
        | _ => false
        end
      else if byte_in 224 239 c then
        match r with
        | String c1 (String c2 r2) =>
            byte_in (if byte_in 224 224 c then 160 else 128)
                    (if byte_in 237 237 c then 159 else 191) c1
            && byte_in 128 191 c2 && utf8 r2
        | _ => false
        end
      else if byte_in 240 244 c then
        match r with
        | String c1 (String c2 (String c3 r3)) =>
            byte_in (if byte_in 240 240 c then 144 else 128)
                    (if byte_in 244 244 c then 143 else 191) c1
            && byte_in 128 191 c2 && byte_in 128 191 c3 && utf8 r3
        | _ => false
        end
      else false
  end.

(** The files after perl has run in place on [file], which held
    [content]: when perl rewrote the file, the file holds the new text and
    [file.bak] the old one if a backup was asked for. *)
Definition rewritten (file content : string) (backup : bool) (edit : option string)
  (s : gmap string string) : gmap string string :=
  match edit with
  | Some text => <[file := text]> (if backup then <[file +:+ ".bak" := content]> s else s)
  | None => s
  end.

(** The files beside the scratch copy [tmp] that the edit command of a
    preview writes and removes. *)
Definition scratch (tool : Server.tool_name) (tmp : string) : list string :=
  match tool with
  | Server.ToolPerl => []
  | Server.ToolSed => [ tmp +:+ ".tmp" ]
  | Server.ToolAwk => [ tmp +:+ ".new" ]
  end.

End Spec.

(** ** Strings *)

#[local] Arguments String.append : simpl nomatch.

Lemma append_assoc (a b c : string) : (a +:+ b) +:+ c = a +:+ (b +:+ c).
Proof. induction a as [|x a IH]; simpl; [reflexivity | now rewrite IH]. Qed.

Lemma append_nil_r (a : string) : a +:+ "" = a.
Proof. induction a as [|x a IH]; simpl; [reflexivity | now rewrite IH]. Qed.

Lemma append_length (a b : string) :
  String.length (a +:+ b) = String.length a + String.length b.
Proof. induction a as [|x a IH]; simpl; [reflexivity | now rewrite IH]. Qed.

Lemma append_inv_l (a b c : string) : a +:+ b = a +:+ c -> b = c.
Proof. induction a as [|x a IH]; simpl; intros H; [exact H | injection H; auto]. Qed.

(** A path and the same path with a suffix are different files. *)
Lemma suffix_neq (a b : string) : b <> "" -> a <> a +:+ b.
Proof.
  intros Hb H. apply (f_equal String.length) in H. rewrite append_length in H.
  destruct b; [congruence | simpl in H; lia].
Qed.

Lemma suffixes_neq (a b c : string) : b <> c -> a +:+ b <> a +:+ c.
Proof. intros Hbc H. apply Hbc. eapply append_inv_l, H. Qed.

(** ** The shell reads back what the handlers quote *)

Lemma includes_app (c : ascii) (a b : string) :
  JS.includes c (a +:+ b) = JS.includes c a || JS.includes c b.
Proof.
  induction a as [|x a IH]; simpl; [reflexivity|].
  rewrite IH. now rewrite orb_assoc.
Qed.

(** Between quotes, text quoted by [escape_quotes] adds exactly the
    original text to the word in progress, and the shell is still between
    quotes after it. *)
Lemma lex_escape_quotes (w rest cur : string) :
  Sh.lex (Server.escape_quotes w +:+ rest) true (Some cur)
  = Sh.lex rest true (Some (cur +:+ w)).
Proof.
  revert cur. induction w as [|c w IH]; intros cur.
  - simpl. now rewrite append_nil_r.
  - simpl. destruct (Ascii.eqb c "'") eqn:Hc.
    + apply Ascii.eqb_eq in Hc. subst c.
      simpl. rewrite IH, append_assoc. reflexivity.
    + simpl. rewrite Hc. unfold Sh.push. simpl.
      rewrite IH, append_assoc. reflexivity.
Qed.

Lemma escape_quotes_id (w : string) : Spec.no_quote w = true -> Server.escape_quotes w = w.
Proof.
  unfold Spec.no_quote. induction w as [|c w IH]; simpl; [reflexivity|].
  rewrite negb_orb. intros [Hc Hw]%andb_prop.
  apply negb_true_iff in Hc. rewrite Hc. now rewrite IH.
Qed.

Lemma lex_plain (w rest cur : string) :
  Spec.no_quote w = true ->
  Sh.lex (w +:+ rest) true (Some cur) = Sh.lex rest true (Some (cur +:+ w)).
Proof.
  intros H. rewrite <- (escape_quotes_id w H) at 1. apply lex_escape_quotes.
Qed.

Lemma escape_quotes_app (a b : string) :
  Server.escape_quotes (a +:+ b) = Server.escape_quotes a +:+ Server.escape_quotes b.
Proof.
  induction a as [|c a IH]; simpl; [reflexivity|].
  destruct (Ascii.eqb c "'"); simpl; now rewrite IH.
Qed.

(** [rm -f 'p'] removes [p], whatever the tools. *)
Lemma sh_rm (T : Tools) (p : string) (s : gmap string string) :
  Spec.safe_path p = true ->
  Cmd.sh T ("rm -f '" +:+ p +:+ "'") s = Some (Cmd.quiet 0 (delete p s)).
Proof.
  intros [Hop Hq]%andb_prop.
  unfold Cmd.sh, Sh.parse. simpl.
  rewrite (lex_plain p _ _ Hq). simpl.
  unfold Cmd.run_simple, Cmd.run_argv. simpl.
  rewrite Hop. reflexivity.
Qed.

(** The [sed -i.bak] command line of [quick_replace] and [line_edit]
    reaches sed with exactly the script that was quoted and the file. *)
Lemma sh_sed (T : Tools) (script file : string) (s : gmap string string) :
  Spec.no_quote file = true ->
  Cmd.sh T ("sed -i.bak '" +:+ Server.escape_quotes script +:+ "' '" +:+ file +:+ "'") s
  = Cmd.sed "-i.bak" script file s.
Proof.
  intros Hq.
  unfold Cmd.sh, Sh.parse. simpl.
  rewrite lex_escape_quotes. simpl.
  rewrite (lex_plain file _ _ Hq). simpl.
  unfold Cmd.run_simple, Cmd.run_argv. simpl Sh.redirect. simpl Sh.argv.
  change (String.eqb "sed" "rm") with false.
  change (String.eqb "sed" "cp") with false.
  change (String.eqb "sed" "mv") with false.
  change (String.eqb "sed" "true") with false.
  change (String.eqb "sed" "head") with false.
  change (String.eqb "sed" "diff") with false.
  change (String.eqb "sed" "sed") with true.
  cbv iota.
  destruct (Cmd.sed "-i.bak" script file s) as [[]|]; reflexivity.
Qed.

(** ** restore_backup *)

Lemma existsSync_Some (p c : string) (s : gmap string string) :
  s !! p = Some c -> Fs.existsSync p s = true.
Proof. intros H. unfold Fs.existsSync. rewrite H. reflexivity. Qed.

Lemma existsSync_None (p : string) (s : gmap string string) :
  s !! p = None -> Fs.existsSync p s = false.
Proof.
  intros H. unfold Fs.existsSync. rewrite H.
  apply bool_decide_eq_false. intros [x Hx]. discriminate.
Qed.

Lemma calls_fixed {A} (m : Fs.M A) (r : Fs.res A) (s : gmap string string) (n : nat) :
  m s = (r, s) -> Spec.calls m n s = (repeat r n, s).
Proof.
  intros H. induction n as [|n IH]; simpl; [reflexivity|].
  rewrite H, IH. reflexivity.
Qed.

Lemma mentions_self (x : string) : Spec.mentions x x.
Proof. exists "", "". simpl. now rewrite append_nil_r. Qed.

Lemma mentions_append_l (pre s x : string) : Spec.mentions s x -> Spec.mentions (pre +:+ s) x.
Proof.
  intros (a & b & ->). exists (pre +:+ a), b. now rewrite append_assoc.
Qed.

Lemma mentions_append_r (s post x : string) : Spec.mentions s x -> Spec.mentions (s +:+ post) x.
Proof.
  intros (a & b & ->). exists a, (b +:+ post). now rewrite !append_assoc.
Qed.

(** A joined list mentions each of its elements. *)
Lemma join_mentions (sep : string) (l : list string) (x : string) :
  In x l -> Spec.mentions (JS.join sep l) x.
Proof.
  unfold JS.join. induction l as [|y l IH]; intros Hin; [destruct Hin|].
  destruct Hin as [->|Hin].
  - destruct l; simpl; [apply mentions_self|].
    apply mentions_append_r, mentions_self.
  - destruct l as [|z l]; [destruct Hin|].
    change (String.concat sep (y :: z :: l)) with (y +:+ sep +:+ String.concat sep (z :: l)).
    apply mentions_append_l, mentions_append_l, IH, Hin.
Qed.

(** What a failing [restore_backup] throws. *)
Lemma restore_backup_missing (T : Tools) (file : string) (keepBackup : bool)
  (s : gmap string string) :
  s !! (file +:+ ".bak") = None ->
  Server.restore_backup T file keepBackup s
  = (Fs.Throw (Fs.Error
       match Server.alternatives file s with
       | [] => "No backup file found for " +:+ file
       | alts => "No .bak file found, but found: " +:+ JS.join ", " alts
       end), s).
Proof.
  intros H. unfold Server.restore_backup, Fs.bind, Fs.test_fs.
  rewrite (existsSync_None _ _ H). simpl.
  destruct (Server.alternatives file s); reflexivity.
Qed.

(** C2: when [file.bak] does not exist, [restore_backup] throws a
    no-backup-found error that mentions every alternate backup ([file~],
    [file.backup], [file.orig]) that exists, and the file system (so the
    target and every alternate) is as before, however often the call is
    repeated. *)
Theorem restore_backup_without_backup_fails (T : Tools) (file : string)
  (keepBackup : bool) (s : gmap string string) (n : nat) :
  s !! (file +:+ ".bak") = None ->
  exists msg,
    Server.restore_backup T file keepBackup s = (Fs.Throw (Fs.Error msg), s)
    /\ Spec.calls (Server.restore_backup T file keepBackup) n s
       = (repeat (Fs.Throw (Fs.Error msg)) n, s)
    /\ Spec.no_backup_error msg
    /\ forall suffix, In suffix Spec.alternate_suffixes ->
         is_Some (s !! (file +:+ suffix)) -> Spec.mentions msg (file +:+ suffix).
Proof.
  intros H. eexists. split; [apply restore_backup_missing, H|].
  split; [apply calls_fixed, restore_backup_missing, H|].
  split.
  - destruct (Server.alternatives file s) as [|a l].
    + exists (" for " +:+ file). left. reflexivity.
    + exists (", but found: " +:+ JS.join ", " (a :: l)). right. reflexivity.
  - intros suffix Hin [c Hc].
    assert (Halt : In (file +:+ suffix) (Server.alternatives file s)).
    { unfold Server.alternatives. apply filter_In. split.
      - unfold Spec.alternate_suffixes in Hin. simpl in Hin. simpl.
        destruct Hin as [<-|[<-|[<-|[]]]]; auto.
      - eapply existsSync_Some, Hc. }
    destruct (Server.alternatives file s) as [|a l]; [destruct Halt|].
    apply mentions_append_l, join_mentions, Halt.
Qed.

Lemma restore_backup_without_backup_fails_witness :
  let s : gmap string string := <["notes.txt.orig" := "old"]> (<["notes.txt" := "new"]> ∅) in
  s !! ("notes.txt" +:+ ".bak") = None
  /\ exists msg,
      Server.restore_backup Spec.idle_tools "notes.txt" true s = (Fs.Throw (Fs.Error msg), s)
      /\ Spec.calls (Server.restore_backup Spec.idle_tools "notes.txt" true) 3 s
         = (repeat (Fs.Throw (Fs.Error msg)) 3, s)
      /\ Spec.no_backup_error msg
      /\ forall suffix, In suffix Spec.alternate_suffixes ->
           is_Some (s !! ("notes.txt" +:+ suffix)) ->
           Spec.mentions msg ("notes.txt" +:+ suffix).
Proof.
  split; [reflexivity|].
  apply (restore_backup_without_backup_fails Spec.idle_tools "notes.txt" true _ 3).
  reflexivity.
Defined.




(** ** read_file, search_in_file, show_around_line *)

Lemma mapi_from_length {A B} (f : A -> nat -> B) (l : list A) (k : nat) :
  length (JS.mapi_from k f l) = length l.
Proof. revert k. induction l as [|x l IH]; intros k; simpl; [reflexivity | now rewrite IH]. Qed.

Lemma mapi_from_nth {A B} (f : A -> nat -> B) (l : list A) (k i : nat) :
  nth_error (JS.mapi_from k f l) i = option_map (fun x => f x (k + i)) (nth_error l i).
Proof.
  revert k i. induction l as [|x l IH]; intros k [|i]; simpl; try reflexivity.
  - now rewrite Nat.add_0_r.
  - rewrite IH. now rewrite Nat.add_succ_r.
Qed.

Lemma require_file_found (file content : string) (s : gmap string string) :
  s !! file = Some content -> Server.require_file file s = (Fs.Ret tt, s).
Proof.
  intros H. unfold Server.require_file, Fs.bind, Fs.test_fs.
  now rewrite (existsSync_Some _ _ _ H).
Qed.

(** [l.slice(0, n)] is the first [n] elements. *)
Lemma slice_first {A} (l : list A) (n : nat) :
  JS.slice l (JS.Int 0) (JS.Int (Z.of_nat n)) = firstn n l.
Proof.
  unfold JS.slice, JS.rel_index.
  destruct (Z.of_nat n <? 0)%Z eqn:Hn; [apply Z.ltb_lt in Hn; lia|].
  simpl. rewrite Nat2Z.id, Nat.sub_0_r.
  destruct (Nat.le_ge_cases n (length l)).
  - now rewrite Nat.min_l.
  - rewrite Nat.min_r by assumption.
    transitivity l; [apply firstn_all2; lia | symmetry; apply firstn_all2; lia].
Qed.

(** C10: [read_file] without a line range and without a search pattern
    returns the first 100 lines of the file at most, each after its
    1-based number, and after them, when the file has more than 100 lines,
    the notice that the first 100 of the total are shown. *)
Theorem read_file_whole_file_shows_first_100 (E : RegExpEngine) (file : string)
  (lines : option Server.lines_arg) (search : option string) (context : Z)
  (s : gmap string string) (content : string) :
  s !! file = Some content ->
  Server.truthy_lines lines = false ->
  search = None \/ search = Some "" ->
  let fileLines := JS.split JS.nl content in
  exists shown,
    Server.read_file E file lines search context s
    = (Fs.Ret ("Contents of " +:+ file +:+ ":" +:+ JS.NL +:+ JS.join JS.NL shown
               +:+ (if (100 <? length fileLines)%nat
                    then JS.NL +:+ "... (showing first 100 of "
                         +:+ JS.Z_toString (Z.of_nat (length fileLines)) +:+ " lines)"
                    else "")), s)
    /\ length shown = Nat.min 100 (length fileLines)
    /\ forall i line, nth_error shown i = Some line ->
         (i < 100)%nat
         /\ exists text, nth_error fileLines i = Some text
              /\ line = JS.padStart 4 (JS.Z_toString (Z.of_nat i + 1)) +:+ ": " +:+ text.
Proof.
  intros Hf Hl Hs fileLines.
  set (render := fun (line : string) (index : nat) =>
                   JS.padStart 4 (JS.Z_toString (Z.of_nat index + 1)) +:+ ": " +:+ line).
  exists (JS.mapi render (firstn 100 fileLines)).
  split; [|split].
  - unfold Server.read_file, Fs.bind, Fs.readFile.
    rewrite (require_file_found _ _ _ Hf), Hf.
    assert (Hsearch : match search with Some (String _ _) => False | _ => True end)
      by (destruct Hs as [->| ->]; exact I).
    destruct search as [[|c p]|]; try destruct Hsearch; rewrite Hl; fold fileLines.
    all: unfold Fs.ret; change (JS.Int 100) with (JS.Int (Z.of_nat 100)); rewrite slice_first.
    all: destruct (100 <? length fileLines)%nat eqn:Hlen; [reflexivity|].
    all: apply Nat.ltb_ge in Hlen; rewrite (firstn_all2 fileLines) by lia; reflexivity.
  - unfold JS.mapi. rewrite mapi_from_length, length_firstn. reflexivity.
  - intros i line Hi. unfold JS.mapi in Hi. rewrite mapi_from_nth in Hi.
    destruct (nth_error (firstn 100 fileLines) i) as [text|] eqn:Hn; [|discriminate].
    simpl in Hi. injection Hi as <-.
    assert (Hlt : (i < 100)%nat).
    { assert (Hsome : nth_error (firstn 100 fileLines) i <> None) by congruence.
      apply nth_error_Some in Hsome. rewrite length_firstn in Hsome. lia. }
    split; [exact Hlt|]. exists text. split; [|reflexivity].
    rewrite nth_error_firstn in Hn.
    destruct (i <? 100)%nat eqn:Hb; [exact Hn|apply Nat.ltb_ge in Hb; lia].
Qed.

Lemma read_file_whole_file_shows_first_100_witness :
  let s : gmap string string := <["a.txt" := "one" +:+ JS.NL +:+ "two"]> ∅ in
  let fileLines := JS.split JS.nl ("one" +:+ JS.NL +:+ "two") in
  s !! "a.txt" = Some ("one" +:+ JS.NL +:+ "two")
  /\ Server.truthy_lines None = false
  /\ (@None string = None \/ @None string = Some "")
  /\ exists shown,
      Server.read_file PlainRegExp.engine "a.txt" None None 3 s
      = (Fs.Ret ("Contents of " +:+ "a.txt" +:+ ":" +:+ JS.NL +:+ JS.join JS.NL shown
                 +:+ (if (100 <? length fileLines)%nat
                      then JS.NL +:+ "... (showing first 100 of "
                           +:+ JS.Z_toString (Z.of_nat (length fileLines)) +:+ " lines)"
                      else "")), s)
      /\ length shown = Nat.min 100 (length fileLines)
      /\ forall i line, nth_error shown i = Some line ->
           (i < 100)%nat
           /\ exists text, nth_error fileLines i = Some text
                /\ line = JS.padStart 4 (JS.Z_toString (Z.of_nat i + 1)) +:+ ": " +:+ text.
Proof.
  intros s fileLines.
  split; [reflexivity|]. split; [reflexivity|]. split; [left; reflexivity|].
  apply (read_file_whole_file_shows_first_100 PlainRegExp.engine "a.txt" None None 3 s
           ("one" +:+ JS.NL +:+ "two")); [reflexivity | reflexivity | left; reflexivity].
Defined.

(** Reading a line range past the end of the file is not an error: lines
    2 to 9 of a 3-line file are lines 2 and 3. *)
Lemma read_file_range_past_end_succeeds :
  let s : gmap string string := <["a.txt" := "one" +:+ JS.NL +:+ "two" +:+ JS.NL +:+ "three"]> ∅ in
  length (JS.split JS.nl ("one" +:+ JS.NL +:+ "two" +:+ JS.NL +:+ "three")) = 3%nat
  /\ Server.read_file PlainRegExp.engine "a.txt" (Some (Server.LinesString "2-9")) None 3 s
     = (Fs.Ret ("Lines 2-9 of a.txt:" +:+ JS.NL +:+ "   2: two" +:+ JS.NL +:+ "   3: three"), s)
  /\ forall e s', Server.read_file PlainRegExp.engine "a.txt"
                    (Some (Server.LinesString "2-9")) None 3 s <> (Fs.Throw e, s').
Proof.
  intros s. split; [reflexivity|].
  assert (H : Server.read_file PlainRegExp.engine "a.txt" (Some (Server.LinesString "2-9")) None 3 s
              = (Fs.Ret ("Lines 2-9 of a.txt:" +:+ JS.NL +:+ "   2: two" +:+ JS.NL
                         +:+ "   3: three"), s)) by (vm_compute; reflexivity).
  split; [exact H|]. intros e s'. rewrite H. discriminate.
Qed.

Lemma slice_length {A} (l : list A) (a b : Z) :
  (0 <= a)%Z -> (0 <= b)%Z ->
  length (JS.slice l (JS.Int a) (JS.Int b))
  = Z.to_nat (Z.min b (Z.of_nat (length l)) - a).
Proof.
  intros Ha Hb. unfold JS.slice, JS.rel_index.
  destruct (a <? 0)%Z eqn:Ea; [apply Z.ltb_lt in Ea; lia|].
  destruct (b <? 0)%Z eqn:Eb; [apply Z.ltb_lt in Eb; lia|].
  rewrite length_firstn, length_skipn. lia.
Qed.

Lemma slice_nth {A} (l : list A) (a b : Z) (i : nat) (x : A) :
  (0 <= a)%Z -> (0 <= b)%Z ->
  nth_error (JS.slice l (JS.Int a) (JS.Int b)) i = Some x ->
  nth_error l (Z.to_nat a + i) = Some x.
Proof.
  intros Ha Hb. unfold JS.slice, JS.rel_index.
  destruct (a <? 0)%Z eqn:Ea; [apply Z.ltb_lt in Ea; lia|].
  destruct (b <? 0)%Z eqn:Eb; [apply Z.ltb_lt in Eb; lia|].
  intros H.
  assert (Hi : nth_error (skipn (Nat.min (Z.to_nat a) (length l)) l) i = Some x).
  { rewrite nth_error_firstn in H.
    destruct (i <? _)%nat; [exact H | discriminate]. }
  rewrite nth_error_skipn in Hi.
  assert (Hlt : (Nat.min (Z.to_nat a) (length l) + i < length l)%nat)
    by (apply nth_error_Some; congruence).
  replace (Z.to_nat a + i)%nat with (Nat.min (Z.to_nat a) (length l) + i)%nat by lia.
  exact Hi.
Qed.

(** C5, as the code has it: [show_around_line] throws an out-of-range
    error, and gives no excerpt, when the line number is below 1 or above
    the number of lines. [read_file] with a line range checks no bound:
    for a range from [start] to [end_] with [1 <= start <= end_] it
    succeeds and shows exactly the lines numbered [start] to
    [min end_ count], none when [start] is past the end of the file. *)
Theorem explicit_line_address_bounds (E : RegExpEngine) (file content : string)
  (s : gmap string string) :
  s !! file = Some content ->
  let fileLines := JS.split JS.nl content in
  let count := Z.of_nat (length fileLines) in
  (forall (lineNumber : Server.line_number) (n context : Z),
      lineNumber = Server.Number (JS.Int n)
      \/ (exists t, lineNumber = Server.Text t /\ JS.parseInt t = JS.Int n) ->
      (n < 1 \/ count < n)%Z ->
      Server.show_around_line file lineNumber context s
      = (Fs.Throw (Fs.Error ("Line number " +:+ JS.Z_toString n
                             +:+ " is out of range (file has " +:+ JS.Z_toString count
                             +:+ " lines)")), s))
  /\ (forall (lines : option Server.lines_arg) (startStr endStr : string)
        (start end_ context : Z),
      Server.truthy_lines lines = true ->
      Server.range_pieces lines = (Some startStr, Some endStr) ->
      JS.parseInt startStr = JS.Int start ->
      endStr <> "$" ->
      JS.parseInt endStr = JS.Int end_ ->
      (1 <= start <= end_)%Z ->
      exists shown,
        Server.read_file E file lines None context s
        = (Fs.Ret ("Lines " +:+ JS.Z_toString start +:+ "-"
                   +:+ (if (end_ =? count)%Z then "$" else JS.Z_toString end_)
                   +:+ " of " +:+ file +:+ ":" +:+ JS.NL +:+ JS.join JS.NL shown), s)
        /\ length shown = Z.to_nat (Z.min end_ count - (start - 1))
        /\ forall i line, nth_error shown i = Some line ->
             exists text,
               nth_error fileLines (Z.to_nat (start - 1) + i) = Some text
               /\ line = JS.padStart 4 (JS.Z_toString (start + Z.of_nat i)) +:+ ": " +:+ text).
Proof.
  intros Hf fileLines count. split.
  - intros lineNumber n context Hn Hout.
    unfold Server.show_around_line, Fs.bind, Fs.readFile.
    rewrite (require_file_found _ _ _ Hf), Hf. fold fileLines. fold count.
    assert (Ht : match lineNumber with
                 | Server.Number m => m
                 | Server.Text t => JS.parseInt t
                 end = JS.Int n).
    { destruct Hn as [->|(t & -> & Ht)]; [reflexivity | exact Ht]. }
    rewrite Ht. unfold JS.gt, JS.lt.
    destruct (n <? 1)%Z eqn:E1; [reflexivity|].
    destruct (count <? n)%Z eqn:E2; [reflexivity|].
    apply Z.ltb_ge in E1, E2. lia.
  - intros lines startStr endStr start end_ context Hl Hp Hs Hd He Hle.
    set (sel := JS.slice fileLines (JS.Int (start - 1)) (JS.Int end_)).
    set (render := fun (line : string) (index : nat) =>
                     JS.padStart 4 (JS.toString (JS.add (JS.Int start)
                                                   (JS.Int (Z.of_nat index))))
                     +:+ ": " +:+ line).
    exists (JS.mapi render sel). split; [|split].
    + unfold Server.read_file, Fs.bind, Fs.readFile.
      rewrite (require_file_found _ _ _ Hf), Hf. fold fileLines.
      rewrite Hl, Hp. unfold Server.parse_piece. rewrite Hs, He.
      rewrite bool_decide_eq_false_2 by congruence.
      reflexivity.
    + unfold JS.mapi. rewrite mapi_from_length. unfold sel.
      rewrite slice_length by lia. fold count. f_equal; lia.
    + intros i line Hi. unfold JS.mapi in Hi. rewrite mapi_from_nth in Hi.
      destruct (nth_error sel i) as [text|] eqn:Hn; [|discriminate].
      simpl in Hi. injection Hi as <-.
      exists text. split; [|reflexivity].
      apply slice_nth in Hn; [exact Hn | lia | lia].
Qed.

Lemma explicit_line_address_bounds_witness :
  let s : gmap string string := <["a.txt" := "one" +:+ JS.NL +:+ "two" +:+ JS.NL +:+ "three"]> ∅ in
  let fileLines := JS.split JS.nl ("one" +:+ JS.NL +:+ "two" +:+ JS.NL +:+ "three") in
  let count := Z.of_nat (length fileLines) in
  s !! "a.txt" = Some ("one" +:+ JS.NL +:+ "two" +:+ JS.NL +:+ "three")
  /\ (Server.Number (JS.Int 7) = Server.Number (JS.Int 7)
      \/ (exists t, Server.Number (JS.Int 7) = Server.Text t /\ JS.parseInt t = JS.Int 7))
  /\ (7 < 1 \/ count < 7)%Z
  /\ Server.show_around_line "a.txt" (Server.Number (JS.Int 7)) 5 s
     = (Fs.Throw (Fs.Error ("Line number " +:+ JS.Z_toString 7
                            +:+ " is out of range (file has " +:+ JS.Z_toString count
                            +:+ " lines)")), s)
  /\ Server.truthy_lines (Some (Server.LinesString "2-9")) = true
  /\ Server.range_pieces (Some (Server.LinesString "2-9")) = (Some "2", Some "9")
  /\ JS.parseInt "2" = JS.Int 2
  /\ "9" <> "$"
  /\ JS.parseInt "9" = JS.Int 9
  /\ (1 <= 2 <= 9)%Z
  /\ exists shown,
      Server.read_file PlainRegExp.engine "a.txt" (Some (Server.LinesString "2-9")) None 3 s
      = (Fs.Ret ("Lines " +:+ JS.Z_toString 2 +:+ "-"
                 +:+ (if (9 =? count)%Z then "$" else JS.Z_toString 9)
                 +:+ " of " +:+ "a.txt" +:+ ":" +:+ JS.NL +:+ JS.join JS.NL shown), s)
      /\ length shown = Z.to_nat (Z.min 9 count - (2 - 1))
      /\ forall i line, nth_error shown i = Some line ->
           exists text,
             nth_error fileLines (Z.to_nat (2 - 1) + i) = Some text
             /\ line = JS.padStart 4 (JS.Z_toString (2 + Z.of_nat i)) +:+ ": " +:+ text.
Proof.
  intros s fileLines count.
  pose proof (explicit_line_address_bounds PlainRegExp.engine "a.txt"
                ("one" +:+ JS.NL +:+ "two" +:+ JS.NL +:+ "three") s eq_refl) as [Hshow Hread].
  split; [reflexivity|]. split; [left; reflexivity|].
  split; [right; vm_compute; reflexivity|].
  split; [apply Hshow; [left; reflexivity | right; vm_compute; reflexivity]|].
  split; [reflexivity|]. split; [reflexivity|]. split; [reflexivity|].
  split; [discriminate|]. split; [reflexivity|]. split; [lia|].
  apply (Hread (Some (Server.LinesString "2-9")) "2" "9" 2%Z 9%Z 3%Z);
    [reflexivity | reflexivity | reflexivity | discriminate | reflexivity | lia].
Defined.

(** *** Context windows *)

Lemma for_range_length (a b : Z) :
  length (JS.for_range (JS.Int a) (JS.Int b)) = Z.to_nat (b - a + 1).
Proof. unfold JS.for_range. now rewrite length_map, length_seq. Qed.

Lemma for_range_nth (a b : Z) (k : nat) :
  (k < Z.to_nat (b - a + 1))%nat ->
  nth_error (JS.for_range (JS.Int a) (JS.Int b)) k = Some (a + Z.of_nat k)%Z.
Proof.
  intros Hk. unfold JS.for_range.
  rewrite nth_error_map, nth_error_seq.
  apply Nat.ltb_lt in Hk. rewrite Hk. reflexivity.
Qed.

Lemma at_index_nth (lines : list string) (i : Z) :
  (0 <= i < Z.of_nat (length lines))%Z ->
  nth_error lines (Z.to_nat i) = Some (JS.at_index lines i).
Proof.
  intros Hi. unfold JS.at_index.
  destruct (i <? 0)%Z eqn:E; [apply Z.ltb_lt in E; lia|].
  apply nth_error_nth'. lia.
Qed.

(** A window built by a [for] loop over the lines [lo] to [hi] shows
    exactly these lines. *)
Lemma loop_shows (lines : list string) (center lo hi : Z) (f : Z -> string) :
  (1 <= lo)%Z -> (hi <= Z.of_nat (length lines))%Z ->
  (forall n, (lo <= n <= hi)%Z ->
     f n = (if (n =? center)%Z then ">" else " ") +:+ " "
           +:+ JS.padStart 4 (JS.Z_toString n) +:+ ": " +:+ JS.at_index lines (n - 1)) ->
  Spec.shows (map f (JS.for_range (JS.Int lo) (JS.Int hi))) lines center lo hi.
Proof.
  intros Hlo Hhi Hf. split.
  - now rewrite length_map, for_range_length.
  - intros n Hn. exists (f n). split.
    + rewrite nth_error_map, for_range_nth by lia.
      simpl. f_equal. f_equal. lia.
    + exists (JS.at_index lines (n - 1)). split; [|apply Hf, Hn].
      apply at_index_nth. lia.
Qed.

(** The block of one match: its heading, then the window of the match. *)
Lemma match_block_shows (heading : string) (lines : list string) (index : nat) (context : Z) :
  (index < length lines)%nat ->
  exists w,
    Server.match_block heading lines index context = heading :: w
    /\ Spec.shows w lines (Z.of_nat index + 1)
         (Spec.window_lo (Z.of_nat index + 1) context)
         (Spec.window_hi (Z.of_nat (length lines)) (Z.of_nat index + 1) context).
Proof.
  intros Hi. unfold Server.match_block. simpl JS.Math_max. simpl JS.Math_min.
  eexists. split; [reflexivity|].
  set (lo := Z.max 0 (Z.of_nat index - context)).
  set (hi := Z.min (Z.of_nat (length lines) - 1) (Z.of_nat index + context)).
  pose (f := fun n : Z =>
               Server.numbered (if (n - 1 =? Z.of_nat index)%Z then ">" else " ")
                 (JS.Int n) (JS.at_index lines (n - 1))).
  assert (Hmap :
    map (fun i : Z => Server.numbered (if (i =? Z.of_nat index)%Z then ">" else " ")
                        (JS.Int (i + 1)) (JS.at_index lines i))
        (JS.for_range (JS.Int lo) (JS.Int hi))
    = map f (JS.for_range (JS.Int (lo + 1)) (JS.Int (hi + 1)))).
  { unfold JS.for_range. rewrite !map_map.
    replace (hi + 1 - (lo + 1) + 1)%Z with (hi - lo + 1)%Z by lia.
    apply map_ext. intros k. unfold f.
    replace (lo + 1 + Z.of_nat k - 1)%Z with (lo + Z.of_nat k)%Z by lia.
    replace (lo + 1 + Z.of_nat k)%Z with (lo + Z.of_nat k + 1)%Z by lia.
    reflexivity. }
  rewrite Hmap.
  replace (Spec.window_lo (Z.of_nat index + 1) context) with (lo + 1)%Z
    by (unfold Spec.window_lo, lo; lia).
  replace (Spec.window_hi (Z.of_nat (length lines)) (Z.of_nat index + 1) context)
    with (hi + 1)%Z by (unfold Spec.window_hi, hi; lia).
  apply loop_shows; [unfold lo; lia | unfold hi; lia|].
  intros n Hn. unfold f, Server.numbered. simpl JS.toString.
  replace (n - 1 =? Z.of_nat index)%Z with (n =? Z.of_nat index + 1)%Z; [reflexivity|].
  destruct (n =? Z.of_nat index + 1)%Z eqn:E1, (n - 1 =? Z.of_nat index)%Z eqn:E2;
    try reflexivity; rewrite ?Z.eqb_eq, ?Z.eqb_neq in *; lia.
Qed.

(** The results of the search loop are the blocks of the reported matches,
    one block a match, in the order of the matches. *)
Lemma search_each_blocks (E : RegExpEngine) (heading : nat -> nat -> string)
  (regex : regexp E) (fileLines : list string) (context : Z) (rest : list string) :
  forall index lastIndex matchCount,
    (index + length rest <= length fileLines)%nat ->
    let hits := Spec.reported E regex rest index lastIndex in
    exists blocks,
      Server.search_each E heading regex fileLines context rest index lastIndex matchCount
      = (concat blocks, (matchCount + length hits)%nat)
      /\ Forall2 (Spec.is_block fileLines context heading)
           (combine (seq (S matchCount) (length hits)) hits) blocks.
Proof.
  induction rest as [|line rest IH]; intros index lastIndex matchCount Hlen;
    cbn [Server.search_each Spec.reported].
  - exists []. split; [simpl; now rewrite Nat.add_0_r | constructor].
  - simpl in Hlen.
    destruct (RegExp_test E regex line lastIndex) as [hit lastIndex'].
    destruct hit.
    + destruct (IH (S index) lastIndex' (S matchCount)) as (blocks & Heq & Hall); [lia|].
      rewrite Heq.
      destruct (match_block_shows (heading (S matchCount) index) fileLines index context)
        as (w & Hw & Hshows); [lia|].
      exists ((heading (S matchCount) index :: w) :: blocks). split.
      * rewrite Hw. simpl. f_equal. lia.
      * simpl. constructor; [|exact Hall].
        exists w. split; [reflexivity | exact Hshows].
    + destruct (IH (S index) lastIndex' matchCount) as (blocks & Heq & Hall); [lia|].
      exists blocks. split; assumption.
Qed.

(** C6: [show_around_line] on line [t] with radius [c] shows exactly the
    lines [max 1 (t - c)] to [min count (t + c)], each with its number
    padded on the left to 4 characters and the marker [>] on line [t];
    [search_in_file] gives one such block for each match it reports, under
    its own heading, in the order of the matches, and never merges two
    windows. *)
Theorem context_windows (E : RegExpEngine) (file content : string)
  (s : gmap string string) :
  s !! file = Some content ->
  let fileLines := JS.split JS.nl content in
  let count := Z.of_nat (length fileLines) in
  (forall (lineNumber : Server.line_number) (t context : Z),
      lineNumber = Server.Number (JS.Int t)
      \/ (exists text, lineNumber = Server.Text text /\ JS.parseInt text = JS.Int t) ->
      (1 <= t <= count)%Z ->
      exists w,
        Server.show_around_line file lineNumber context s
        = (Fs.Ret ("Context around line " +:+ JS.Z_toString t +:+ " in " +:+ file +:+ ":"
                   +:+ JS.NL +:+ JS.join JS.NL w), s)
        /\ Spec.shows w fileLines t (Spec.window_lo t context) (Spec.window_hi count t context))
  /\ (forall (pattern : string) (context : Z) (caseInsensitive : bool) (regex : regexp E),
      RegExp_new E pattern (if caseInsensitive then "gi" else "g") = Some regex ->
      let hits := Spec.reported E regex fileLines 0 0 in
      exists blocks,
        Server.search_in_file E file pattern context caseInsensitive s
        = (Fs.Ret match concat blocks with
                  | [] => "No matches found for " +:+ JS.DQ +:+ pattern +:+ JS.DQ
                          +:+ " in " +:+ file
                  | results =>
                      "Found " +:+ JS.Z_toString (Z.of_nat (length hits)) +:+ " matches for "
                      +:+ JS.DQ +:+ pattern +:+ JS.DQ +:+ " in " +:+ file +:+ ":" +:+ JS.NL
                      +:+ JS.join JS.NL results
                  end, s)
        /\ Forall2 (Spec.is_block fileLines context Spec.match_heading)
             (combine (seq 1 (length hits)) hits) blocks).
Proof.
  intros Hf fileLines count. split.
  - intros lineNumber t context Hline Ht.
    assert (Htarget : match lineNumber with
                      | Server.Number m => m
                      | Server.Text text => JS.parseInt text
                      end = JS.Int t).
    { destruct Hline as [->|(text & -> & Hp)]; [reflexivity | exact Hp]. }
    eexists. split.
    + unfold Server.show_around_line, Fs.bind, Fs.readFile.
      rewrite (require_file_found _ _ _ Hf), Hf. fold fileLines. fold count.
      rewrite Htarget. unfold JS.gt, JS.lt.
      destruct (t <? 1)%Z eqn:E1; [apply Z.ltb_lt in E1; lia|].
      destruct (count <? t)%Z eqn:E2; [apply Z.ltb_lt in E2; lia|].
      reflexivity.
    + simpl JS.Math_max. simpl JS.Math_min.
      apply loop_shows; [unfold Spec.window_lo; lia | unfold Spec.window_hi; lia|].
      intros n Hn. reflexivity.
  - intros pattern context caseInsensitive regex Hre hits.
    destruct (search_each_blocks E Spec.match_heading regex fileLines context fileLines
                0 0 0) as (blocks & Heq & Hall); [simpl; lia|].
    exists blocks. split; [|exact Hall].
    unfold Server.search_in_file, Fs.bind, Fs.readFile.
    rewrite (require_file_found _ _ _ Hf), Hf. fold fileLines.
    rewrite Hre.
    change (fun matchCount index : nat =>
              JS.NL +:+ "--- Match " +:+ JS.Z_toString (Z.of_nat matchCount) +:+ " at line "
              +:+ JS.Z_toString (Z.of_nat index + 1) +:+ " ---") with Spec.match_heading.
    rewrite Heq. fold hits. simpl Nat.add.
    destruct (concat blocks); reflexivity.
Qed.

Lemma context_windows_witness :
  let content := "alpha" +:+ JS.NL +:+ "beta" +:+ JS.NL +:+ "gamma beta" in
  let s : gmap string string := <["a.txt" := content]> ∅ in
  let fileLines := JS.split JS.nl content in
  let count := Z.of_nat (length fileLines) in
  s !! "a.txt" = Some content
  /\ (Server.Text "2" = Server.Number (JS.Int 2)
      \/ (exists text, Server.Text "2" = Server.Text text /\ JS.parseInt text = JS.Int 2))
  /\ (1 <= 2 <= count)%Z
  /\ (exists w,
        Server.show_around_line "a.txt" (Server.Text "2") 5 s
        = (Fs.Ret ("Context around line " +:+ JS.Z_toString 2 +:+ " in " +:+ "a.txt" +:+ ":"
                   +:+ JS.NL +:+ JS.join JS.NL w), s)
        /\ Spec.shows w fileLines 2 (Spec.window_lo 2 5) (Spec.window_hi count 2 5))
  /\ RegExp_new PlainRegExp.engine "beta" "g" = Some ("beta", false)
  /\ let hits := Spec.reported PlainRegExp.engine ("beta", false) fileLines 0 0 in
     exists blocks,
       Server.search_in_file PlainRegExp.engine "a.txt" "beta" 1 false s
       = (Fs.Ret match concat blocks with
                 | [] => "No matches found for " +:+ JS.DQ +:+ "beta" +:+ JS.DQ
                         +:+ " in " +:+ "a.txt"
                 | results =>
                     "Found " +:+ JS.Z_toString (Z.of_nat (length hits)) +:+ " matches for "
                     +:+ JS.DQ +:+ "beta" +:+ JS.DQ +:+ " in " +:+ "a.txt" +:+ ":" +:+ JS.NL
                     +:+ JS.join JS.NL results
                 end, s)
       /\ Forall2 (Spec.is_block fileLines 1 Spec.match_heading)
            (combine (seq 1 (length hits)) hits) blocks.
Proof.
  intros content s fileLines count.
  pose proof (context_windows PlainRegExp.engine "a.txt" content s eq_refl) as [Hshow Hsearch].
  assert (Htext : Server.Text "2" = Server.Number (JS.Int 2)
                  \/ (exists text, Server.Text "2" = Server.Text text
                                    /\ JS.parseInt text = JS.Int 2))
    by (right; exists "2"; split; reflexivity).
  split; [reflexivity|]. split; [exact Htext|].
  split; [vm_compute; split; discriminate|].
  split; [apply Hshow; [exact Htext | vm_compute; split; discriminate]|].
  split; [reflexivity|].
  apply (Hsearch "beta" 1%Z false ("beta", false)). reflexivity.
Defined.

(** *** search_in_file *)

(** The reported matches come in ascending line order. *)
Lemma reported_ascending (E : RegExpEngine) (regex : regexp E) (rest : list string) :
  forall index lastIndex,
    Sorted lt (Spec.reported E regex rest index lastIndex)
    /\ Forall (le index) (Spec.reported E regex rest index lastIndex).
Proof.
  induction rest as [|line rest IH]; intros index lastIndex; simpl.
  - split; constructor.
  - destruct (RegExp_test E regex line lastIndex) as [hit lastIndex'].
    destruct (IH (S index) lastIndex') as [Hs Hf].
    destruct hit.
    + split.
      * constructor; [exact Hs|].
        destruct (Spec.reported E regex rest (S index) lastIndex'); constructor.
        inversion Hf; subst. lia.
      * constructor; [lia|]. eapply Forall_impl; [exact Hf|]. simpl. intros; lia.
    + split; [exact Hs|]. eapply Forall_impl; [exact Hf|]. simpl. intros; lia.
Qed.

(** C7 fails on the code: the regular expression is made with the [g]
    flag and tested line after line, so the position where the match on one
    line ended is where the search on the next line starts. In the file
    [xxxxfoo / foo] the pattern [foo] matches both lines, and only line 1 is
    reported. *)
Theorem search_in_file_skips_matching_line :
  let s : gmap string string := <["log.txt" := "xxxxfoo" +:+ JS.NL +:+ "foo"]> ∅ in
  exists regex,
    RegExp_new PlainRegExp.engine "foo" "g" = Some regex
    /\ RegExp_matches PlainRegExp.engine regex "xxxxfoo" = true
    /\ RegExp_matches PlainRegExp.engine regex "foo" = true
    /\ Spec.reported PlainRegExp.engine regex [ "xxxxfoo"; "foo" ] 0 0 = [ 0%nat ]
    /\ Server.search_in_file PlainRegExp.engine "log.txt" "foo" 0 false s
       = (Fs.Ret ("Found 1 matches for " +:+ JS.DQ +:+ "foo" +:+ JS.DQ +:+ " in log.txt:"
                  +:+ JS.NL +:+ JS.NL +:+ "--- Match 1 at line 1 ---"
                  +:+ JS.NL +:+ ">    1: xxxxfoo"), s).
Proof.
  intros s. exists ("foo", false).
  repeat split; vm_compute; reflexivity.
Qed.

(** ** Decimal line numbers *)

Lemma all_digits_app (a b : string) :
  Spec.all_digits (a +:+ b) = Spec.all_digits a && Spec.all_digits b.
Proof.
  induction a as [|c a IH]; simpl; [reflexivity|].
  rewrite IH. now rewrite andb_assoc.
Qed.

Lemma string_of_uint_digits (d : Decimal.uint) :
  Spec.all_digits (NilEmpty.string_of_uint d) = true.
Proof. induction d; simpl; auto. Qed.

Lemma all_digits_includes (c : ascii) (s : string) :
  Sed.is_digit c = false -> Spec.all_digits s = true -> JS.includes c s = false.
Proof.
  intros Hc. induction s as [|x s IH]; simpl; [reflexivity|].
  intros [Hx Hs]%andb_prop. rewrite (IH Hs), orb_false_r.
  destruct (Ascii.eqb x c) eqn:E; [|reflexivity].
  apply Ascii.eqb_eq in E. subst x. congruence.
Qed.

(** Reading back the digits of a positive number, from an accumulator. *)
Lemma number_of_uint_acc (d : Decimal.uint) (rest : string) :
  match rest with String c _ => Sed.is_digit c = false | EmptyString => True end ->
  forall acc : positive,
    Sed.number (N.pos acc) (NilEmpty.string_of_uint d +:+ rest)
    = (N.pos (Pos.of_uint_acc d acc), rest).
Proof.
  intros Hrest. induction d; intros acc; simpl; try (rewrite <- IHd; f_equal; lia).
  destruct rest as [|c r]; simpl; [reflexivity|].
  unfold Sed.is_digit in Hrest. destruct (JS.digit_of c); [|reflexivity].
  apply bool_decide_eq_false in Hrest. exfalso. apply Hrest. eauto.
Qed.

Lemma number_of_uint (d : Decimal.uint) (rest : string) :
  match rest with String c _ => Sed.is_digit c = false | EmptyString => True end ->
  Sed.number 0 (NilEmpty.string_of_uint d +:+ rest) = (Pos.of_uint d, rest).
Proof.
  intros Hrest. induction d; simpl;
    try (exact IHd);
    try (apply (number_of_uint_acc d rest Hrest)).
  destruct rest as [|c r]; simpl; [reflexivity|].
  unfold Sed.is_digit in Hrest. destruct (JS.digit_of c); [|reflexivity].
  apply bool_decide_eq_false in Hrest. exfalso. apply Hrest. eauto.
Qed.

Lemma decimal_positive (n : nat) :
  (1 <= n)%nat -> Spec.decimal n = NilEmpty.string_of_uint (Pos.to_uint (Pos.of_nat n)).
Proof.
  intros Hn. destruct n as [|m]; [lia|].
  unfold Spec.decimal, JS.Z_toString. simpl. now rewrite Pos.of_nat_succ.
Qed.

Lemma decimal_digits (n : nat) : Spec.all_digits (Spec.decimal n) = true.
Proof.
  destruct n as [|m]; [reflexivity|].
  rewrite decimal_positive by lia. apply string_of_uint_digits.
Qed.

Lemma decimal_head (n : nat) :
  exists c r, Spec.decimal n = String c r /\ Sed.is_digit c = true.
Proof.
  pose proof (decimal_digits n) as Hd.
  destruct n as [|m]; [exists "0"%char, ""; split; reflexivity|].
  rewrite decimal_positive in * by lia.
  pose proof (Unsigned.to_uint_nonnil (Pos.of_nat (S m))) as Hnil.
  destruct (Pos.to_uint (Pos.of_nat (S m))); try congruence; simpl in *;
    eexists _, _; (split; [reflexivity | reflexivity]).
Qed.

Lemma decimal_number (n : nat) (rest : string) :
  (1 <= n)%nat ->
  match rest with String c _ => Sed.is_digit c = false | EmptyString => True end ->
  Sed.number 0 (Spec.decimal n +:+ rest) = (N.of_nat n, rest).
Proof.
  intros Hn Hrest. rewrite decimal_positive by exact Hn.
  rewrite number_of_uint by exact Hrest.
  rewrite Unsigned.of_to. f_equal. lia.
Qed.

Lemma address_digit (c : ascii) (r : string) :
  Sed.is_digit c = true ->
  Sed.address (String c r)
  = (let '(n, rest) := Sed.number 0 (String c r) in Some (Sed.Line (N.to_nat n), rest)).
Proof.
  intros Hc. unfold Sed.address. rewrite Hc.
  destruct c as [[] [] [] [] [] [] [] []]; try reflexivity; discriminate.
Qed.

(** sed reads a decimal line number as that line. *)
Lemma decimal_address (n : nat) (rest : string) :
  (1 <= n)%nat ->
  match rest with String c _ => Sed.is_digit c = false | EmptyString => True end ->
  Sed.address (Spec.decimal n +:+ rest) = Some (Sed.Line n, rest).
Proof.
  intros Hn Hrest.
  destruct (decimal_head n) as (c & r & Hd & Hc).
  pose proof (decimal_number n rest Hn Hrest) as Hnum.
  rewrite Hd in *. simpl String.append in *.
  rewrite (address_digit c _ Hc), Hnum. now rewrite Nat2N.id.
Qed.

Lemma includes_decimal (c : ascii) (n : nat) :
  Sed.is_digit c = false -> JS.includes c (Spec.decimal n) = false.
Proof. intros Hc. apply all_digits_includes; [exact Hc | apply decimal_digits]. Qed.

(** The scripts of [line_edit] for [delete]: a range of two line numbers,
    and one line number. *)
Lemma parse_delete_range (r1 r2 : nat) :
  (1 <= r1)%nat -> (1 <= r2)%nat ->
  Sed.parse (Spec.decimal r1 +:+ "," +:+ Spec.decimal r2 +:+ "d")
  = Sed.Script (Sed.Two (Sed.Line r1) (Sed.Line r2)) Sed.Delete.
Proof.
  intros H1 H2. unfold Sed.parse.
  rewrite !includes_app, !includes_decimal by reflexivity. simpl.
  rewrite decimal_address by (exact H1 || reflexivity).
  rewrite decimal_address by (exact H2 || reflexivity).
  destruct r1; [lia|]. destruct r2; [lia|]. reflexivity.
Qed.

Lemma parse_delete_line (r : nat) :
  (1 <= r)%nat ->
  Sed.parse (Spec.decimal r +:+ "d") = Sed.Script (Sed.One (Sed.Line r)) Sed.Delete.
Proof.
  intros H. unfold Sed.parse.
  rewrite !includes_app, !includes_decimal by reflexivity. simpl.
  rewrite decimal_address by (exact H || reflexivity).
  destruct r; [lia|]. reflexivity.
Qed.

(** ** The lines sed reads and writes *)

Lemma read_lines_line (x rest : string) :
  JS.includes JS.nl x = false ->
  Sed.read_lines (x +:+ JS.NL +:+ rest) = (x, true) :: Sed.read_lines rest.
Proof.
  induction x as [|c x IH]; intros Hx; simpl in *.
  - reflexivity.
  - apply orb_false_elim in Hx as [Hc Hx]. rewrite Hc, (IH Hx). reflexivity.
Qed.

Lemma read_lines_last (x : string) :
  JS.includes JS.nl x = false -> x <> "" -> Sed.read_lines x = [ (x, false) ].
Proof.
  induction x as [|c x IH]; intros Hx Hne; [congruence|].
  simpl in *. apply orb_false_elim in Hx as [Hc Hx]. rewrite Hc.
  destruct x as [|d x]; [reflexivity|].
  rewrite (IH Hx) by discriminate. reflexivity.
Qed.

Lemma read_lines_file_lines (s : string) : Spec.file_lines (Sed.read_lines s).
Proof.
  induction s as [|c s IH]; simpl; [exact I|].
  destruct (Ascii.eqb c JS.nl) eqn:Hc.
  - simpl. split; [reflexivity|]. split; [|exact IH].
    destruct (Sed.read_lines s); auto.
  - destruct (Sed.read_lines s) as [|[x t] r].
    + simpl. rewrite Hc. split; [reflexivity|]. split; [right; discriminate | exact I].
    + simpl in *. destruct IH as (Hx & Ht & Hr). rewrite Hc, Hx.
      split; [reflexivity|]. split; [|exact Hr].
      destruct r; [right; discriminate | exact Ht].
Qed.

(** Writing lines and reading them back gives the same lines. *)
Lemma read_write_lines (ls : list (string * bool)) :
  Spec.file_lines ls -> Sed.read_lines (Sed.write_lines ls) = ls.
Proof.
  induction ls as [|[x t] r IH]; intros Hwf; [reflexivity|].
  simpl in Hwf. destruct Hwf as (Hx & Ht & Hr).
  simpl. unfold Sed.write_line. simpl. destruct t.
  - rewrite append_assoc, (read_lines_line x _ Hx), (IH Hr). reflexivity.
  - destruct r as [|l r]; [|discriminate].
    destruct Ht as [Ht|Hne]; [discriminate|].
    simpl. rewrite append_nil_r. now apply read_lines_last.
Qed.

Lemma file_lines_tail (l1 l2 : list (string * bool)) :
  Spec.file_lines (l1 ++ l2) -> Spec.file_lines l2.
Proof.
  induction l1 as [|[x t] l1 IH]; simpl; [auto|].
  intros (_ & _ & H). exact (IH H).
Qed.

(** Taking lines out of the middle of a file leaves the lines of a file. *)
Lemma file_lines_remove (l1 m l3 : list (string * bool)) :
  Spec.file_lines (l1 ++ m ++ l3) -> Spec.file_lines (l1 ++ l3).
Proof.
  induction l1 as [|[x t] l1 IH]; simpl.
  - apply file_lines_tail.
  - intros (Hx & Ht & Hr). split; [exact Hx|]. split; [|exact (IH Hr)].
    destruct (l1 ++ l3) eqn:E1; destruct (l1 ++ m ++ l3) eqn:E2; auto.
    apply app_eq_nil in E2 as [-> [-> ->]%app_eq_nil]. discriminate.
Qed.

Lemma file_lines_cut (ls : list (string * bool)) (a b : nat) :
  (a <= b)%nat -> Spec.file_lines ls -> Spec.file_lines (firstn a ls ++ skipn b ls).
Proof.
  intros Hab Hwf.
  apply (file_lines_remove _ (firstn (b - a) (skipn a ls))).
  replace (skipn b ls) with (skipn (b - a) (skipn a ls))
    by (rewrite skipn_skipn; f_equal; lia).
  now rewrite !firstn_skipn.
Qed.

(** [r1,r2d] drops the lines [r1] to [r2] and keeps the others in order;
    [i] is the number of the first line of [ls]. *)
Lemma delete_range_from (r1 r2 count : nat) (ls : list (string * bool)) :
  (r1 <= r2)%nat ->
  forall i,
    Sed.apply_from (Sed.Two (Sed.Line r1) (Sed.Line r2)) Sed.Delete count i ls
    = firstn (r1 - i) ls ++ skipn (r2 + 1 - i) ls.
Proof.
  intros Hle. induction ls as [|l ls IH]; intros i.
  - simpl. now rewrite firstn_nil, skipn_nil.
  - cbn [Sed.apply_from Sed.selects Sed.resolve]. rewrite IH.
    destruct (Nat.lt_ge_cases i r1) as [Hlt|Hge].
    + replace (i =? r1)%nat with false by (symmetry; apply Nat.eqb_neq; lia).
      replace (r1 <? i)%nat with false by (symmetry; apply Nat.ltb_ge; lia).
      simpl orb.
      replace (r1 - i)%nat with (S (r1 - S i)) by lia.
      replace (r2 + 1 - i)%nat with (S (r2 + 1 - S i)) by lia.
      reflexivity.
    + replace (r1 - i)%nat with 0%nat by lia. replace (r1 - S i)%nat with 0%nat by lia.
      destruct (Nat.le_gt_cases i r2) as [Hin|Hout].
      * replace ((i =? r1)%nat || (r1 <? i)%nat && (i <=? r2)%nat) with true.
        -- replace (r2 + 1 - i)%nat with (S (r2 + 1 - S i)) by lia. reflexivity.
        -- symmetry. destruct (Nat.eqb_spec i r1); [reflexivity|]. simpl.
           apply andb_true_intro. split; [apply Nat.ltb_lt | apply Nat.leb_le]; lia.
      * replace (i =? r1)%nat with false by (symmetry; apply Nat.eqb_neq; lia).
        replace (i <=? r2)%nat with false by (symmetry; apply Nat.leb_gt; lia).
        rewrite andb_false_r. simpl orb.
        replace (r2 + 1 - i)%nat with 0%nat by lia.
        replace (r2 + 1 - S i)%nat with 0%nat by lia. reflexivity.
Qed.

Lemma delete_line_from (r count : nat) (ls : list (string * bool)) (i : nat) :
  Sed.apply_from (Sed.One (Sed.Line r)) Sed.Delete count i ls
  = Sed.apply_from (Sed.Two (Sed.Line r) (Sed.Line r)) Sed.Delete count i ls.
Proof.
  revert i. induction ls as [|l ls IH]; intros i; [reflexivity|].
  cbn [Sed.apply_from Sed.selects Sed.resolve]. rewrite IH.
  replace ((i =? r)%nat || (r <? i)%nat && (i <=? r)%nat) with (i =? r)%nat; [reflexivity|].
  destruct (Nat.eqb_spec i r); [reflexivity|]. simpl.
  destruct (Nat.ltb_spec r i); [|reflexivity].
  symmetry. apply Nat.leb_gt. lia.
Qed.

(** ** line_edit *)

Lemma safe_path_operand (p : string) : Spec.safe_path p = true -> Cmd.operand p = true.
Proof. now intros [H _]%andb_prop. Qed.

Lemma safe_path_no_quote (p : string) : Spec.safe_path p = true -> Spec.no_quote p = true.
Proof. now intros [_ H]%andb_prop. Qed.

(** What [sed -i.bak] does to the file when sed accepts the script. *)
Lemma sed_in_place (script file content : string) (r : Sed.range) (c : Sed.cmd)
  (s : gmap string string) :
  Cmd.operand script = true ->
  Cmd.operand file = true ->
  Sed.parse script = Sed.Script r c ->
  s !! file = Some content ->
  Cmd.sed "-i.bak" script file s
  = Some (Cmd.quiet 0 (<[file := Sed.apply r c content]> (<[file +:+ ".bak" := content]> s))).
Proof.
  intros Hs Hf Hp Hc. unfold Cmd.sed.
  change (Cmd.in_place "-i.bak") with (Some ".bak").
  rewrite Hs, Hf, Hp, Hc. reflexivity.
Qed.

(** The [delete] of [line_edit] on lines [r1] to [r2]. *)
Lemma line_edit_delete_script (T : Tools) (file content range : string)
  (lineNumber : option Z) (lineRange : option string) (text_arg : option string)
  (s : gmap string string) (r : Sed.range) :
  Spec.safe_path file = true ->
  s !! file = Some content ->
  Server.range_of lineNumber lineRange = range ->
  Spec.no_quote range = true ->
  Cmd.operand (range +:+ "d") = true ->
  Sed.parse (range +:+ "d") = Sed.Script r Sed.Delete ->
  Server.line_edit T file lineNumber lineRange "delete" text_arg s
  = (Fs.Ret ("Successfully performed delete on line(s) " +:+ range +:+ " in " +:+ file),
     <[file := Sed.apply r Sed.Delete content]> (<[file +:+ ".bak" := content]> s)).
Proof.
  intros Hsafe Hc Hrange Hq Hop Hp.
  unfold Server.line_edit, Fs.bind.
  rewrite (require_file_found _ _ _ Hc), Hrange.
  change (String.eqb "delete" "replace") with false.
  change (String.eqb "delete" "delete") with true. cbv iota.
  unfold Fs.ret, Cmd.execAsync.
  replace ("sed -i.bak '" +:+ range +:+ "d' '" +:+ file +:+ "'")
    with ("sed -i.bak '" +:+ Server.escape_quotes (range +:+ "d") +:+ "' '" +:+ file +:+ "'").
  - rewrite (sh_sed T _ _ _ (safe_path_no_quote _ Hsafe)).
    rewrite (sed_in_place _ _ _ _ _ _ Hop (safe_path_operand _ Hsafe) Hp Hc).
    reflexivity.
  - rewrite escape_quotes_app, (escape_quotes_id _ Hq). simpl.
    now rewrite append_assoc.
Qed.

Lemma no_quote_decimal (n : nat) : Spec.no_quote (Spec.decimal n) = true.
Proof. unfold Spec.no_quote. now rewrite includes_decimal. Qed.

Lemma operand_decimal (n : nat) (rest : string) :
  Cmd.operand (Spec.decimal n +:+ rest) = true.
Proof.
  destruct (decimal_head n) as (c & r & -> & Hc). simpl.
  destruct (Ascii.eqb c "-") eqn:E; [|reflexivity].
  apply Ascii.eqb_eq in E. subst c. discriminate.
Qed.

(** C8: [line_edit] with [delete] on the lines [r1] to [r2] of a file that
    has them removes exactly these lines: the file has [r2 - r1 + 1] lines
    fewer, the lines before [r1] stay, the line after [r2] is the new line
    [r1] and the lines after it follow in order; nothing is left in the
    place of the deleted lines. The range is given as [lineRange] "r1,r2",
    or, for one line, as [lineNumber]. *)
Theorem line_edit_delete_removes_range (T : Tools) (file content : string)
  (lineNumber : option Z) (lineRange : option string) (text_arg : option string)
  (s : gmap string string) (r1 r2 : nat) :
  Spec.safe_path file = true ->
  s !! file = Some content ->
  let ls := Sed.read_lines content in
  (1 <= r1 <= r2)%nat /\ (r2 <= length ls)%nat ->
  lineRange = Some (Spec.decimal r1 +:+ "," +:+ Spec.decimal r2)
  \/ (r1 = r2 /\ (lineRange = None \/ lineRange = Some "")
      /\ lineNumber = Some (Z.of_nat r1)) ->
  exists text new,
    Server.line_edit T file lineNumber lineRange "delete" text_arg s
    = (Fs.Ret text, <[file := new]> (<[file +:+ ".bak" := content]> s))
    /\ let ls' := Sed.read_lines new in
       ls' = firstn (r1 - 1) ls ++ skipn r2 ls
       /\ length ls' = (length ls - (r2 - r1 + 1))%nat
       /\ nth_error ls' (r1 - 1) = nth_error ls r2
       /\ (forall i, (i < r1 - 1)%nat -> nth_error ls' i = nth_error ls i)
       /\ (forall i, (r1 - 1 <= i)%nat -> nth_error ls' i = nth_error ls (i + (r2 - r1 + 1))).
Proof.
  intros Hsafe Hc ls [[H1 H12] H2] Hrange.
  assert (Hcut : exists text,
    Server.line_edit T file lineNumber lineRange "delete" text_arg s
    = (Fs.Ret text,
       <[file := Sed.write_lines (firstn (r1 - 1) ls ++ skipn r2 ls)]>
         (<[file +:+ ".bak" := content]> s))).
  { destruct Hrange as [->|(<- & Hr & ->)].
    - eexists.
      rewrite (line_edit_delete_script T file content
                 (Spec.decimal r1 +:+ "," +:+ Spec.decimal r2) _ _ _ s
                 (Sed.Two (Sed.Line r1) (Sed.Line r2)) Hsafe Hc).
      + unfold Sed.apply. fold ls. rewrite delete_range_from by lia.
        replace (r2 + 1 - 1)%nat with r2 by lia. reflexivity.
      + destruct (decimal_head r1) as (c & r & -> & _). reflexivity.
      + unfold Spec.no_quote. rewrite !includes_app, !includes_decimal by reflexivity.
        reflexivity.
      + rewrite append_assoc. apply operand_decimal.
      + rewrite !append_assoc. apply parse_delete_range; lia.
    - eexists.
      rewrite (line_edit_delete_script T file content (Spec.decimal r1) _ _ _ s
                 (Sed.One (Sed.Line r1)) Hsafe Hc).
      + unfold Sed.apply. fold ls. rewrite delete_line_from, delete_range_from by lia.
        replace (r1 + 1 - 1)%nat with r1 by lia. reflexivity.
      + destruct Hr as [->| ->]; reflexivity.
      + apply no_quote_decimal.
      + apply operand_decimal.
      + apply parse_delete_line; lia. }
  destruct Hcut as (text & Heq). do 2 eexists. split; [exact Heq|].
  cbv zeta. rewrite read_write_lines
    by (apply file_lines_cut; [lia | apply read_lines_file_lines]).
  split; [reflexivity|].
  assert (Hlen : length (firstn (r1 - 1) ls) = (r1 - 1)%nat)
    by (rewrite length_firstn; lia).
  split; [rewrite length_app, Hlen, length_skipn; lia|].
  split; [|split].
  - rewrite nth_error_app2 by lia. rewrite Hlen, nth_error_skipn. f_equal. lia.
  - intros i Hi. rewrite nth_error_app1 by lia.
    rewrite nth_error_firstn.
    destruct (Nat.ltb_spec i (r1 - 1)); [reflexivity | lia].
  - intros i Hi. rewrite nth_error_app2 by lia. rewrite Hlen, nth_error_skipn. f_equal. lia.
Qed.

Lemma line_edit_delete_removes_range_witness :
  let content := "one" +:+ JS.NL +:+ "two" +:+ JS.NL +:+ "three" +:+ JS.NL +:+ "four" +:+ JS.NL in
  let s : gmap string string := <["a.txt" := content]> ∅ in
  let ls := Sed.read_lines content in
  Spec.safe_path "a.txt" = true
  /\ s !! "a.txt" = Some content
  /\ ((1 <= 2 <= 3)%nat /\ (3 <= length ls)%nat)
  /\ (Some "2,3" = Some (Spec.decimal 2 +:+ "," +:+ Spec.decimal 3)
      \/ (2%nat = 3%nat /\ (Some "2,3" = None \/ Some "2,3" = Some "")
          /\ @None Z = Some (Z.of_nat 2)))
  /\ exists text new,
      Server.line_edit Spec.idle_tools "a.txt" None (Some "2,3") "delete" None s
      = (Fs.Ret text, <["a.txt" := new]> (<["a.txt" +:+ ".bak" := content]> s))
      /\ let ls' := Sed.read_lines new in
         ls' = firstn (2 - 1) ls ++ skipn 3 ls
         /\ length ls' = (length ls - (3 - 2 + 1))%nat
         /\ nth_error ls' (2 - 1) = nth_error ls 3
         /\ (forall i, (i < 2 - 1)%nat -> nth_error ls' i = nth_error ls i)
         /\ (forall i, (2 - 1 <= i)%nat -> nth_error ls' i = nth_error ls (i + (3 - 2 + 1))).
Proof.
  intros content s ls.
  split; [reflexivity|]. split; [reflexivity|].
  split; [vm_compute; repeat split; repeat constructor|].
  split; [left; reflexivity|].
  apply (line_edit_delete_removes_range Spec.idle_tools "a.txt" content None (Some "2,3")
           None s 2 3);
    [reflexivity | reflexivity | vm_compute; repeat split; repeat constructor
    | left; reflexivity].
Defined.

(** ** quick_replace *)

(** *** The script, for the texts it escapes rightly *)

Lemma until_escaped_find (x rest : string) :
  Spec.all_chars Spec.literal_for_sed x = true ->
  Sed.until "/" (Server.escape Server.find_class x +:+ String "/" rest)
  = Some (Server.escape Server.find_class x, rest).
Proof.
  induction x as [|c x IH]; intros Hx; [reflexivity|].
  simpl in Hx. apply andb_prop in Hx as [Hc Hx]. specialize (IH Hx).
  simpl. destruct (Server.find_class c) eqn:Hclass.
  - simpl. rewrite IH. reflexivity.
  - simpl.
    assert (Hs : Ascii.eqb c "/" = false).
    { destruct (Ascii.eqb c "/") eqn:E; [|reflexivity].
      apply Ascii.eqb_eq in E. subst c. discriminate. }
    assert (Hb : Ascii.eqb c "\" = false).
    { destruct (Ascii.eqb c "\") eqn:E; [|reflexivity].
      apply Ascii.eqb_eq in E. subst c. discriminate. }
    rewrite Hs, Hb, IH. reflexivity.
Qed.

Lemma until_escaped_replace (y rest : string) :
  Sed.until "/" (Server.escape Server.replace_class y +:+ String "/" rest)
  = Some (Server.escape Server.replace_class y, rest).
Proof.
  induction y as [|c y IH]; [reflexivity|].
  simpl. destruct (Server.replace_class c) eqn:Hclass.
  - simpl. rewrite IH. reflexivity.
  - simpl.
    assert (Hs : Ascii.eqb c "/" = false).
    { destruct (Ascii.eqb c "/") eqn:E; [|reflexivity].
      apply Ascii.eqb_eq in E. subst c. discriminate. }
    assert (Hb : Ascii.eqb c "\" = false).
    { destruct (Ascii.eqb c "\") eqn:E; [|reflexivity].
      apply Ascii.eqb_eq in E. subst c. discriminate. }
    rewrite Hs, Hb, IH. reflexivity.
Qed.

(** sed reads the escaped text to find as the text itself. *)
Lemma bre_literal_escaped_find (x : string) :
  Spec.all_chars Spec.literal_for_sed x = true ->
  Sed.bre_literal "/" (Server.escape Server.find_class x) = Some x.
Proof.
  induction x as [|c x IH]; intros Hx; [reflexivity|].
  simpl in Hx. apply andb_prop in Hx as [Hc Hx]. specialize (IH Hx).
  simpl. destruct (Server.find_class c) eqn:Hclass.
  - simpl. rewrite IH.
    assert (Hsp : Sed.bre_special c || Ascii.eqb c "/" = true).
    { unfold Server.find_class, Spec.literal_for_sed, Sed.bre_special in *.
      simpl in *.
      repeat match goal with
             | H : context [Ascii.eqb c ?d] |- _ =>
                 destruct (Ascii.eqb_spec c d); [subst c; try discriminate; reflexivity|]
             end.
      discriminate. }
    rewrite Hsp. reflexivity.
  - assert (Hb : Ascii.eqb c "\" = false).
    { destruct (Ascii.eqb_spec c "\"); [subst c; discriminate | reflexivity]. }
    assert (Hsp : Sed.bre_special c = false).
    { unfold Server.find_class, Sed.bre_special in *. simpl in *.
      repeat match goal with
             | H : context [Ascii.eqb c ?d] |- _ =>
                 destruct (Ascii.eqb_spec c d); [subst c; discriminate|]
             end.
      reflexivity. }
    simpl. rewrite Hb, Hsp, IH. reflexivity.
Qed.

(** sed reads the escaped replacement as the replacement itself. *)
Lemma rhs_escaped_replace (y : string) :
  exists items,
    Sed.rhs "/" (Server.escape Server.replace_class y) = Some items
    /\ forall find, Sed.expand find items = y.
Proof.
  induction y as [|c y (items & IH & Hexp)]; [exists []; split; reflexivity|].
  simpl. destruct (Server.replace_class c) eqn:Hclass.
  - exists (Sed.RChar c :: items). simpl. rewrite IH.
    unfold Server.replace_class in Hclass. simpl in Hclass.
    assert (Hd : Ascii.eqb c "&" || Ascii.eqb c "\" || Ascii.eqb c "/" = true)
      by (destruct (Ascii.eqb c "&"), (Ascii.eqb c "\"), (Ascii.eqb c "/");
          simpl in *; congruence).
    rewrite Hd. split; [reflexivity|].
    intros find. simpl. now rewrite Hexp.
  - exists (Sed.RChar c :: items).
    unfold Server.replace_class in Hclass. simpl in Hclass.
    assert (Hb : Ascii.eqb c "\" = false)
      by (destruct (Ascii.eqb c "&"), (Ascii.eqb c "\"), (Ascii.eqb c "/");
          simpl in *; congruence).
    assert (Ha : Ascii.eqb c "&" = false)
      by (destruct (Ascii.eqb c "&"), (Ascii.eqb c "\"), (Ascii.eqb c "/");
          simpl in *; congruence).
    simpl. rewrite Hb, IH, Ha. split; [reflexivity|].
    intros find. simpl. now rewrite Hexp.
Qed.

Lemma includes_escape (class : ascii -> bool) (c : ascii) (x : string) :
  Ascii.eqb "\" c = false ->
  JS.includes c (Server.escape class x) = JS.includes c x.
Proof.
  intros Hc. induction x as [|d x IH]; [reflexivity|].
  cbn [Server.escape JS.includes].
  destruct (class d); cbn [JS.includes]; rewrite IH; [now rewrite Hc | reflexivity].
Qed.

Lemma all_chars_no_newline (x : string) :
  Spec.all_chars Spec.literal_for_sed x = true -> JS.includes JS.nl x = false.
Proof.
  induction x as [|c x IH]; [reflexivity|].
  simpl. intros [Hc Hx]%andb_prop. rewrite (IH Hx), orb_false_r.
  destruct (Ascii.eqb_spec c JS.nl); [subst c; discriminate | reflexivity].
Qed.

(** The script that [quick_replace] builds, as sed reads it. *)
Lemma parse_replace_script (find replace : string) (all : bool) :
  find <> "" ->
  Spec.all_chars Spec.literal_for_sed find = true ->
  JS.includes JS.nl replace = false ->
  exists items,
    Sed.parse (Server.replace_script find replace all)
    = Sed.Script Sed.Every (Sed.Subst find items all)
    /\ Sed.expand find items = replace.
Proof.
  intros Hne Hfind Hrep.
  destruct (rhs_escaped_replace replace) as (items & Hrhs & Hexp).
  exists items. split; [|apply Hexp].
  unfold Sed.parse, Server.replace_script.
  assert (Hnl : JS.includes JS.nl
                  ("s/" +:+ Server.escape Server.find_class find +:+ "/"
                   +:+ Server.escape Server.replace_class replace
                   +:+ (if all then "/g" else "/")) = false).
  { rewrite !includes_app, !includes_escape by reflexivity.
    rewrite (all_chars_no_newline _ Hfind), Hrep. now destruct all. }
  rewrite Hnl. simpl.
  rewrite until_escaped_find by exact Hfind.
  rewrite bre_literal_escaped_find by exact Hfind.
  destruct find as [|c f]; [congruence|].
  destruct all.
  - rewrite (until_escaped_replace replace "g"). simpl. now rewrite Hrhs.
  - change "/" with (String "/" ""). rewrite (until_escaped_replace replace "").
    simpl. now rewrite Hrhs.
Qed.

Lemma apply_every_subst (find : string) (items : list Sed.ritem) (g : bool)
  (count : nat) (ls : list (string * bool)) (i : nat) :
  Sed.apply_from Sed.Every (Sed.Subst find items g) count i ls
  = map (Spec.replace_in_line find (Sed.expand find items) g) ls.
Proof.
  revert i. induction ls as [|l ls IH]; intros i; [reflexivity|].
  simpl. rewrite IH. unfold Spec.replace_in_line, Sed.substitute.
  destruct g; reflexivity.
Qed.

(** What [quick_replace] does, for a text to find that it escapes rightly
    (no [+ ? { } ( ) | /] and no newline) and a replacement without newline:
    the file is kept as [file.bak], and in every line of the file the first
    occurrence of the text is replaced ([all = false]), or every occurrence
    from left to right ([all = true]). *)
Lemma quick_replace_plain_text (T : Tools) (file find replace content : string)
  (all : bool) (s : gmap string string) :
  Spec.safe_path file = true ->
  s !! file = Some content ->
  find <> "" ->
  Spec.all_chars Spec.literal_for_sed find = true ->
  JS.includes JS.nl replace = false ->
  Server.quick_replace T file find replace all s
  = (Fs.Ret ("Replaced " +:+ JS.DQ +:+ find +:+ JS.DQ +:+ " with " +:+ JS.DQ +:+ replace
             +:+ JS.DQ +:+ " in " +:+ file),
     <[file := Sed.write_lines (map (Spec.replace_in_line find replace all)
                                   (Sed.read_lines content))]>
       (<[file +:+ ".bak" := content]> s)).
Proof.
  intros Hsafe Hc Hne Hfind Hrep.
  destruct (parse_replace_script find replace all Hne Hfind Hrep) as (items & Hp & Hexp).
  unfold Server.quick_replace, Fs.bind.
  rewrite (require_file_found _ _ _ Hc).
  unfold Cmd.execAsync.
  replace (if all
           then "s/" +:+ Server.escapedFind find +:+ "/" +:+ Server.escapedReplace replace +:+ "/g"
           else "s/" +:+ Server.escapedFind find +:+ "/" +:+ Server.escapedReplace replace +:+ "/")
    with (Server.escape_quotes (Server.replace_script find replace all)).
  - rewrite (sh_sed T _ _ _ (safe_path_no_quote _ Hsafe)).
    rewrite (sed_in_place (Server.replace_script find replace all) file content _ _ s
               eq_refl (safe_path_operand _ Hsafe) Hp Hc).
    unfold Sed.apply. rewrite apply_every_subst, Hexp. reflexivity.
  - unfold Server.replace_script, Server.escapedFind, Server.escapedReplace.
    rewrite !escape_quotes_app. now destruct all.
Qed.

Lemma drop_append (a b : string) : Sed.drop (String.length a) (a +:+ b) = b.
Proof. induction a as [|c a IH]; simpl; [now destruct b | exact IH]. Qed.

Lemma starts_with_append (a b : string) : Sed.starts_with a (a +:+ b) = true.
Proof.
  induction a as [|c a IH]; simpl; [reflexivity|].
  now rewrite Ascii.eqb_refl, IH.
Qed.

(** [replace_first] replaces the occurrence of [find] before which no
    occurrence starts, and nothing else. *)
Lemma replace_first_at (find to pre post : string) :
  find <> "" ->
  (forall a b, pre = a +:+ b -> b <> "" ->
     Sed.starts_with find (b +:+ find +:+ post) = false) ->
  Sed.replace_first find to (pre +:+ find +:+ post) = pre +:+ to +:+ post.
Proof.
  intros Hne. induction pre as [|c pre IH]; intros Hfirst.
  - destruct find as [|c f]; [congruence|].
    cbn [String.append Sed.replace_first].
    change (String c (f +:+ post)) with (String c f +:+ post).
    rewrite starts_with_append.
    replace (String.length (String c f) - 1)%nat with (String.length f) by (simpl; lia).
    now rewrite drop_append.
  - cbn [String.append Sed.replace_first].
    change (String c (pre +:+ find +:+ post)) with (String c pre +:+ find +:+ post).
    rewrite (Hfirst "" (String c pre)) by (reflexivity || discriminate).
    rewrite IH; [reflexivity|].
    intros a b -> Hb. apply (Hfirst (String c a) b); [reflexivity | exact Hb].
Qed.

(** A line without the text is left as it is. *)
Lemma replace_none (find to s : string) :
  Spec.occurrences find s = 0%nat ->
  Sed.replace_first find to s = s /\ Sed.replace_all find to 0 s = s.
Proof.
  induction s as [|c s IH]; intros H; [split; reflexivity|].
  cbn [Spec.occurrences] in H.
  destruct (Sed.starts_with find (String c s)) eqn:E; [discriminate|].
  destruct (IH H) as [H1 H2].
  cbn [Sed.replace_first Sed.replace_all]. rewrite E, H1, H2. split; reflexivity.
Qed.

(** *** Where it goes wrong *)

(** C3 fails on the code: with [all = false] the script is [s/find/to/],
    which sed applies to every line; the first occurrence on each line is
    replaced, not the first in the file. With two lines [old], both
    change. *)
Theorem quick_replace_first_only_changes_every_line (T : Tools) :
  let before := "old" +:+ JS.NL +:+ "old" +:+ JS.NL in
  let after := "new" +:+ JS.NL +:+ "new" +:+ JS.NL in
  let s : gmap string string := <["a.txt" := before]> ∅ in
  Server.quick_replace T "a.txt" "old" "new" false s
  = (Fs.Ret ("Replaced " +:+ JS.DQ +:+ "old" +:+ JS.DQ +:+ " with " +:+ JS.DQ +:+ "new"
             +:+ JS.DQ +:+ " in a.txt"),
     <["a.txt" := after]> (<["a.txt.bak" := before]> s))
  /\ Spec.occurrences "old" before = 2%nat
  /\ Spec.occurrences "old" after = 0%nat.
Proof. repeat split; vm_compute; reflexivity. Qed.

(** C4 fails on the code: [/] is not in the class of characters escaped in
    the text to find, though it ends the regular expression in the script.
    For [find = "a/b"] the script is [s/a/b/c/g], which sed rejects: the
    call fails and the file, which holds [a/b], is left as it is. Nor is
    the escaping that of sed: [+] becomes [\+], which is not the plain
    character in a basic regular expression. *)
Theorem quick_replace_slash_breaks_script (T : Tools) :
  let s : gmap string string := <["a.txt" := "a/b" +:+ JS.NL]> ∅ in
  Server.replace_script "a/b" "c" true = "s/a/b/c/g"
  /\ Sed.parse "s/a/b/c/g" = Sed.Bad
  /\ Server.quick_replace T "a.txt" "a/b" "c" true s
     = (Fs.Throw (Fs.ExecException "sed -i.bak 's/a/b/c/g' 'a.txt'" 1), s)
  /\ Spec.occurrences "a/b" ("a/b" +:+ JS.NL) = 1%nat
  /\ Server.escapedFind "a+b" = "a\+b"
  /\ Sed.bre_literal "/" "a\+b" = None.
Proof. repeat split; vm_compute; reflexivity. Qed.

(** ** Previews *)

Lemma safe_path_suffix (p suffix : string) :
  Spec.safe_path p = true -> Spec.no_quote suffix = true ->
  Spec.safe_path (p +:+ suffix) = true.
Proof.
  unfold Spec.safe_path, Spec.no_quote.
  intros [Ho Hq]%andb_prop Hs. rewrite includes_app.
  apply negb_true_iff in Hq, Hs. rewrite Hq, Hs.
  destruct p; [discriminate|]. simpl in *. now rewrite Ho.
Qed.

(** The first command of a preview: [.bak] is removed and the file is
    copied to its scratch copy. *)
Lemma sh_scratch_copy (T : Tools) (file : string) (s : gmap string string) :
  Spec.safe_path file = true ->
  Cmd.sh T ("rm -f .bak; cp '" +:+ file +:+ "' '" +:+ (file +:+ ".preview.tmp") +:+ "'") s
  = match delete ".bak" s !! file with
    | Some c => Some (Cmd.quiet 0 (<[file +:+ ".preview.tmp" := c]> (delete ".bak" s)))
    | None => Some (Cmd.failed 1 ("cp: cannot stat " +:+ file) (delete ".bak" s))
    end.
Proof.
  intros Hsafe.
  pose proof (safe_path_suffix file ".preview.tmp" Hsafe eq_refl) as Htmp.
  unfold Cmd.sh, Sh.parse. simpl.
  rewrite (lex_plain file _ _ (safe_path_no_quote _ Hsafe)). simpl.
  rewrite (lex_plain _ _ _ (safe_path_no_quote _ Htmp)). simpl.
  unfold Cmd.run_simple, Cmd.run_argv. simpl.
  rewrite (safe_path_operand _ Hsafe), (safe_path_operand _ Htmp). simpl.
  destruct (delete ".bak" s !! file); [|reflexivity].
  rewrite (proj2 (String.eqb_neq _ _)) by (apply suffix_neq; discriminate).
  reflexivity.
Qed.

(** The command line of the preview of [sed_edit], as the shell reads
    it. *)
Lemma parse_perl_preview (pattern tmp file : string) :
  Spec.no_quote pattern = true -> Spec.no_quote tmp = true -> Spec.no_quote file = true ->
  Sh.parse ("perl -i -pe '" +:+ pattern +:+ "' '" +:+ tmp
            +:+ "' && diff -u '" +:+ file +:+ "' '" +:+ tmp
            +:+ "' | head -50; rm -f '" +:+ tmp +:+ "'")
  = Sh.Parsed
      [ [ (true, [ {| Sh.argv := [ "perl"; "-i"; "-pe"; pattern; tmp ]; Sh.redirect := None |} ]);
          (true, [ {| Sh.argv := [ "diff"; "-u"; file; tmp ]; Sh.redirect := None |};
                   {| Sh.argv := [ "head"; "-50" ]; Sh.redirect := None |} ]) ];
        [ (true, [ {| Sh.argv := [ "rm"; "-f"; tmp ]; Sh.redirect := None |} ]) ] ].
Proof.
  intros Hp Ht Hf. unfold Sh.parse.
  cbn. rewrite (lex_plain pattern _ _ Hp).
  cbn. rewrite (lex_plain tmp _ _ Ht).
  cbn. rewrite (lex_plain file _ _ Hf).
  cbn. rewrite (lex_plain tmp _ _ Ht).
  cbn. rewrite (lex_plain tmp _ _ Ht).
  cbn. reflexivity.
Qed.

(** The commands of a preview, one by one. *)
Lemma run_rm (T : Tools) (p stdin : string) (s : gmap string string) :
  Cmd.operand p = true ->
  Cmd.run_simple T {| Sh.argv := [ "rm"; "-f"; p ]; Sh.redirect := None |} stdin s
  = Some (Cmd.quiet 0 (delete p s)).
Proof.
  intros Hp. unfold Cmd.run_simple, Cmd.run_argv. cbn [Sh.redirect Sh.argv].
  change (String.eqb "rm" "rm") with true. change (String.eqb "-f" "-f") with true.
  cbn [forallb andb]. now rewrite Hp.
Qed.

Lemma run_head (T : Tools) (stdin : string) (s : gmap string string) :
  Cmd.run_simple T {| Sh.argv := [ "head"; "-50" ]; Sh.redirect := None |} stdin s
  = Some {| Cmd.status := 0; Cmd.out := Cmd.head_lines 50 stdin; Cmd.err := "";
            Cmd.files := s |}.
Proof. reflexivity. Qed.

Lemma run_diff (T : Tools) (a b stdin : string) (s : gmap string string) :
  Cmd.operand a = true -> Cmd.operand b = true ->
  exists o,
    Cmd.run_simple T {| Sh.argv := [ "diff"; "-u"; a; b ]; Sh.redirect := None |} stdin s
    = Some o
    /\ Cmd.files o = s.
Proof.
  intros Ha Hb. unfold Cmd.run_simple, Cmd.run_argv. cbn [Sh.redirect Sh.argv].
  change (String.eqb "diff" "rm") with false.
  change (String.eqb "diff" "cp") with false.
  change (String.eqb "diff" "mv") with false.
  change (String.eqb "diff" "true") with false.
  change (String.eqb "diff" "head") with false.
  change (String.eqb "diff" "diff") with true.
  change (String.eqb "-u" "-u") with true. cbv iota.
  rewrite Ha, Hb. cbn [andb].
  destruct (s !! a) as [ca|]; [destruct (s !! b) as [cb|]|];
    [destruct (String.eqb ca cb)| |]; eexists; split; reflexivity.
Qed.

Lemma run_perl (T : Tools) (script file stdin : string) (s : gmap string string) :
  Cmd.operand file = true ->
  exists o,
    Cmd.run_simple T {| Sh.argv := [ "perl"; "-i"; "-pe"; script; file ]; Sh.redirect := None |}
      stdin s = Some o
    /\ (Cmd.files o = s \/ exists text, Cmd.files o = <[file := text]> s).
Proof.
  intros Hf. unfold Cmd.run_simple. cbn [Sh.redirect Sh.argv].
  change (Cmd.run_argv T [ "perl"; "-i"; "-pe"; script; file ] stdin s)
    with (Cmd.perl T "-i" false script file s).
  unfold Cmd.perl. change (Cmd.in_place "-i") with (Some ""). rewrite Hf.
  destruct (s !! file) as [content|]; [|eexists; split; [reflexivity | left; reflexivity]].
  destruct (perl_pe T script false content) as [r [text|]];
    eexists; (split; [reflexivity|]); [right; exists text | left]; reflexivity.
Qed.

(** That command line always ends with status 0 and without the scratch
    copy: [rm -f] is its last command, whatever perl and diff did. *)
Lemma sh_perl_preview (T : Tools) (pattern tmp file : string) (s : gmap string string) :
  Spec.no_quote pattern = true -> Spec.safe_path tmp = true -> Spec.safe_path file = true ->
  exists o,
    Cmd.sh T ("perl -i -pe '" +:+ pattern +:+ "' '" +:+ tmp
              +:+ "' && diff -u '" +:+ file +:+ "' '" +:+ tmp
              +:+ "' | head -50; rm -f '" +:+ tmp +:+ "'") s
    = Some o
    /\ Cmd.status o = 0%nat
    /\ Cmd.files o = delete tmp s.
Proof.
  intros Hp Ht Hf. unfold Cmd.sh.
  rewrite (parse_perl_preview _ _ _ Hp (safe_path_no_quote _ Ht) (safe_path_no_quote _ Hf)).
  pose proof (safe_path_operand _ Ht) as Hot.
  pose proof (safe_path_operand _ Hf) as Hof.
  destruct (run_perl T pattern tmp "" s Hot) as ([st1 out1 err1 f1] & Hperl & Hfiles).
  cbn [Cmd.files] in Hfiles.
  assert (Hdel : delete tmp f1 = delete tmp s).
  { destruct Hfiles as [->|(text & ->)]; [reflexivity | apply delete_insert_eq]. }
  destruct (run_diff T file tmp "" f1 Hof Hot) as ([st2 out2 err2 f2] & Hdiff & Hf2).
  cbn [Cmd.files] in Hf2. subst f2.
  pose proof (run_rm T tmp "" f1 Hot) as Hrm.
  cbn [Cmd.run_list Cmd.run_andor Cmd.run_pipeline Cmd.start Cmd.after Cmd.status
       Cmd.files Cmd.out Cmd.err Bool.eqb Nat.eqb].
  rewrite Hperl.
  destruct st1 as [|n];
    cbn [Cmd.run_list Cmd.run_andor Cmd.run_pipeline Cmd.start Cmd.after Cmd.status
         Cmd.files Cmd.out Cmd.err Bool.eqb Nat.eqb].
  - rewrite Hdiff, run_head.
    cbn [Cmd.run_list Cmd.run_andor Cmd.run_pipeline Cmd.start Cmd.after Cmd.status
         Cmd.files Cmd.out Cmd.err Bool.eqb Nat.eqb].
    rewrite Hrm.
    eexists. split; [reflexivity|]. split; [reflexivity | exact Hdel].
  - rewrite Hrm.
    eexists. split; [reflexivity|]. split; [reflexivity | exact Hdel].
Qed.

(** The preview of [sed_edit]: whatever perl makes of the pattern, the
    call ends (with the preview or with perl's diagnostic), the scratch
    copy is gone, and the file system is otherwise as the first command
    left it; the target still holds its content. *)
Lemma sed_edit_preview_removes_scratch_copy (T : Tools) (file pattern content : string)
  (backup : bool) (s : gmap string string) :
  Spec.safe_path file = true ->
  Spec.no_quote pattern = true ->
  file <> ".bak" ->
  s !! file = Some content ->
  exists r,
    Server.sed_edit T file pattern backup true s
    = (r, delete (file +:+ ".preview.tmp") (delete ".bak" s))
    /\ r <> Fs.Stuck
    /\ delete (file +:+ ".preview.tmp") (delete ".bak" s) !! file = Some content.
Proof.
  intros Hsafe Hpat Hbak Hc.
  pose proof (safe_path_suffix file ".preview.tmp" Hsafe eq_refl) as Htmp.
  assert (Hc' : delete ".bak" s !! file = Some content)
    by (rewrite lookup_delete_ne by congruence; exact Hc).
  destruct (sh_perl_preview T pattern (file +:+ ".preview.tmp") file
              (<[file +:+ ".preview.tmp" := content]> (delete ".bak" s)) Hpat Htmp Hsafe)
    as ([st out err f] & Hsh & Hst & Hfiles).
  cbn [Cmd.status Cmd.files] in Hst, Hfiles. subst st f.
  rewrite delete_insert_eq in Hsh.
  unfold Server.sed_edit, Fs.bind.
  rewrite (require_file_found _ _ _ Hc).
  unfold Cmd.execAsync at 1. rewrite (sh_scratch_copy T file s Hsafe), Hc'.
  cbn [Cmd.quiet Cmd.status Cmd.files Cmd.out Cmd.err Nat.eqb Fs.ret].
  unfold Cmd.execAsync. rewrite Hsh.
  cbn [Cmd.status Cmd.files Cmd.out Cmd.err Nat.eqb].
  assert (Hkeep : delete (file +:+ ".preview.tmp") (delete ".bak" s) !! file = Some content).
  { rewrite lookup_delete_ne; [exact Hc'|].
    intros E. symmetry in E. revert E. apply suffix_neq. discriminate. }
  destruct (negb (String.eqb err "")); eexists; (split; [reflexivity|]);
    (split; [discriminate | exact Hkeep]).
Qed.

(** The edit commands of [diff_preview] for sed and perl, as the shell
    reads them. *)
Lemma parse_sed_preview (command tmp : string) :
  Spec.no_quote command = true -> Spec.no_quote tmp = true ->
  Sh.parse ("sed -i.tmp '" +:+ command +:+ "' '" +:+ tmp +:+ "' && rm -f '"
            +:+ (tmp +:+ ".tmp") +:+ "'")
  = Sh.Parsed
      [ [ (true, [ {| Sh.argv := [ "sed"; "-i.tmp"; command; tmp ]; Sh.redirect := None |} ]);
          (true, [ {| Sh.argv := [ "rm"; "-f"; tmp +:+ ".tmp" ]; Sh.redirect := None |} ]) ] ].
Proof.
  intros Hc Ht.
  assert (Htt : Spec.no_quote (tmp +:+ ".tmp") = true).
  { unfold Spec.no_quote in *. rewrite includes_app.
    apply negb_true_iff in Ht. now rewrite Ht. }
  unfold Sh.parse.
  cbn. rewrite (lex_plain command _ _ Hc).
  cbn. rewrite (lex_plain tmp _ _ Ht).
  cbn. rewrite (lex_plain _ _ _ Htt).
  cbn. reflexivity.
Qed.

Lemma parse_perl_edit (command tmp : string) :
  Spec.no_quote command = true -> Spec.no_quote tmp = true ->
  Sh.parse ("perl -i -pe '" +:+ command +:+ "' '" +:+ tmp +:+ "'")
  = Sh.Parsed
      [ [ (true, [ {| Sh.argv := [ "perl"; "-i"; "-pe"; command; tmp ];
                      Sh.redirect := None |} ]) ] ].
Proof.
  intros Hc Ht. unfold Sh.parse.
  cbn. rewrite (lex_plain command _ _ Hc).
  cbn. rewrite (lex_plain tmp _ _ Ht).
  cbn. reflexivity.
Qed.

(** [diff_preview] with sed, for any script that sed rejects: the call
    throws and the scratch copy stays. *)
Lemma diff_preview_sed_failure (T : Tools) (file command content : string)
  (s : gmap string string) :
  Spec.safe_path file = true ->
  Spec.safe_path command = true ->
  file <> ".bak" ->
  s !! file = Some content ->
  Sed.parse command = Sed.Bad ->
  exists cmd code,
    Server.diff_preview T file command Server.ToolSed s
    = (Fs.Throw (Fs.ExecException cmd code),
       <[file +:+ ".preview.tmp" := content]> (delete ".bak" s)).
Proof.
  intros Hsafe Hcmd Hbak Hc Hbad.
  pose proof (safe_path_suffix file ".preview.tmp" Hsafe eq_refl) as Htmp.
  assert (Hc' : delete ".bak" s !! file = Some content)
    by (rewrite lookup_delete_ne by congruence; exact Hc).
  unfold Server.diff_preview, Fs.bind.
  rewrite (require_file_found _ _ _ Hc).
  unfold Cmd.execAsync at 1. rewrite (sh_scratch_copy T file s Hsafe), Hc'.
  cbn [Cmd.quiet Cmd.status Cmd.files Cmd.out Cmd.err Nat.eqb].
  unfold Cmd.execAsync at 1. unfold Cmd.sh.
  change ((file +:+ ".preview.tmp") +:+ ".tmp'")
    with ((file +:+ ".preview.tmp") +:+ ".tmp" +:+ "'").
  rewrite <- (append_assoc (file +:+ ".preview.tmp") ".tmp" "'").
  rewrite (parse_sed_preview _ _ (safe_path_no_quote _ Hcmd) (safe_path_no_quote _ Htmp)).
  cbn [Cmd.run_list Cmd.run_andor Cmd.run_pipeline Cmd.start Cmd.after Cmd.status
       Cmd.files Cmd.out Cmd.err Bool.eqb Nat.eqb].
  unfold Cmd.run_simple at 1. cbn [Sh.redirect Sh.argv].
  change (Cmd.run_argv T [ "sed"; "-i.tmp"; command; file +:+ ".preview.tmp" ] "" ?x)
    with (Cmd.sed "-i.tmp" command (file +:+ ".preview.tmp") x).
  unfold Cmd.sed. change (Cmd.in_place "-i.tmp") with (Some ".tmp").
  rewrite (safe_path_operand _ Hcmd), (safe_path_operand _ Htmp), Hbad.
  cbn [andb Cmd.failed Cmd.run_andor Cmd.start Cmd.after Cmd.status Cmd.files Cmd.out
       Cmd.err Bool.eqb Nat.eqb].
  do 2 eexists. reflexivity.
Qed.

(** The same with perl, for any script that perl rejects: it ends with a
    status that is not 0 and has not touched the file. *)
Lemma diff_preview_perl_failure (T : Tools) (file command content : string) (r : ran)
  (s : gmap string string) :
  Spec.safe_path file = true ->
  Spec.no_quote command = true ->
  file <> ".bak" ->
  s !! file = Some content ->
  perl_pe T command false content = (r, None) ->
  exit_code r <> 0%nat ->
  exists cmd code,
    Server.diff_preview T file command Server.ToolPerl s
    = (Fs.Throw (Fs.ExecException cmd code),
       <[file +:+ ".preview.tmp" := content]> (delete ".bak" s)).
Proof.
  intros Hsafe Hcmd Hbak Hc Hperl Hcode.
  pose proof (safe_path_suffix file ".preview.tmp" Hsafe eq_refl) as Htmp.
  assert (Hc' : delete ".bak" s !! file = Some content)
    by (rewrite lookup_delete_ne by congruence; exact Hc).
  unfold Server.diff_preview, Fs.bind.
  rewrite (require_file_found _ _ _ Hc).
  unfold Cmd.execAsync at 1. rewrite (sh_scratch_copy T file s Hsafe), Hc'.
  cbn [Cmd.quiet Cmd.status Cmd.files Cmd.out Cmd.err Nat.eqb].
  unfold Cmd.execAsync at 1. unfold Cmd.sh.
  rewrite (parse_perl_edit _ _ Hcmd (safe_path_no_quote _ Htmp)).
  cbn [Cmd.run_list Cmd.run_andor Cmd.run_pipeline Cmd.start Cmd.after Cmd.status
       Cmd.files Cmd.out Cmd.err Bool.eqb Nat.eqb].
  unfold Cmd.run_simple at 1. cbn [Sh.redirect Sh.argv].
  change (Cmd.run_argv T [ "perl"; "-i"; "-pe"; command; file +:+ ".preview.tmp" ] "" ?x)
    with (Cmd.perl T "-i" false command (file +:+ ".preview.tmp") x).
  unfold Cmd.perl. change (Cmd.in_place "-i") with (Some "").
  rewrite (safe_path_operand _ Htmp), lookup_insert_eq, Hperl.
  cbn [Cmd.run_andor Cmd.start Cmd.after Cmd.status Cmd.files Cmd.out
       Cmd.err Bool.eqb Nat.eqb].
  destruct (exit_code r) as [|n] eqn:En; [congruence|].
  cbn [Cmd.status Nat.eqb].
  do 2 eexists. reflexivity.
Qed.

(** *** Where the scratch copy stays *)


(** C1 fails on the code: when the edit command of [diff_preview] fails,
    [execAsync] rejects and the handler leaves before its clean-up; the
    scratch copy [file.preview.tmp] stays. Here sed rejects the flag [z]. *)
Theorem diff_preview_failure_keeps_scratch_copy (T : Tools) :
  let s : gmap string string := <["a.txt" := "a" +:+ JS.NL]> ∅ in
  Server.diff_preview T "a.txt" "s/a/b/z" Server.ToolSed s
  = (Fs.Throw (Fs.ExecException
       "sed -i.tmp 's/a/b/z' 'a.txt.preview.tmp' && rm -f 'a.txt.preview.tmp.tmp'" 1),
     <["a.txt.preview.tmp" := "a" +:+ JS.NL]> s).
Proof. vm_compute. reflexivity. Qed.

(** Every preview starts with [rm -f .bak]: a preview of a file named
    [.bak] removes the file, and a preview of any file removes a file of
    that name beside it. *)
Lemma preview_removes_dot_bak (T : Tools) :
  let s : gmap string string := <[".bak" := "kept"]> (<["a.txt" := "a" +:+ JS.NL]> ∅) in
  Server.diff_preview T ".bak" "s/a/b/" Server.ToolSed s
  = (Fs.Throw (Fs.ExecException "rm -f .bak; cp '.bak' '.bak.preview.tmp'" 1),
     delete ".bak" s)
  /\ Server.sed_edit T ".bak" "s/a/b/" true true s
     = (Fs.Throw (Fs.ExecException "rm -f .bak; cp '.bak' '.bak.preview.tmp'" 1),
        delete ".bak" s)
  /\ Server.diff_preview T "a.txt" "s/x/y/" Server.ToolSed s
     = (Fs.Ret "No changes would be made", delete ".bak" s).
Proof. repeat split; vm_compute; reflexivity. Qed.

(** * Further properties of the handlers *)

(** ** Missing files *)

Lemma require_file_missing (file : string) (s : gmap string string) :
  s !! file = None ->
  Server.require_file file s = (Fs.Throw (Fs.Error ("File not found: " +:+ file)), s).
Proof.
  intros H. unfold Server.require_file, Fs.bind, Fs.test_fs.
  now rewrite (existsSync_None _ _ H).
Qed.

(** Every handler that begins with the existence check answers a missing
    file with [File not found], whatever its other arguments, before it
    runs any command: the file system is as it was. *)
Theorem missing_file_is_reported (T : Tools) (E : RegExpEngine) (file : string)
  (s : gmap string string) :
  s !! file = None ->
  let failure : Fs.res string * gmap string string :=
    (Fs.Throw (Fs.Error ("File not found: " +:+ file)), s) in
  (forall pattern backup preview, Server.sed_edit T file pattern backup preview s = failure)
  /\ (forall script outputFile, Server.awk_process T file script outputFile s = failure)
  /\ (forall find replace all, Server.quick_replace T file find replace all s = failure)
  /\ (forall lineNumber lineRange action content,
        Server.line_edit T file lineNumber lineRange action content s = failure)
  /\ (forall script backup multiline, Server.perl_edit T file script backup multiline s = failure)
  /\ (forall command tool, Server.diff_preview T file command tool s = failure)
  /\ (forall lines search context, Server.read_file E file lines search context s = failure)
  /\ (forall pattern context caseInsensitive,
        Server.search_in_file E file pattern context caseInsensitive s = failure)
  /\ (forall lineNumber context, Server.show_around_line file lineNumber context s = failure).
Proof.
  intros H failure. pose proof (require_file_missing file s H) as Hreq.
  repeat split; intros;
    unfold Server.sed_edit, Server.awk_process, Server.quick_replace, Server.line_edit,
      Server.perl_edit, Server.diff_preview, Server.read_file, Server.search_in_file,
      Server.show_around_line;
    unfold Fs.bind at 1; rewrite Hreq; reflexivity.
Qed.

Lemma missing_file_is_reported_witness :
  let s : gmap string string := <["a.txt" := "one"]> ∅ in
  let failure : Fs.res string * gmap string string :=
    (Fs.Throw (Fs.Error ("File not found: " +:+ "b.txt")), s) in
  s !! "b.txt" = None
  /\ (forall pattern backup preview,
        Server.sed_edit Spec.idle_tools "b.txt" pattern backup preview s = failure)
  /\ (forall script outputFile,
        Server.awk_process Spec.idle_tools "b.txt" script outputFile s = failure)
  /\ (forall find replace all,
        Server.quick_replace Spec.idle_tools "b.txt" find replace all s = failure)
  /\ (forall lineNumber lineRange action content,
        Server.line_edit Spec.idle_tools "b.txt" lineNumber lineRange action content s = failure)
  /\ (forall script backup multiline,
        Server.perl_edit Spec.idle_tools "b.txt" script backup multiline s = failure)
  /\ (forall command tool, Server.diff_preview Spec.idle_tools "b.txt" command tool s = failure)
  /\ (forall lines search context,
        Server.read_file PlainRegExp.engine "b.txt" lines search context s = failure)
  /\ (forall pattern context caseInsensitive,
        Server.search_in_file PlainRegExp.engine "b.txt" pattern context caseInsensitive s
        = failure)
  /\ (forall lineNumber context, Server.show_around_line "b.txt" lineNumber context s = failure).
Proof.
  intros s failure. split; [reflexivity|].
  apply (missing_file_is_reported Spec.idle_tools PlainRegExp.engine "b.txt" s).
  reflexivity.
Defined.

(** ** The handlers that only read *)

Lemma require_file_state (file : string) (s : gmap string string) :
  snd (Server.require_file file s) = s.
Proof.
  unfold Server.require_file, Fs.bind, Fs.test_fs.
  destruct (Fs.existsSync file s); reflexivity.
Qed.

(** [read_file], [search_in_file] and [show_around_line] never change the
    file system, whatever they are asked and whether they answer or
    throw. *)
Theorem readers_change_no_file (E : RegExpEngine) (s : gmap string string) :
  (forall file lines search context,
      snd (Server.read_file E file lines search context s) = s)
  /\ (forall file pattern context caseInsensitive,
        snd (Server.search_in_file E file pattern context caseInsensitive s) = s)
  /\ (forall file lineNumber context,
        snd (Server.show_around_line file lineNumber context s) = s).
Proof.
  assert (Hreq : forall file, exists r, Server.require_file file s = (r, s)).
  { intros file. exists (fst (Server.require_file file s)).
    rewrite <- (require_file_state file s) at 3. now destruct (Server.require_file file s). }
  repeat split; intros; destruct (Hreq file) as [r Hr];
    unfold Server.read_file, Server.search_in_file, Server.show_around_line;
    unfold Fs.bind at 1; rewrite Hr; destruct r as [[]| |]; try reflexivity;
    unfold Fs.bind, Fs.readFile, Fs.throw, Fs.ret;
    destruct (s !! file); try reflexivity.
  - destruct search as [[|c p]|].
    + destruct (Server.truthy_lines lines); [|reflexivity].
      destruct (Server.range_pieces lines); reflexivity.
    + destruct (RegExp_new E (String c p) "gi"); reflexivity.
    + destruct (Server.truthy_lines lines); [|reflexivity].
      destruct (Server.range_pieces lines); reflexivity.
  - destruct (RegExp_new E pattern (if caseInsensitive then "gi" else "g")); [|reflexivity].
    destruct (Server.search_each E _ r _ context _ 0 0 0). reflexivity.
  - destruct (JS.lt _ _ || JS.gt _ _); reflexivity.
Qed.

(** ** line_edit with an unknown action *)

(** An action other than [replace], [delete], [insert_after] and
    [insert_before] is refused before any command runs: the file is as it
    was and no backup is written. *)
Theorem line_edit_unknown_action (T : Tools) (file content action : string)
  (lineNumber : option Z) (lineRange text : option string) (s : gmap string string) :
  s !! file = Some content ->
  ~ In action [ "replace"; "delete"; "insert_after"; "insert_before" ] ->
  Server.line_edit T file lineNumber lineRange action text s
  = (Fs.Throw (Fs.Error ("Unknown action: " +:+ action)), s).
Proof.
  intros Hc Hno. unfold Server.line_edit, Fs.bind.
  rewrite (require_file_found _ _ _ Hc).
  assert (Hneq : forall a, In a [ "replace"; "delete"; "insert_after"; "insert_before" ] ->
                           String.eqb action a = false).
  { intros a Ha. apply String.eqb_neq. intros ->. exact (Hno Ha). }
  rewrite !Hneq by (simpl; auto). reflexivity.
Qed.

Lemma line_edit_unknown_action_witness :
  let s : gmap string string := <["a.txt" := "one"]> ∅ in
  s !! "a.txt" = Some "one"
  /\ ~ In "append" [ "replace"; "delete"; "insert_after"; "insert_before" ]
  /\ Server.line_edit Spec.idle_tools "a.txt" (Some 1%Z) None "append" (Some "x") s
     = (Fs.Throw (Fs.Error ("Unknown action: " +:+ "append")), s).
Proof.
  intros s.
  assert (Hno : ~ In "append" [ "replace"; "delete"; "insert_after"; "insert_before" ]).
  { simpl. intros [H|[H|[H|[H|[]]]]]; discriminate. }
  split; [reflexivity|]. split; [exact Hno|].
  apply (line_edit_unknown_action Spec.idle_tools "a.txt" "one" "append" (Some 1%Z) None
           (Some "x") s); [reflexivity | exact Hno].
Defined.

(** ** More on restore_backup *)

(** What a [restore_backup] that finds its backup does, when the shell is
    not needed or gets a path it passes on unchanged. *)
Lemma restore_backup_found (T : Tools) (file backup : string) (keepBackup : bool)
  (s : gmap string string) :
  s !! (file +:+ ".bak") = Some backup ->
  (keepBackup = false -> Spec.safe_path file = true) ->
  exists text,
    Server.restore_backup T file keepBackup s
    = (Fs.Ret text,
       let snapshot := match s !! file with
                       | Some current => <[file +:+ ".before-restore" := current]> s
                       | None => s
                       end in
       let restored := <[file := backup]> snapshot in
       if keepBackup then restored else delete (file +:+ ".bak") restored)
    /\ Spec.mentions text ("Safety backup created: " +:+ file +:+ ".before-restore").
Proof.
  intros Hb Hsafe.
  unfold Server.restore_backup, Fs.bind, Fs.test_fs, Fs.readFile, Fs.writeFile, Fs.ret.
  rewrite (existsSync_Some _ _ _ Hb). cbn [negb]. rewrite Hb.
  assert (Hs : keepBackup = false -> Spec.safe_path (file +:+ ".bak") = true).
  { intros Hk. specialize (Hsafe Hk). unfold Spec.safe_path, Spec.no_quote in *.
    apply andb_prop in Hsafe as [Ho Hq].
    rewrite includes_app. apply negb_true_iff in Hq. rewrite Hq.
    destruct file; [discriminate|]. simpl in *. now rewrite Ho. }
  destruct (s !! file) as [current|] eqn:Hc.
  - rewrite (existsSync_Some _ _ _ Hc), Hc.
    destruct keepBackup; cbn [negb].
    + eexists. split; [reflexivity | do 5 apply mentions_append_l; apply mentions_self].
    + unfold Cmd.execAsync. rewrite (sh_rm T _ _ (Hs eq_refl)).
      eexists. split; [reflexivity | do 5 apply mentions_append_l; apply mentions_self].
  - rewrite (existsSync_None _ _ Hc).
    destruct keepBackup; cbn [negb].
    + eexists. split; [reflexivity | do 5 apply mentions_append_l; apply mentions_self].
    + unfold Cmd.execAsync. rewrite (sh_rm T _ _ (Hs eq_refl)).
      eexists. split; [reflexivity | do 5 apply mentions_append_l; apply mentions_self].
Qed.



(** With [keepBackup = false] the backup is consumed: the restore succeeds,
    [file.bak] is gone, and a second restore fails with the no-backup
    error and changes nothing. *)
Theorem restore_backup_consumes_backup (T : Tools) (file backup : string)
  (again : bool) (s : gmap string string) :
  s !! (file +:+ ".bak") = Some backup ->
  Spec.safe_path file = true ->
  exists text s' msg,
    Server.restore_backup T file false s = (Fs.Ret text, s')
    /\ s' !! file = Some backup
    /\ s' !! (file +:+ ".bak") = None
    /\ Server.restore_backup T file again s' = (Fs.Throw (Fs.Error msg), s')
    /\ Spec.no_backup_error msg.
Proof.
  intros Hb Hsafe.
  destruct (restore_backup_found T file backup false s Hb (fun _ => Hsafe))
    as (text & Heq & _).
  cbv zeta in Heq.
  set (s' := delete (file +:+ ".bak") _) in Heq.
  assert (N3 : file +:+ ".bak" <> file).
  { intros E. symmetry in E. revert E. apply suffix_neq. discriminate. }
  assert (Hgone : s' !! (file +:+ ".bak") = None) by apply lookup_delete_eq.
  exists text, s'. eexists. split; [exact Heq|].
  split; [unfold s'; rewrite lookup_delete_ne by congruence; apply lookup_insert_eq|].
  split; [exact Hgone|].
  split; [apply restore_backup_missing, Hgone|].
  destruct (Server.alternatives file s') as [|a l].
  - exists (" for " +:+ file). left. reflexivity.
  - exists (", but found: " +:+ JS.join ", " (a :: l)). right. reflexivity.
Qed.

Lemma restore_backup_consumes_backup_witness :
  let s : gmap string string := <["notes.txt.bak" := "old"]> (<["notes.txt" := "new"]> ∅) in
  s !! ("notes.txt" +:+ ".bak") = Some "old"
  /\ Spec.safe_path "notes.txt" = true
  /\ exists text s' msg,
      Server.restore_backup Spec.idle_tools "notes.txt" false s = (Fs.Ret text, s')
      /\ s' !! "notes.txt" = Some "old"
      /\ s' !! ("notes.txt" +:+ ".bak") = None
      /\ Server.restore_backup Spec.idle_tools "notes.txt" true s' = (Fs.Throw (Fs.Error msg), s')
      /\ Spec.no_backup_error msg.
Proof.
  intros s. split; [reflexivity|]. split; [reflexivity|].
  apply (restore_backup_consumes_backup Spec.idle_tools "notes.txt" "old" true s);
    reflexivity.
Defined.

(** Restoring twice with the backup kept: the second restore overwrites the
    safety copy of the first, so what the file held before the first
    restore is then in no file of the three. *)
Theorem restore_backup_twice_overwrites_snapshot (T : Tools) (file backup current : string)
  (s : gmap string string) :
  s !! (file +:+ ".bak") = Some backup ->
  s !! file = Some current ->
  exists text1 s1 text2 s2,
    Server.restore_backup T file true s = (Fs.Ret text1, s1)
    /\ s1 !! (file +:+ ".before-restore") = Some current
    /\ Server.restore_backup T file true s1 = (Fs.Ret text2, s2)
    /\ s2 !! file = Some backup
    /\ s2 !! (file +:+ ".bak") = Some backup
    /\ s2 !! (file +:+ ".before-restore") = Some backup.
Proof.
  intros Hb Hc.
  assert (N1 : file <> file +:+ ".before-restore") by (apply suffix_neq; discriminate).
  assert (N2 : file +:+ ".bak" <> file +:+ ".before-restore")
    by (apply suffixes_neq; discriminate).
  assert (N3 : file +:+ ".bak" <> file).
  { intros E. symmetry in E. revert E. apply suffix_neq. discriminate. }
  destruct (restore_backup_found T file backup true s Hb) as (text1 & Heq1 & _);
    [discriminate|].
  rewrite Hc in Heq1. cbv zeta in Heq1.
  set (s1 := <[file := backup]> _) in Heq1.
  assert (Hb1 : s1 !! (file +:+ ".bak") = Some backup)
    by (unfold s1; rewrite !lookup_insert_ne by congruence; exact Hb).
  assert (Hc1 : s1 !! file = Some backup) by apply lookup_insert_eq.
  destruct (restore_backup_found T file backup true s1 Hb1) as (text2 & Heq2 & _);
    [discriminate|].
  rewrite Hc1 in Heq2. cbv zeta in Heq2.
  exists text1, s1, text2. eexists. split; [exact Heq1|].
  split; [unfold s1; rewrite lookup_insert_ne by congruence; apply lookup_insert_eq|].
  split; [exact Heq2|].
  split; [apply lookup_insert_eq|].
  split; [rewrite !lookup_insert_ne by congruence; exact Hb1|].
  rewrite lookup_insert_ne by congruence. apply lookup_insert_eq.
Qed.

Lemma restore_backup_twice_overwrites_snapshot_witness :
  let s : gmap string string := <["notes.txt.bak" := "old"]> (<["notes.txt" := "new"]> ∅) in
  s !! ("notes.txt" +:+ ".bak") = Some "old"
  /\ s !! "notes.txt" = Some "new"
  /\ exists text1 s1 text2 s2,
      Server.restore_backup Spec.idle_tools "notes.txt" true s = (Fs.Ret text1, s1)
      /\ s1 !! ("notes.txt" +:+ ".before-restore") = Some "new"
      /\ Server.restore_backup Spec.idle_tools "notes.txt" true s1 = (Fs.Ret text2, s2)
      /\ s2 !! "notes.txt" = Some "old"
      /\ s2 !! ("notes.txt" +:+ ".bak") = Some "old"
      /\ s2 !! ("notes.txt" +:+ ".before-restore") = Some "old".
Proof.
  intros s. split; [reflexivity|]. split; [reflexivity|].
  apply (restore_backup_twice_overwrites_snapshot Spec.idle_tools "notes.txt" "old" "new" s);
    reflexivity.
Defined.

(** ** list_backups: the name of the original *)

Lemma suffix_has_no_dot (x : string) :
  existsb (String.eqb x) [ "bak"; "backup"; "orig"; "~" ] = true ->
  JS.includes "." x = false.
Proof.
  simpl. rewrite !orb_true_iff.
  intros [H|[H|[H|[H|H]]]]; try discriminate; apply String.eqb_eq in H; subst x; reflexivity.
Qed.

(** The original that [list_backups] shows for a backup with one of the
    suffixes [.bak], [.backup], [.orig], [.~] is the name without the
    suffix: for the [file.bak] that the editing tools write and
    [restore_backup] reads, the file itself. *)
Theorem originalFile_strips_suffix (file suffix : string) :
  In suffix [ "bak"; "backup"; "orig"; "~" ] ->
  Server.originalFile (file +:+ "." +:+ suffix) = file.
Proof.
  intros Hin. induction file as [|c file IH].
  - simpl in Hin. destruct Hin as [<-|[<-|[<-|[<-|[]]]]]; reflexivity.
  - change (String c file +:+ "." +:+ suffix) with (String c (file +:+ "." +:+ suffix)).
    cbn [Server.originalFile].
    destruct (existsb (String.eqb (file +:+ "." +:+ suffix)) [ "bak"; "backup"; "orig"; "~" ])
      eqn:Hex.
    + apply suffix_has_no_dot in Hex. rewrite includes_app in Hex.
      apply orb_false_iff in Hex as [_ Hex]. discriminate.
    + rewrite andb_false_r. now rewrite IH.
Qed.

Lemma originalFile_strips_suffix_witness :
  In "bak" [ "bak"; "backup"; "orig"; "~" ]
  /\ Server.originalFile ("src/app.config.js" +:+ "." +:+ "bak") = "src/app.config.js".
Proof.
  split; [left; reflexivity|].
  apply (originalFile_strips_suffix "src/app.config.js" "bak"). left. reflexivity.
Defined.

Lemma tilde_suffix (x : string) :
  existsb (String.eqb (x +:+ "~")) [ "bak"; "backup"; "orig"; "~" ] = true -> x = "".
Proof.
  simpl. rewrite !orb_true_iff.
  intros [H|[H|[H|[H|H]]]]; try discriminate; apply String.eqb_eq in H.
  - destruct x as [|? [|? [|? [|? ?]]]]; discriminate.
  - destruct x as [|? [|? [|? [|? [|? [|? [|? ?]]]]]]]; discriminate.
  - destruct x as [|? [|? [|? [|? [|? ?]]]]]; discriminate.
  - destruct x as [|? [|? ?]]; [reflexivity | discriminate | discriminate].
Qed.

(** A backup named [file~], one of the alternatives that [restore_backup]
    looks for, is shown by [list_backups] with its own name as the
    original: the tilde is only removed after a dot. *)
Theorem originalFile_keeps_tilde (file : string) :
  Spec.ends_with_dot file = false ->
  Server.originalFile (file +:+ "~") = file +:+ "~".
Proof.
  induction file as [|c file IH]; intros Hdot; [reflexivity|].
  change (String c file +:+ "~") with (String c (file +:+ "~")).
  cbn [Server.originalFile].
  destruct (existsb (String.eqb (file +:+ "~")) [ "bak"; "backup"; "orig"; "~" ]) eqn:Hex.
  - apply tilde_suffix in Hex. subst file. simpl in Hdot. rewrite Hdot. reflexivity.
  - rewrite andb_false_r. f_equal. apply IH.
    destruct file; [reflexivity | exact Hdot].
Qed.

Lemma originalFile_keeps_tilde_witness :
  Spec.ends_with_dot "notes.txt" = false
  /\ Server.originalFile ("notes.txt" +:+ "~") = "notes.txt" +:+ "~".
Proof.
  split; [reflexivity | apply (originalFile_keeps_tilde "notes.txt"); reflexivity].
Defined.

(** ** Searching: what is found *)

(** A test that fails leaves the regular expression at the start. *)
Lemma test_false_resets (E : RegExpEngine) (regex : regexp E) (line : string) (i j : nat) :
  RegExp_test E regex line i = (false, j) -> j = 0%nat.
Proof.
  unfold RegExp_test. destruct (String.length line <? i)%nat; [congruence|].
  destruct (RegExp_search E regex line i); congruence.
Qed.

(** Lines that do not match are passed over, and the search of the next
    line starts at its first character. *)
Lemma search_each_skip (E : RegExpEngine) (heading : nat -> nat -> string)
  (regex : regexp E) (fileLines : list string) (context : Z) (pre rest : list string) :
  Forall (Spec.no_match E regex) pre ->
  forall index matchCount,
    Server.search_each E heading regex fileLines context (pre ++ rest) index 0 matchCount
    = Server.search_each E heading regex fileLines context rest (index + length pre) 0
        matchCount.
Proof.
  induction 1 as [|line pre Hline _ IH]; intros index matchCount.
  - simpl. now rewrite Nat.add_0_r.
  - cbn [app Server.search_each length].
    unfold Spec.no_match, RegExp_matches in Hline.
    destruct (RegExp_test E regex line 0) as [hit j] eqn:Ht. simpl in Hline. subst hit.
    apply test_false_resets in Ht. subst j.
    rewrite IH. f_equal. lia.
Qed.

(** Either no line matches, or there is a first line that does. *)
Lemma first_match (E : RegExpEngine) (regex : regexp E) (lines : list string) :
  Forall (Spec.no_match E regex) lines
  \/ exists pre line post,
       lines = pre ++ line :: post
       /\ Forall (Spec.no_match E regex) pre
       /\ RegExp_matches E regex line = true.
Proof.
  induction lines as [|l ls IH]; [left; constructor|].
  destruct (RegExp_matches E regex l) eqn:Hl.
  - right. exists [], l, ls. repeat split; [constructor | exact Hl].
  - destruct IH as [Hall|(pre & line & post & -> & Hpre & Hline)].
    + left. constructor; assumption.
    + right. exists (l :: pre), line, post. repeat split; [|exact Hline].
      constructor; assumption.
Qed.

(** The count of matches only grows. *)
Lemma search_each_count (E : RegExpEngine) (heading : nat -> nat -> string)
  (regex : regexp E) (fileLines : list string) (context : Z) (rest : list string) :
  forall index lastIndex matchCount,
    (matchCount
     <= snd (Server.search_each E heading regex fileLines context rest index lastIndex
               matchCount))%nat.
Proof.
  induction rest as [|l rest IH]; intros index lastIndex matchCount;
    cbn [Server.search_each]; [simpl; lia|].
  destruct (RegExp_test E regex l lastIndex) as [hit j]. destruct hit.
  - specialize (IH (S index) j (S matchCount)).
    destruct (Server.search_each E heading regex fileLines context rest (S index) j
                (S matchCount)) as [r m].
    simpl in *. lia.
  - apply IH.
Qed.

(** The search from a first matching line on: its block comes first. *)
Lemma search_each_first (E : RegExpEngine) (heading : nat -> nat -> string)
  (regex : regexp E) (fileLines : list string) (context : Z) (lines pre post : list string)
  (line : string) :
  lines = pre ++ line :: post ->
  Forall (Spec.no_match E regex) pre ->
  RegExp_matches E regex line = true ->
  exists results n,
    Server.search_each E heading regex fileLines context lines 0 0 0
    = (heading 1%nat (length pre) :: results, S n).
Proof.
  intros -> Hpre Hline. rewrite (search_each_skip E heading regex fileLines context _ _ Hpre).
  cbn [Server.search_each]. unfold RegExp_matches in Hline.
  destruct (RegExp_test E regex line 0) as [hit j]. simpl in Hline. subst hit.
  pose proof (search_each_count E heading regex fileLines context post
                (S (0 + length pre)) j 1) as Hn.
  destruct (Server.search_each E heading regex fileLines context post _ j 1)
    as [results n].
  unfold Server.match_block. cbn [app Nat.add]. simpl in Hn.
  destruct n as [|m]; [lia|].
  eexists _, m. reflexivity.
Qed.

(** [search_in_file] answers that nothing was found exactly when no line
    of the file matches the pattern. *)
Theorem search_in_file_nothing_found (E : RegExpEngine) (file pattern content : string)
  (context : Z) (caseInsensitive : bool) (regex : regexp E) (s : gmap string string) :
  s !! file = Some content ->
  RegExp_new E pattern (if caseInsensitive then "gi" else "g") = Some regex ->
  exists text,
    Server.search_in_file E file pattern context caseInsensitive s = (Fs.Ret text, s)
    /\ (text = "No matches found for " +:+ JS.DQ +:+ pattern +:+ JS.DQ +:+ " in " +:+ file
        <-> Forall (Spec.no_match E regex) (JS.split JS.nl content)).
Proof.
  intros Hf Hre.
  unfold Server.search_in_file, Fs.bind, Fs.readFile.
  rewrite (require_file_found _ _ _ Hf), Hf, Hre.
  set (heading := fun matchCount index : nat => _).
  set (fileLines := JS.split JS.nl content).
  destruct (first_match E regex fileLines)
    as [Hall|(pre & line & post & Hlines & Hpre & Hline)].
  - pose proof (search_each_skip E heading regex fileLines context fileLines [] Hall 0 0) as Hs.
    rewrite app_nil_r in Hs. rewrite Hs. cbn [Server.search_each].
    eexists. split; [reflexivity|]. split; [intros _; exact Hall | reflexivity].
  - destruct (search_each_first E heading regex fileLines context fileLines pre post line
                Hlines Hpre Hline) as (results & n & Heq).
    rewrite Heq.
    eexists. split; [reflexivity|]. split.
    + intros H. discriminate H.
    + intros Hall. exfalso. rewrite Hlines in Hall.
      apply Forall_app in Hall as [_ Hall]. inversion Hall as [|? ? Hno _]; subst.
      unfold Spec.no_match in Hno. congruence.
Qed.

Lemma search_in_file_nothing_found_witness :
  let content := "alpha" +:+ JS.NL +:+ "beta" in
  let s : gmap string string := <["a.txt" := content]> ∅ in
  s !! "a.txt" = Some content
  /\ RegExp_new PlainRegExp.engine "gamma" "g" = Some ("gamma", false)
  /\ exists text,
      Server.search_in_file PlainRegExp.engine "a.txt" "gamma" 2 false s = (Fs.Ret text, s)
      /\ (text = "No matches found for " +:+ JS.DQ +:+ "gamma" +:+ JS.DQ +:+ " in " +:+ "a.txt"
          <-> Forall (Spec.no_match PlainRegExp.engine ("gamma", false))
                (JS.split JS.nl content)).
Proof.
  intros content s. split; [reflexivity|]. split; [reflexivity|].
  apply (search_in_file_nothing_found PlainRegExp.engine "a.txt" "gamma" content 2 false
           ("gamma", false) s); reflexivity.
Defined.

(** The first line of the file that matches the pattern is always
    reported, as match 1 under its line number, and the count given is
    not zero. *)
Theorem search_in_file_reports_first_match (E : RegExpEngine)
  (file pattern content line : string) (pre post : list string)
  (context : Z) (caseInsensitive : bool) (regex : regexp E) (s : gmap string string) :
  s !! file = Some content ->
  RegExp_new E pattern (if caseInsensitive then "gi" else "g") = Some regex ->
  JS.split JS.nl content = pre ++ line :: post ->
  Forall (Spec.no_match E regex) pre ->
  RegExp_matches E regex line = true ->
  exists n rest,
    Server.search_in_file E file pattern context caseInsensitive s
    = (Fs.Ret ("Found " +:+ JS.Z_toString (Z.of_nat (S n)) +:+ " matches for " +:+ JS.DQ
               +:+ pattern +:+ JS.DQ +:+ " in " +:+ file +:+ ":" +:+ JS.NL
               +:+ Spec.match_heading 1 (length pre) +:+ rest), s).
Proof.
  intros Hf Hre Hlines Hpre Hline.
  unfold Server.search_in_file, Fs.bind, Fs.readFile.
  rewrite (require_file_found _ _ _ Hf), Hf, Hre.
  change (fun matchCount index : nat =>
            JS.NL +:+ "--- Match " +:+ JS.Z_toString (Z.of_nat matchCount) +:+ " at line "
            +:+ JS.Z_toString (Z.of_nat index + 1) +:+ " ---") with Spec.match_heading.
  destruct (search_each_first E Spec.match_heading regex (JS.split JS.nl content) context
              (JS.split JS.nl content) pre post line Hlines Hpre Hline)
    as (results & n & Heq).
  rewrite Heq.
  exists n. unfold JS.join.
  destruct results as [|r results].
  - exists "". cbn [String.concat]. now rewrite append_nil_r.
  - exists (JS.NL +:+ String.concat JS.NL (r :: results)). reflexivity.
Qed.

Lemma search_in_file_reports_first_match_witness :
  let content := "alpha" +:+ JS.NL +:+ "beta" +:+ JS.NL +:+ "gamma beta" in
  let s : gmap string string := <["a.txt" := content]> ∅ in
  s !! "a.txt" = Some content
  /\ RegExp_new PlainRegExp.engine "beta" "g" = Some ("beta", false)
  /\ JS.split JS.nl content = [ "alpha" ] ++ "beta" :: [ "gamma beta" ]
  /\ Forall (Spec.no_match PlainRegExp.engine ("beta", false)) [ "alpha" ]
  /\ RegExp_matches PlainRegExp.engine ("beta", false) "beta" = true
  /\ exists n rest,
      Server.search_in_file PlainRegExp.engine "a.txt" "beta" 1 false s
      = (Fs.Ret ("Found " +:+ JS.Z_toString (Z.of_nat (S n)) +:+ " matches for " +:+ JS.DQ
                 +:+ "beta" +:+ JS.DQ +:+ " in " +:+ "a.txt" +:+ ":" +:+ JS.NL
                 +:+ Spec.match_heading 1 (length [ "alpha" ]) +:+ rest), s).
Proof.
  intros content s.
  assert (Hpre : Forall (Spec.no_match PlainRegExp.engine ("beta", false)) [ "alpha" ])
    by (constructor; [reflexivity | constructor]).
  split; [reflexivity|]. split; [reflexivity|]. split; [reflexivity|].
  split; [exact Hpre|]. split; [reflexivity|].
  apply (search_in_file_reports_first_match PlainRegExp.engine "a.txt" "beta" content "beta"
           [ "alpha" ] [ "gamma beta" ] 1 false ("beta", false) s);
    [reflexivity | reflexivity | reflexivity | exact Hpre | reflexivity].
Defined.

(** ** Editing, then restoring *)

(** The paths a restore works with are three different files. *)
Lemma backup_paths_differ (file : string) :
  file <> file +:+ ".before-restore"
  /\ file +:+ ".bak" <> file +:+ ".before-restore"
  /\ file +:+ ".bak" <> file.
Proof.
  split; [apply suffix_neq; discriminate|].
  split; [apply suffixes_neq; discriminate|].
  intros E. symmetry in E. revert E. apply suffix_neq. discriminate.
Qed.

(** [quick_replace] and then [restore_backup], on a file that holds
    well-formed UTF-8, for a plain text to find and a text to put without
    newline, both well-formed UTF-8 (as the texts of a request are): the
    restore gives the file the text it had before the edit, and the
    edited text is what the safety copy [file.before-restore] then holds.
    (A file with bytes that are no UTF-8 is not covered: [restore_backup]
    reads and writes text.) *)
Theorem quick_replace_then_restore (T : Tools) (file find replace content : string)
  (all keepBackup : bool) (s : gmap string string) :
  Spec.safe_path file = true ->
  s !! file = Some content ->
  Spec.utf8 content = true /\ Spec.utf8 find = true /\ Spec.utf8 replace = true ->
  find <> "" ->
  Spec.all_chars Spec.literal_for_sed find = true ->
  JS.includes JS.nl replace = false ->
  let edited := Sed.write_lines (map (Spec.replace_in_line find replace all)
                                     (Sed.read_lines content)) in
  exists text1 s1 text2 s2,
    Server.quick_replace T file find replace all s = (Fs.Ret text1, s1)
    /\ s1 !! file = Some edited
    /\ s1 !! (file +:+ ".bak") = Some content
    /\ Server.restore_backup T file keepBackup s1 = (Fs.Ret text2, s2)
    /\ s2 !! file = Some content
    /\ s2 !! (file +:+ ".before-restore") = Some edited.
Proof.
  intros Hsafe Hc _ Hne Hfind Hrep edited.
  destruct (backup_paths_differ file) as (N1 & N2 & N3).
  pose proof (quick_replace_plain_text T file find replace content all s Hsafe Hc Hne Hfind Hrep)
    as Hq. fold edited in Hq.
  set (s1 := <[file := edited]> (<[file +:+ ".bak" := content]> s)) in Hq.
  assert (H1 : s1 !! file = Some edited) by apply lookup_insert_eq.
  assert (H2 : s1 !! (file +:+ ".bak") = Some content).
  { unfold s1. rewrite lookup_insert_ne by congruence. apply lookup_insert_eq. }
  destruct (restore_backup_found T file content keepBackup s1 H2 (fun _ => Hsafe))
    as (text2 & Hr & _).
  rewrite H1 in Hr. cbv zeta in Hr.
  do 4 eexists. split; [exact Hq|]. split; [exact H1|]. split; [exact H2|].
  split; [exact Hr|].
  destruct keepBackup.
  - split; [apply lookup_insert_eq|].
    rewrite lookup_insert_ne by congruence. apply lookup_insert_eq.
  - rewrite !lookup_delete_ne by congruence.
    split; [apply lookup_insert_eq|].
    rewrite lookup_insert_ne by congruence. apply lookup_insert_eq.
Qed.

Lemma quick_replace_then_restore_witness :
  let content := "it's a.b" +:+ JS.NL +:+ "a.b and axb" +:+ JS.NL in
  let s : gmap string string := <["notes.txt" := content]> ∅ in
  let edited := Sed.write_lines (map (Spec.replace_in_line "a.b" "x&y" true)
                                     (Sed.read_lines content)) in
  Spec.safe_path "notes.txt" = true
  /\ s !! "notes.txt" = Some content
  /\ (Spec.utf8 content = true /\ Spec.utf8 "a.b" = true /\ Spec.utf8 "x&y" = true)
  /\ "a.b" <> ""
  /\ Spec.all_chars Spec.literal_for_sed "a.b" = true
  /\ JS.includes JS.nl "x&y" = false
  /\ exists text1 s1 text2 s2,
      Server.quick_replace Spec.idle_tools "notes.txt" "a.b" "x&y" true s = (Fs.Ret text1, s1)
      /\ s1 !! "notes.txt" = Some edited
      /\ s1 !! ("notes.txt" +:+ ".bak") = Some content
      /\ Server.restore_backup Spec.idle_tools "notes.txt" false s1 = (Fs.Ret text2, s2)
      /\ s2 !! "notes.txt" = Some content
      /\ s2 !! ("notes.txt" +:+ ".before-restore") = Some edited.
Proof.
  intros content s edited.
  assert (Hutf : Spec.utf8 content = true /\ Spec.utf8 "a.b" = true /\ Spec.utf8 "x&y" = true)
    by (repeat split; reflexivity).
  split; [reflexivity|]. split; [reflexivity|]. split; [exact Hutf|]. split; [discriminate|].
  split; [reflexivity|]. split; [reflexivity|].
  apply (quick_replace_then_restore Spec.idle_tools "notes.txt" "a.b" "x&y" content true false s);
    [reflexivity | reflexivity | exact Hutf | discriminate | reflexivity | reflexivity].
Defined.

(** The backup is no history: a second [quick_replace] overwrites
    [file.bak] with the text the first one wrote, and the content from
    before the first edit is then in neither file. *)
Theorem quick_replace_twice_overwrites_backup (T : Tools)
  (file find1 replace1 find2 replace2 content : string) (all1 all2 : bool)
  (s : gmap string string) :
  Spec.safe_path file = true ->
  s !! file = Some content ->
  find1 <> "" /\ Spec.all_chars Spec.literal_for_sed find1 = true
  /\ JS.includes JS.nl replace1 = false ->
  find2 <> "" /\ Spec.all_chars Spec.literal_for_sed find2 = true
  /\ JS.includes JS.nl replace2 = false ->
  let first := Sed.write_lines (map (Spec.replace_in_line find1 replace1 all1)
                                    (Sed.read_lines content)) in
  let second := Sed.write_lines (map (Spec.replace_in_line find2 replace2 all2)
                                     (Sed.read_lines first)) in
  exists text1 s1 text2 s2,
    Server.quick_replace T file find1 replace1 all1 s = (Fs.Ret text1, s1)
    /\ Server.quick_replace T file find2 replace2 all2 s1 = (Fs.Ret text2, s2)
    /\ s2 !! file = Some second
    /\ s2 !! (file +:+ ".bak") = Some first.
Proof.
  intros Hsafe Hc (Hne1 & Hfind1 & Hrep1) (Hne2 & Hfind2 & Hrep2) first second.
  destruct (backup_paths_differ file) as (N1 & N2 & N3).
  pose proof (quick_replace_plain_text T file find1 replace1 content all1 s Hsafe Hc
                Hne1 Hfind1 Hrep1) as Hq1. fold first in Hq1.
  set (s1 := <[file := first]> (<[file +:+ ".bak" := content]> s)) in Hq1.
  assert (H1 : s1 !! file = Some first) by apply lookup_insert_eq.
  pose proof (quick_replace_plain_text T file find2 replace2 first all2 s1 Hsafe H1
                Hne2 Hfind2 Hrep2) as Hq2. fold second in Hq2.
  do 4 eexists. split; [exact Hq1|]. split; [exact Hq2|].
  split; [apply lookup_insert_eq|].
  rewrite lookup_insert_ne by congruence. apply lookup_insert_eq.
Qed.

Lemma quick_replace_twice_overwrites_backup_witness :
  let content := "one two" +:+ JS.NL in
  let s : gmap string string := <["notes.txt" := content]> ∅ in
  let first := Sed.write_lines (map (Spec.replace_in_line "one" "1" true)
                                    (Sed.read_lines content)) in
  let second := Sed.write_lines (map (Spec.replace_in_line "two" "2" true)
                                     (Sed.read_lines first)) in
  Spec.safe_path "notes.txt" = true
  /\ s !! "notes.txt" = Some content
  /\ ("one" <> "" /\ Spec.all_chars Spec.literal_for_sed "one" = true
      /\ JS.includes JS.nl "1" = false)
  /\ ("two" <> "" /\ Spec.all_chars Spec.literal_for_sed "two" = true
      /\ JS.includes JS.nl "2" = false)
  /\ exists text1 s1 text2 s2,
      Server.quick_replace Spec.idle_tools "notes.txt" "one" "1" true s = (Fs.Ret text1, s1)
      /\ Server.quick_replace Spec.idle_tools "notes.txt" "two" "2" true s1 = (Fs.Ret text2, s2)
      /\ s2 !! "notes.txt" = Some second
      /\ s2 !! ("notes.txt" +:+ ".bak") = Some first.
Proof.
  intros content s first second.
  assert (H1 : "one" <> "" /\ Spec.all_chars Spec.literal_for_sed "one" = true
               /\ JS.includes JS.nl "1" = false)
    by (split; [discriminate | split; reflexivity]).
  assert (H2 : "two" <> "" /\ Spec.all_chars Spec.literal_for_sed "two" = true
               /\ JS.includes JS.nl "2" = false)
    by (split; [discriminate | split; reflexivity]).
  split; [reflexivity|]. split; [reflexivity|]. split; [exact H1|]. split; [exact H2|].
  apply (quick_replace_twice_overwrites_backup Spec.idle_tools "notes.txt" "one" "1" "two" "2"
           content true true s); [reflexivity | reflexivity | exact H1 | exact H2].
Defined.

(** ** Editing in place with perl *)

(** The command line of [sed_edit] and [perl_edit], as the shell reads
    it. *)
Lemma parse_perl_in_place (backup slurp : bool) (script file : string) :
  Spec.no_quote script = true -> Spec.no_quote file = true ->
  Sh.parse ("perl -i" +:+ (if backup then ".bak" else "") +:+ " "
            +:+ (if slurp then "-0777 " else "") +:+ "-pe '" +:+ script
            +:+ "' '" +:+ file +:+ "'")
  = Sh.Parsed
      [ [ (true, [ {| Sh.argv := "perl" :: (if backup then "-i.bak" else "-i")
                                 :: (if slurp then [ "-0777" ] else [])
                                 ++ [ "-pe"; script; file ];
                      Sh.redirect := None |} ]) ] ].
Proof.
  intros Hs Hf. unfold Sh.parse.
  destruct backup, slurp;
    cbn; rewrite (lex_plain script _ _ Hs); cbn; rewrite (lex_plain file _ _ Hf); cbn;
    reflexivity.
Qed.

(** It reaches perl with exactly the script and the file. *)
Lemma sh_perl (T : Tools) (backup slurp : bool) (script file : string)
  (s : gmap string string) :
  Spec.no_quote script = true -> Spec.no_quote file = true ->
  Cmd.sh T ("perl -i" +:+ (if backup then ".bak" else "") +:+ " "
            +:+ (if slurp then "-0777 " else "") +:+ "-pe '" +:+ script
            +:+ "' '" +:+ file +:+ "'") s
  = Cmd.perl T (if backup then "-i.bak" else "-i") slurp script file s.
Proof.
  intros Hs Hf. unfold Cmd.sh. rewrite (parse_perl_in_place backup slurp _ _ Hs Hf).
  cbn [Cmd.run_list Cmd.run_andor Cmd.run_pipeline Cmd.start Cmd.after Cmd.status
       Cmd.files Cmd.out Cmd.err Bool.eqb Nat.eqb].
  unfold Cmd.run_simple. cbn [Sh.redirect Sh.argv].
  assert (Hrun : Cmd.run_argv T ("perl" :: (if backup then "-i.bak" else "-i")
                                 :: (if slurp then [ "-0777" ] else [])
                                 ++ [ "-pe"; script; file ]) "" s
                 = Cmd.perl T (if backup then "-i.bak" else "-i") slurp script file s)
    by (destruct slurp; reflexivity).
  rewrite Hrun.
  destruct (Cmd.perl T _ slurp script file s) as [[]|]; reflexivity.
Qed.

(** What perl does in place to a file that is there. *)
Lemma perl_in_place (T : Tools) (backup slurp : bool) (script file content : string)
  (s : gmap string string) :
  Cmd.operand file = true ->
  s !! file = Some content ->
  Cmd.perl T (if backup then "-i.bak" else "-i") slurp script file s
  = Some {| Cmd.status := exit_code (fst (perl_pe T script slurp content));
            Cmd.out := printed (fst (perl_pe T script slurp content));
            Cmd.err := warned (fst (perl_pe T script slurp content));
            Cmd.files := Spec.rewritten file content backup
                           (snd (perl_pe T script slurp content)) s |}.
Proof.
  intros Hf Hc. unfold Cmd.perl, Spec.rewritten.
  destruct backup.
  - change (Cmd.in_place "-i.bak") with (Some ".bak"). rewrite Hf, Hc.
    destruct (perl_pe T script slurp content) as [r [text|]]; reflexivity.
  - change (Cmd.in_place "-i") with (Some ""). rewrite Hf, Hc.
    destruct (perl_pe T script slurp content) as [r [text|]]; reflexivity.
Qed.

(** [sed_edit] without preview hands its pattern to perl, for a pattern
    and a path that the shell passes on unchanged and an output of perl
    that [exec] can buffer. When perl rewrites the file, the file gets
    what perl makes of its content and [file.bak] gets the content if a
    backup is asked for. The answer is
    the success text only when perl ends with status 0 and has written
    nothing to its standard error. When perl ends with status 0 and has
    written there, a warning for one, the call fails with [Sed error],
    though the file is edited by then. When perl ends with another
    status, the call fails with that status. *)
Theorem sed_edit_edits_in_place (T : Tools) (file pattern content : string)
  (backup : bool) (s : gmap string string) (r : ran) (edit : option string) :
  Spec.safe_path file = true ->
  Spec.no_quote pattern = true ->
  s !! file = Some content ->
  perl_pe T pattern false content = (r, edit) ->
  Spec.buffered r = true ->
  let s' := Spec.rewritten file content backup edit s in
  (exit_code r = 0%nat -> warned r = "" ->
   Server.sed_edit T file pattern backup false s
   = (Fs.Ret ("Successfully edited " +:+ file
              +:+ (if backup then " (backup created as .bak)" else "")), s'))
  /\ (exit_code r = 0%nat -> warned r <> "" ->
      Server.sed_edit T file pattern backup false s
      = (Fs.Throw (Fs.Error ("Sed error: " +:+ warned r)), s'))
  /\ (exit_code r <> 0%nat ->
      exists cmd,
        Server.sed_edit T file pattern backup false s
        = (Fs.Throw (Fs.ExecException cmd (exit_code r)), s')).
Proof.
  intros Hsafe Hq Hc Hperl _ s'.
  pose proof (sh_perl T backup false pattern file s Hq (safe_path_no_quote _ Hsafe)) as Hsh.
  rewrite (perl_in_place T backup false pattern file content s
             (safe_path_operand _ Hsafe) Hc), Hperl in Hsh.
  cbn [fst snd] in Hsh. fold s' in Hsh.
  assert (Hcmd : "perl -i" +:+ (if backup then ".bak" else "") +:+ " -pe '" +:+ pattern
                 +:+ "' '" +:+ file +:+ "'"
                 = "perl -i" +:+ (if backup then ".bak" else "") +:+ " " +:+ "" +:+ "-pe '"
                   +:+ pattern +:+ "' '" +:+ file +:+ "'")
    by (destruct backup; reflexivity).
  assert (Hrun : Server.sed_edit T file pattern backup false s
                 = if (exit_code r =? 0)%nat then
                     if negb (String.eqb (warned r) "")
                     then (Fs.Throw (Fs.Error ("Sed error: " +:+ warned r)), s')
                     else (Fs.Ret ("Successfully edited " +:+ file
                                   +:+ (if backup then " (backup created as .bak)" else "")),
                           s')
                   else (Fs.Throw (Fs.ExecException
                                     ("perl -i" +:+ (if backup then ".bak" else "") +:+ " "
                                      +:+ "" +:+ "-pe '" +:+ pattern +:+ "' '" +:+ file +:+ "'")
                                     (exit_code r)), s')).
  { unfold Server.sed_edit, Fs.bind. rewrite (require_file_found _ _ _ Hc).
    unfold Fs.ret, Cmd.execAsync. rewrite Hcmd, Hsh.
    cbn [Cmd.status Cmd.out Cmd.err Cmd.files].
    destruct (exit_code r =? 0)%nat; [|reflexivity].
    destruct (negb (String.eqb (warned r) "")); reflexivity. }
  rewrite Hrun. split; [|split].
  - intros -> ->. reflexivity.
  - intros -> Hw. cbn [Nat.eqb].
    destruct (String.eqb_spec (warned r) ""); [contradiction | reflexivity].
  - intros Hne. rewrite (proj2 (Nat.eqb_neq _ _) Hne). eexists. reflexivity.
Qed.

Lemma sed_edit_edits_in_place_witness :
  let s : gmap string string := <["notes.txt" := "one"]> ∅ in
  let r := {| exit_code := 0; printed := ""; warned := "warning" |} in
  let s' := Spec.rewritten "notes.txt" "one" true (Some "one") s in
  Spec.safe_path "notes.txt" = true
  /\ Spec.no_quote "s/one/two/" = true
  /\ s !! "notes.txt" = Some "one"
  /\ perl_pe Spec.noisy_tools "s/one/two/" false "one" = (r, Some "one")
  /\ Spec.buffered r = true
  /\ (exit_code r = 0%nat -> warned r = "" ->
      Server.sed_edit Spec.noisy_tools "notes.txt" "s/one/two/" true false s
      = (Fs.Ret ("Successfully edited " +:+ "notes.txt"
                 +:+ (if true then " (backup created as .bak)" else "")), s'))
  /\ (exit_code r = 0%nat -> warned r <> "" ->
      Server.sed_edit Spec.noisy_tools "notes.txt" "s/one/two/" true false s
      = (Fs.Throw (Fs.Error ("Sed error: " +:+ warned r)), s'))
  /\ (exit_code r <> 0%nat ->
      exists cmd,
        Server.sed_edit Spec.noisy_tools "notes.txt" "s/one/two/" true false s
        = (Fs.Throw (Fs.ExecException cmd (exit_code r)), s')).
Proof.
  intros s r s'. split; [reflexivity|]. split; [reflexivity|]. split; [reflexivity|].
  split; [reflexivity|]. split; [reflexivity|].
  apply (sed_edit_edits_in_place Spec.noisy_tools "notes.txt" "s/one/two/" "one" true s r
           (Some "one")); reflexivity.
Defined.



(** [sed_edit] is [perl_edit] under another name: without preview it runs
    the very command of [perl_edit] without [multiline], so that the two
    leave the same files behind on every input. The pattern of [sed_edit]
    is perl code, whatever the name of the tool says. *)
Theorem sed_edit_runs_perl_edit (T : Tools) (file pattern : string) (backup : bool)
  (s : gmap string string) :
  snd (Server.sed_edit T file pattern backup false s)
  = snd (Server.perl_edit T file pattern backup false s).
Proof.
  assert (Hcmd : "perl -i" +:+ (if backup then ".bak" else "") +:+ " -pe '" +:+ pattern
                 +:+ "' '" +:+ file +:+ "'"
                 = "perl -i" +:+ (if backup then ".bak" else "") +:+ " " +:+ "" +:+ "-pe '"
                   +:+ pattern +:+ "' '" +:+ file +:+ "'")
    by (destruct backup; reflexivity).
  unfold Server.sed_edit, Server.perl_edit, Fs.bind, Fs.ret.
  destruct (Server.require_file file s) as [[[]| |] s0]; try reflexivity.
  rewrite Hcmd.
  destruct (Cmd.execAsync T _ s0) as [[[stdout stderr]| |] s1]; try reflexivity.
  destruct (negb (String.eqb stderr "")); reflexivity.
Qed.

(** ** What a preview shows *)

(** [diff -u] on two files that are there. *)
Lemma run_diff_files (T : Tools) (a b stdin ca cb : string) (s : gmap string string) :
  Cmd.operand a = true -> Cmd.operand b = true ->
  s !! a = Some ca -> s !! b = Some cb ->
  Cmd.run_simple T {| Sh.argv := [ "diff"; "-u"; a; b ]; Sh.redirect := None |} stdin s
  = Some (if String.eqb ca cb then Cmd.quiet 0 s
          else {| Cmd.status := 1; Cmd.out := diff_u T a b ca cb; Cmd.err := "";
                  Cmd.files := s |}).
Proof.
  intros Ha Hb Hca Hcb. unfold Cmd.run_simple, Cmd.run_argv. cbn [Sh.redirect Sh.argv].
  change (String.eqb "diff" "rm") with false.
  change (String.eqb "diff" "cp") with false.
  change (String.eqb "diff" "mv") with false.
  change (String.eqb "diff" "true") with false.
  change (String.eqb "diff" "head") with false.
  change (String.eqb "diff" "diff") with true.
  change (String.eqb "-u" "-u") with true. cbv iota.
  rewrite Ha, Hb, Hca, Hcb. cbn [andb].
  destruct (String.eqb ca cb); reflexivity.
Qed.

Lemma run_perl_script (T : Tools) (script file stdin : string) (s : gmap string string) :
  Cmd.run_simple T {| Sh.argv := [ "perl"; "-i"; "-pe"; script; file ]; Sh.redirect := None |}
    stdin s
  = Cmd.perl T "-i" false script file s.
Proof. reflexivity. Qed.

Lemma base_name_dot_bak (file : string) : Spec.base_name file <> ".bak" -> file <> ".bak".
Proof. intros H E. apply H. now rewrite E. Qed.

(** The preview of [sed_edit], for a file whose name is not [.bak], a
    path and a pattern that the shell passes on unchanged, and an output
    that [exec] can buffer: perl runs on a scratch copy, and when it ends
    with status 0 the first 50 lines of what [diff -u] prints for the file
    and the copy follow what perl itself printed. The answer is that text under [Preview of
    changes:], or [No changes would be made] when it is empty; but when
    perl has written to its standard error, a warning or the diagnostic
    of a pattern it rejects, the call fails with [Sed error]. Either way
    the scratch copy is gone afterwards, and of the other files only
    [.bak] is removed. *)
Theorem sed_edit_preview_shows_diff (T : Tools) (file pattern content : string)
  (backup : bool) (s : gmap string string) (r : ran) (edit : option string) :
  Spec.safe_path file = true ->
  Spec.no_quote pattern = true ->
  Spec.base_name file <> ".bak" ->
  s !! file = Some content ->
  perl_pe T pattern false content = (r, edit) ->
  let tmp := file +:+ ".preview.tmp" in
  let s' := delete tmp (delete ".bak" s) in
  let text := default content edit in
  let difference := if String.eqb content text then ""
                    else Cmd.head_lines 50 (diff_u T file tmp content text) in
  let stdout := printed r +:+ (if (exit_code r =? 0)%nat then difference else "") in
  Spec.within_buffer stdout = true /\ Spec.within_buffer (warned r) = true ->
  (warned r = "" ->
   Server.sed_edit T file pattern backup true s
   = (Fs.Ret ("Preview of changes:" +:+ JS.NL
              +:+ (if String.eqb stdout "" then "No changes would be made" else stdout)), s'))
  /\ (warned r <> "" ->
      Server.sed_edit T file pattern backup true s
      = (Fs.Throw (Fs.Error ("Sed error: " +:+ warned r)), s')).
Proof.
  intros Hsafe Hpat Hbase Hc Hperl tmp s' text difference stdout _.
  pose proof (base_name_dot_bak file Hbase) as Hbak.
  pose proof (safe_path_suffix file ".preview.tmp" Hsafe eq_refl) as Htmp. fold tmp in Htmp.
  pose proof (safe_path_operand _ Htmp) as Hot.
  pose proof (safe_path_operand _ Hsafe) as Hof.
  assert (Hne : file <> tmp) by (apply suffix_neq; discriminate).
  assert (Hc' : delete ".bak" s !! file = Some content)
    by (rewrite lookup_delete_ne by congruence; exact Hc).
  assert (Hrun : Server.sed_edit T file pattern backup true s
    = match Cmd.sh T ("perl -i -pe '" +:+ pattern +:+ "' '" +:+ tmp
                      +:+ "' && diff -u '" +:+ file +:+ "' '" +:+ tmp
                      +:+ "' | head -50; rm -f '" +:+ tmp +:+ "'")
              (<[tmp := content]> (delete ".bak" s)) with
      | Some o =>
          if (Cmd.status o =? 0)%nat then
            if negb (String.eqb (Cmd.err o) "")
            then (Fs.Throw (Fs.Error ("Sed error: " +:+ Cmd.err o)), Cmd.files o)
            else (Fs.Ret ("Preview of changes:" +:+ JS.NL
                          +:+ (if String.eqb (Cmd.out o) "" then "No changes would be made"
                               else Cmd.out o)), Cmd.files o)
          else (Fs.Throw (Fs.ExecException
                            ("perl -i -pe '" +:+ pattern +:+ "' '" +:+ tmp
                             +:+ "' && diff -u '" +:+ file +:+ "' '" +:+ tmp
                             +:+ "' | head -50; rm -f '" +:+ tmp +:+ "'") (Cmd.status o)),
                Cmd.files o)
      | None => (Fs.Stuck, <[tmp := content]> (delete ".bak" s))
      end).
  { unfold Server.sed_edit, Fs.bind.
    rewrite (require_file_found _ _ _ Hc).
    unfold Cmd.execAsync at 1. rewrite (sh_scratch_copy T file s Hsafe), Hc'.
    cbn [Cmd.quiet Cmd.status Cmd.files Cmd.out Cmd.err Nat.eqb Fs.ret].
    unfold Cmd.execAsync. fold tmp.
    destruct (Cmd.sh T _ _) as [o|]; [|reflexivity].
    destruct (Cmd.status o =? 0)%nat; [|reflexivity].
    destruct (negb (String.eqb (Cmd.err o) "")); reflexivity. }
  assert (Hsh : Cmd.sh T ("perl -i -pe '" +:+ pattern +:+ "' '" +:+ tmp
                          +:+ "' && diff -u '" +:+ file +:+ "' '" +:+ tmp
                          +:+ "' | head -50; rm -f '" +:+ tmp +:+ "'")
                  (<[tmp := content]> (delete ".bak" s))
                = Some {| Cmd.status := 0; Cmd.out := stdout; Cmd.err := warned r;
                          Cmd.files := s' |}).
  { unfold Cmd.sh.
    rewrite (parse_perl_preview _ _ _ Hpat (safe_path_no_quote _ Htmp)
               (safe_path_no_quote _ Hsafe)).
    cbn [Cmd.run_list Cmd.run_andor Cmd.run_pipeline Cmd.start Cmd.after Cmd.status
         Cmd.files Cmd.out Cmd.err Bool.eqb Nat.eqb].
    rewrite run_perl_script. unfold Cmd.perl.
    change (Cmd.in_place "-i") with (Some ""). rewrite Hot, lookup_insert_eq, Hperl.
    cbn [Cmd.keep_backup].
    set (f1 := match edit with
               | Some t => <[tmp := t]> (<[tmp := content]> (delete ".bak" s))
               | None => <[tmp := content]> (delete ".bak" s)
               end).
    assert (Hf1 : f1 !! file = Some content /\ f1 !! tmp = Some text /\ delete tmp f1 = s').
    { unfold f1, text, s'. destruct edit as [t|]; cbn [default].
      - rewrite !lookup_insert_ne by congruence. rewrite lookup_insert_eq.
        now rewrite !delete_insert_eq.
      - rewrite lookup_insert_ne by congruence. rewrite lookup_insert_eq.
        now rewrite delete_insert_eq. }
    destruct Hf1 as (Hfile & Htext & Hdel).
    unfold stdout. unfold Cmd.after, Cmd.start.
    cbn [Cmd.status Cmd.files Cmd.out Cmd.err String.append].
    destruct (exit_code r) as [|n];
      cbn [Nat.eqb Bool.eqb Cmd.run_list Cmd.run_andor Cmd.run_pipeline Cmd.status
           Cmd.files Cmd.out Cmd.err].
    - rewrite (run_diff_files T file tmp "" content text f1 Hof Hot Hfile Htext).
      unfold difference.
      destruct (String.eqb content text);
        cbn [Cmd.quiet Cmd.run_pipeline Cmd.status Cmd.files Cmd.out Cmd.err];
        rewrite run_head;
        cbn [Cmd.run_pipeline Cmd.run_andor Cmd.status Cmd.files Cmd.out Cmd.err];
        unfold Cmd.after, Cmd.start;
        cbn [Cmd.status Cmd.files Cmd.out Cmd.err Cmd.run_list Cmd.run_andor Cmd.run_pipeline
             Bool.eqb Nat.eqb];
        rewrite (run_rm T tmp "" f1 Hot);
        cbn [Cmd.quiet Cmd.status Cmd.files Cmd.out Cmd.err Cmd.run_list Cmd.run_andor
             Cmd.run_pipeline String.append Cmd.head_lines];
        rewrite Hdel, !append_nil_r; reflexivity.
    - unfold Cmd.after, Cmd.start.
      cbn [Cmd.status Cmd.files Cmd.out Cmd.err Cmd.run_list Cmd.run_andor Cmd.run_pipeline
           Bool.eqb Nat.eqb].
      rewrite (run_rm T tmp "" f1 Hot).
      cbn [Cmd.quiet Cmd.status Cmd.files Cmd.out Cmd.err Cmd.run_list Cmd.run_andor
           Cmd.run_pipeline String.append].
      rewrite Hdel, !append_nil_r. reflexivity. }
  rewrite Hrun, Hsh. cbn [Cmd.status Cmd.out Cmd.err Cmd.files Nat.eqb].
  split.
  - intros ->. reflexivity.
  - intros Hw. destruct (String.eqb_spec (warned r) ""); [contradiction | reflexivity].
Qed.

Lemma sed_edit_preview_shows_diff_witness :
  let s : gmap string string := <["notes.txt" := "one"]> ∅ in
  let r := {| exit_code := 0; printed := ""; warned := "" |} in
  let tmp := "notes.txt" +:+ ".preview.tmp" in
  let s' := delete tmp (delete ".bak" s) in
  let text := default "one" (Some "one") in
  let difference := if String.eqb "one" text then ""
                    else Cmd.head_lines 50 (diff_u Spec.idle_tools "notes.txt" tmp "one" text) in
  let stdout := printed r +:+ (if (exit_code r =? 0)%nat then difference else "") in
  Spec.safe_path "notes.txt" = true
  /\ Spec.no_quote "s/one/two/" = true
  /\ Spec.base_name "notes.txt" <> ".bak"
  /\ s !! "notes.txt" = Some "one"
  /\ perl_pe Spec.idle_tools "s/one/two/" false "one" = (r, Some "one")
  /\ (Spec.within_buffer stdout = true /\ Spec.within_buffer (warned r) = true)
  /\ (warned r = "" ->
      Server.sed_edit Spec.idle_tools "notes.txt" "s/one/two/" true true s
      = (Fs.Ret ("Preview of changes:" +:+ JS.NL
                 +:+ (if String.eqb stdout "" then "No changes would be made" else stdout)),
         s'))
  /\ (warned r <> "" ->
      Server.sed_edit Spec.idle_tools "notes.txt" "s/one/two/" true true s
      = (Fs.Throw (Fs.Error ("Sed error: " +:+ warned r)), s')).
Proof.
  intros s r tmp s' text difference stdout.
  split; [reflexivity|]. split; [reflexivity|]. split; [discriminate|].
  split; [reflexivity|]. split; [reflexivity|]. split; [split; reflexivity|].
  apply (sed_edit_preview_shows_diff Spec.idle_tools "notes.txt" "s/one/two/" "one" true s r
           (Some "one"));
    [reflexivity | reflexivity | discriminate | reflexivity | reflexivity
    | split; reflexivity].
Defined.

(** ** awk_process *)

(** The command line of [awk_process], as the shell reads it. *)
Lemma parse_awk (script file : string) (out : option string) :
  Spec.no_quote script = true -> Spec.no_quote file = true ->
  match out with Some p => Spec.no_quote p = true | None => True end ->
  Sh.parse ("awk '" +:+ script +:+ "' '" +:+ file +:+ "'"
            +:+ match out with Some p => " > '" +:+ p +:+ "'" | None => "" end)
  = Sh.Parsed [ [ (true, [ {| Sh.argv := [ "awk"; script; file ]; Sh.redirect := out |} ]) ] ].
Proof.
  intros Hs Hf Ho. unfold Sh.parse.
  cbn. rewrite (lex_plain script _ _ Hs).
  cbn. rewrite (lex_plain file _ _ Hf).
  destruct out as [p|].
  - cbn. rewrite (lex_plain p _ _ Ho). cbn. reflexivity.
  - cbn. reflexivity.
Qed.

Lemma run_awk (T : Tools) (script file content stdin : string) (s : gmap string string) :
  Cmd.operand script = true -> Cmd.operand file = true ->
  s !! file = Some content ->
  Cmd.run_argv T [ "awk"; script; file ] stdin s
  = Some {| Cmd.status := exit_code (awk T script content);
            Cmd.out := printed (awk T script content);
            Cmd.err := warned (awk T script content); Cmd.files := s |}.
Proof.
  intros Hs Hf Hc. unfold Cmd.run_argv.
  change (String.eqb "awk" "rm") with false.
  change (String.eqb "awk" "cp") with false.
  change (String.eqb "awk" "mv") with false.
  change (String.eqb "awk" "true") with false.
  change (String.eqb "awk" "head") with false.
  change (String.eqb "awk" "diff") with false.
  change (String.eqb "awk" "sed") with false.
  change (String.eqb "awk" "perl") with false.
  change (String.eqb "awk" "awk") with true. cbv iota.
  rewrite Hs, Hf, Hc. reflexivity.
Qed.

(** What [awk_process] makes of the end of its command: a status that is
    not 0 is the failure of the command, anything on the standard error
    is an [AWK error], and the answer is given otherwise. *)
Lemma awk_process_answer (T : Tools) (file script : string) (outputFile : option string)
  (s : gmap string string) (content cmd : string) (o : Cmd.outcome) :
  s !! file = Some content ->
  cmd = match Server.given outputFile with
        | Some out => ("awk '" +:+ script +:+ "' '" +:+ file +:+ "'") +:+ " > '" +:+ out +:+ "'"
        | None => "awk '" +:+ script +:+ "' '" +:+ file +:+ "'"
        end ->
  Cmd.sh T cmd s = Some o ->
  Server.awk_process T file script outputFile s
  = (if (Cmd.status o =? 0)%nat then
       if negb (String.eqb (Cmd.err o) "")
       then Fs.Throw (Fs.Error ("AWK error: " +:+ Cmd.err o))
       else Fs.Ret (match Server.given outputFile with
                    | Some out => "Processed " +:+ file +:+ " -> " +:+ out
                    | None => if String.eqb (Cmd.out o) "" then "AWK processing complete"
                              else Cmd.out o
                    end)
     else Fs.Throw (Fs.ExecException cmd (Cmd.status o)),
     Cmd.files o).
Proof.
  intros Hc -> Hsh.
  unfold Server.awk_process, Fs.bind. rewrite (require_file_found _ _ _ Hc).
  unfold Cmd.execAsync. rewrite Hsh.
  destruct (Cmd.status o =? 0)%nat; [|reflexivity].
  destruct (negb (String.eqb (Cmd.err o) "")); reflexivity.
Qed.

(** Without an output file, [awk_process] runs awk on the file, for a
    script and a path that the shell passes on unchanged, and an output
    that [exec] can buffer. The answer is what awk prints, or a fixed
    text when it prints nothing, if awk ends with status 0 and has
    written nothing to its standard error; when it has written there, a
    warning for one, the call fails with [AWK error]; when awk ends with
    another status, the call fails with that status. The files are as
    they were, awk being taken to write none of its own. *)
Theorem awk_process_prints (T : Tools) (file script content : string)
  (outputFile : option string) (s : gmap string string) :
  Spec.safe_path file = true ->
  Spec.safe_path script = true ->
  s !! file = Some content ->
  outputFile = None \/ outputFile = Some "" ->
  let r := awk T script content in
  Spec.buffered r = true ->
  (exit_code r = 0%nat -> warned r = "" ->
   Server.awk_process T file script outputFile s
   = (Fs.Ret (if String.eqb (printed r) "" then "AWK processing complete" else printed r), s))
  /\ (exit_code r = 0%nat -> warned r <> "" ->
      Server.awk_process T file script outputFile s
      = (Fs.Throw (Fs.Error ("AWK error: " +:+ warned r)), s))
  /\ (exit_code r <> 0%nat ->
      exists cmd,
        Server.awk_process T file script outputFile s
        = (Fs.Throw (Fs.ExecException cmd (exit_code r)), s)).
Proof.
  intros Hsafe Hscript Hc Hout r _.
  assert (Hgiven : Server.given outputFile = None) by (destruct Hout as [->| ->]; reflexivity).
  pose proof (parse_awk script file None (safe_path_no_quote _ Hscript)
                (safe_path_no_quote _ Hsafe) I) as Hparse.
  cbn [String.append] in Hparse.
  assert (Hsh : Cmd.sh T ("awk '" +:+ script +:+ "' '" +:+ file +:+ "'") s
                = Some {| Cmd.status := exit_code r; Cmd.out := printed r;
                          Cmd.err := warned r; Cmd.files := s |}).
  { unfold Cmd.sh. cbn [String.append]. rewrite Hparse.
    cbn [Cmd.run_list Cmd.run_andor Cmd.run_pipeline Cmd.start Cmd.after Cmd.status
         Cmd.files Cmd.out Cmd.err Bool.eqb Nat.eqb].
    unfold Cmd.run_simple. cbn [Sh.redirect Sh.argv].
    rewrite (run_awk T script file content "" s (safe_path_operand _ Hscript)
               (safe_path_operand _ Hsafe) Hc).
    reflexivity. }
  rewrite (awk_process_answer T file script outputFile s content _ _ Hc eq_refl
             ltac:(rewrite Hgiven; exact Hsh)).
  rewrite Hgiven. cbn [Cmd.status Cmd.out Cmd.err Cmd.files].
  split; [|split].
  - intros -> ->. reflexivity.
  - intros -> Hw. cbn [Nat.eqb].
    destruct (String.eqb_spec (warned r) ""); [contradiction | reflexivity].
  - intros Hne. rewrite (proj2 (Nat.eqb_neq _ _) Hne). eexists. reflexivity.
Qed.

Lemma awk_process_prints_witness :
  let s : gmap string string := <["data.csv" := "a,b"]> ∅ in
  let r := awk Spec.noisy_tools "{print $1}" "a,b" in
  Spec.safe_path "data.csv" = true
  /\ Spec.safe_path "{print $1}" = true
  /\ s !! "data.csv" = Some "a,b"
  /\ (@None string = None \/ @None string = Some "")
  /\ Spec.buffered r = true
  /\ (exit_code r = 0%nat -> warned r = "" ->
      Server.awk_process Spec.noisy_tools "data.csv" "{print $1}" None s
      = (Fs.Ret (if String.eqb (printed r) "" then "AWK processing complete" else printed r),
         s))
  /\ (exit_code r = 0%nat -> warned r <> "" ->
      Server.awk_process Spec.noisy_tools "data.csv" "{print $1}" None s
      = (Fs.Throw (Fs.Error ("AWK error: " +:+ warned r)), s))
  /\ (exit_code r <> 0%nat ->
      exists cmd,
        Server.awk_process Spec.noisy_tools "data.csv" "{print $1}" None s
        = (Fs.Throw (Fs.ExecException cmd (exit_code r)), s)).
Proof.
  intros s r. split; [reflexivity|]. split; [reflexivity|]. split; [reflexivity|].
  split; [left; reflexivity|]. split; [reflexivity|].
  apply (awk_process_prints Spec.noisy_tools "data.csv" "{print $1}" "a,b" None s);
    [reflexivity | reflexivity | reflexivity | left; reflexivity | reflexivity].
Defined.

(** [awk_process] with an output file: the shell empties the output file
    before awk starts, so awk reads [input], which is the content of the
    file unless the output file is the file itself, and the output file
    holds what awk printed, whatever the end of the call. *)
Lemma awk_process_redirected (T : Tools) (file script out content : string)
  (s : gmap string string) :
  Spec.safe_path file = true ->
  Spec.safe_path script = true ->
  Spec.safe_path out = true ->
  s !! file = Some content ->
  let input := if String.eqb out file then "" else content in
  let r := awk T script input in
  Server.awk_process T file script (Some out) s
  = (if (exit_code r =? 0)%nat then
       if negb (String.eqb (warned r) "")
       then Fs.Throw (Fs.Error ("AWK error: " +:+ warned r))
       else Fs.Ret ("Processed " +:+ file +:+ " -> " +:+ out)
     else Fs.Throw (Fs.ExecException
                      (("awk '" +:+ script +:+ "' '" +:+ file +:+ "'") +:+ " > '" +:+ out
                       +:+ "'") (exit_code r)),
     <[out := printed r]> s).
Proof.
  intros Hsafe Hscript Hout Hc input r.
  assert (Hgiven : Server.given (Some out) = Some out) by (now destruct out).
  pose proof (parse_awk script file (Some out) (safe_path_no_quote _ Hscript)
                (safe_path_no_quote _ Hsafe) (safe_path_no_quote _ Hout)) as Hparse.
  assert (Hcmd : ("awk '" +:+ script +:+ "' '" +:+ file +:+ "'") +:+ " > '" +:+ out +:+ "'"
                 = "awk '" +:+ script +:+ "' '" +:+ file +:+ "' > '" +:+ out +:+ "'")
    by (now rewrite !append_assoc).
  cbn [String.append] in Hparse.
  assert (Hin : <[out := ""]> s !! file = Some input).
  { unfold input. destruct (String.eqb_spec out file) as [->|Hne].
    - apply lookup_insert_eq.
    - rewrite lookup_insert_ne by exact Hne. exact Hc. }
  assert (Hsh : Cmd.sh T (("awk '" +:+ script +:+ "' '" +:+ file +:+ "'") +:+ " > '" +:+ out
                          +:+ "'") s
                = Some {| Cmd.status := exit_code r; Cmd.out := ""; Cmd.err := warned r;
                          Cmd.files := <[out := printed r]> s |}).
  { rewrite Hcmd. unfold Cmd.sh. cbn [String.append]. rewrite Hparse.
    cbn [Cmd.run_list Cmd.run_andor Cmd.run_pipeline Cmd.start Cmd.after Cmd.status
         Cmd.files Cmd.out Cmd.err Bool.eqb Nat.eqb].
    unfold Cmd.run_simple. cbn [Sh.redirect Sh.argv].
    rewrite (safe_path_operand _ Hout).
    rewrite (run_awk T script file input "" _ (safe_path_operand _ Hscript)
               (safe_path_operand _ Hsafe) Hin).
    fold r. unfold Cmd.after, Cmd.start.
    cbn [Cmd.status Cmd.files Cmd.out Cmd.err String.append Cmd.run_andor].
    now rewrite insert_insert_eq. }
  rewrite (awk_process_answer T file script (Some out) s content _ _ Hc eq_refl
             ltac:(rewrite Hgiven; exact Hsh)).
  rewrite Hgiven. reflexivity.
Qed.



(** With the file itself as output file, for a script and a path that the
    shell passes on unchanged and a standard error of awk that [exec] can
    buffer, the content of the file is lost: the shell
    empties the file before awk reads it, so the file ends up with what
    awk prints for an empty input, whatever it held. The call answers
    [Processed ...] if awk ends with status 0 and has written nothing to
    its standard error, and fails as above otherwise, with the file
    overwritten all the same. *)
Theorem awk_process_onto_its_input (T : Tools) (file script content : string)
  (s : gmap string string) :
  Spec.safe_path file = true ->
  Spec.safe_path script = true ->
  s !! file = Some content ->
  let r := awk T script "" in
  let s' := <[file := printed r]> s in
  Spec.within_buffer (warned r) = true ->
  (exit_code r = 0%nat -> warned r = "" ->
   Server.awk_process T file script (Some file) s
   = (Fs.Ret ("Processed " +:+ file +:+ " -> " +:+ file), s'))
  /\ (exit_code r = 0%nat -> warned r <> "" ->
      Server.awk_process T file script (Some file) s
      = (Fs.Throw (Fs.Error ("AWK error: " +:+ warned r)), s'))
  /\ (exit_code r <> 0%nat ->
      exists cmd,
        Server.awk_process T file script (Some file) s
        = (Fs.Throw (Fs.ExecException cmd (exit_code r)), s')).
Proof.
  intros Hsafe Hscript Hc r s' _.
  pose proof (awk_process_redirected T file script file content s Hsafe Hscript Hsafe Hc) as H.
  cbv zeta in H. rewrite String.eqb_refl in H.
  fold r in H. fold s' in H. rewrite H.
  split; [|split].
  - intros -> ->. reflexivity.
  - intros -> Hw. cbn [Nat.eqb].
    destruct (String.eqb_spec (warned r) ""); [contradiction | reflexivity].
  - intros Hne'. rewrite (proj2 (Nat.eqb_neq _ _) Hne'). eexists. reflexivity.
Qed.

Lemma awk_process_onto_its_input_witness :
  let s : gmap string string := <["data.csv" := "a,b"]> ∅ in
  let r := awk Spec.idle_tools "{print $1}" "" in
  let s' := <["data.csv" := printed r]> s in
  Spec.safe_path "data.csv" = true
  /\ Spec.safe_path "{print $1}" = true
  /\ s !! "data.csv" = Some "a,b"
  /\ Spec.within_buffer (warned r) = true
  /\ (exit_code r = 0%nat -> warned r = "" ->
      Server.awk_process Spec.idle_tools "data.csv" "{print $1}" (Some "data.csv") s
      = (Fs.Ret ("Processed " +:+ "data.csv" +:+ " -> " +:+ "data.csv"), s'))
  /\ (exit_code r = 0%nat -> warned r <> "" ->
      Server.awk_process Spec.idle_tools "data.csv" "{print $1}" (Some "data.csv") s
      = (Fs.Throw (Fs.Error ("AWK error: " +:+ warned r)), s'))
  /\ (exit_code r <> 0%nat ->
      exists cmd,
        Server.awk_process Spec.idle_tools "data.csv" "{print $1}" (Some "data.csv") s
        = (Fs.Throw (Fs.ExecException cmd (exit_code r)), s')).
Proof.
  intros s r s'. split; [reflexivity|]. split; [reflexivity|]. split; [reflexivity|].
  split; [reflexivity|].
  apply (awk_process_onto_its_input Spec.idle_tools "data.csv" "{print $1}" "a,b" s);
    reflexivity.
Defined.

(** ** diff_preview, when the edit command succeeds *)

(** The command that makes the diff, as the shell reads it, and what it
    gives for two files that are there: the status is always 0. *)
Lemma parse_diff_or_true (file tmp : string) :
  Spec.no_quote file = true -> Spec.no_quote tmp = true ->
  Sh.parse ("diff -u '" +:+ file +:+ "' '" +:+ tmp +:+ "' || true")
  = Sh.Parsed
      [ [ (true, [ {| Sh.argv := [ "diff"; "-u"; file; tmp ]; Sh.redirect := None |} ]);
          (false, [ {| Sh.argv := [ "true" ]; Sh.redirect := None |} ]) ] ].
Proof.
  intros Hf Ht. unfold Sh.parse.
  cbn. rewrite (lex_plain file _ _ Hf).
  cbn. rewrite (lex_plain tmp _ _ Ht).
  cbn. reflexivity.
Qed.

Lemma sh_diff_or_true (T : Tools) (file tmp ca cb : string) (s : gmap string string) :
  Spec.safe_path file = true -> Spec.safe_path tmp = true ->
  s !! file = Some ca -> s !! tmp = Some cb ->
  Cmd.sh T ("diff -u '" +:+ file +:+ "' '" +:+ tmp +:+ "' || true") s
  = Some {| Cmd.status := 0;
            Cmd.out := if String.eqb ca cb then "" else diff_u T file tmp ca cb;
            Cmd.err := ""; Cmd.files := s |}.
Proof.
  intros Hf Ht Hca Hcb. unfold Cmd.sh.
  rewrite (parse_diff_or_true _ _ (safe_path_no_quote _ Hf) (safe_path_no_quote _ Ht)).
  cbn [Cmd.run_list Cmd.run_andor Cmd.run_pipeline Cmd.start Cmd.after Cmd.status
       Cmd.files Cmd.out Cmd.err Bool.eqb Nat.eqb].
  rewrite (run_diff_files T file tmp "" ca cb s (safe_path_operand _ Hf)
             (safe_path_operand _ Ht) Hca Hcb).
  destruct (String.eqb ca cb);
    cbn [Cmd.quiet Cmd.run_list Cmd.run_andor Cmd.run_pipeline Cmd.start Cmd.after
         Cmd.status Cmd.files Cmd.out Cmd.err Bool.eqb Nat.eqb String.append];
    [reflexivity|].
  unfold Cmd.run_simple, Cmd.run_argv. cbn [Sh.redirect Sh.argv].
  change (String.eqb "true" "rm") with false.
  change (String.eqb "true" "cp") with false.
  change (String.eqb "true" "mv") with false.
  change (String.eqb "true" "true") with true. cbv iota.
  cbn [Cmd.quiet Cmd.run_list Cmd.run_andor Cmd.run_pipeline Cmd.start Cmd.after
       Cmd.status Cmd.files Cmd.out Cmd.err Bool.eqb Nat.eqb String.append].
  unfold Cmd.after, Cmd.start.
  cbn [Cmd.status Cmd.files Cmd.out Cmd.err String.append].
  now rewrite !append_nil_r.
Qed.

(** The edit command of [diff_preview] for awk, as the shell reads it. *)
Lemma parse_awk_preview (command tmp : string) :
  Spec.no_quote command = true -> Spec.no_quote tmp = true ->
  Sh.parse ("awk '" +:+ command +:+ "' '" +:+ tmp +:+ "' > '" +:+ (tmp +:+ ".new")
            +:+ "' && mv '" +:+ (tmp +:+ ".new") +:+ "' '" +:+ tmp +:+ "'")
  = Sh.Parsed
      [ [ (true, [ {| Sh.argv := [ "awk"; command; tmp ];
                      Sh.redirect := Some (tmp +:+ ".new") |} ]);
          (true, [ {| Sh.argv := [ "mv"; tmp +:+ ".new"; tmp ]; Sh.redirect := None |} ]) ] ].
Proof.
  intros Hc Ht.
  assert (Htt : Spec.no_quote (tmp +:+ ".new") = true).
  { unfold Spec.no_quote in *. rewrite includes_app.
    apply negb_true_iff in Ht. now rewrite Ht. }
  unfold Sh.parse.
  cbn. rewrite (lex_plain command _ _ Hc).
  cbn. rewrite (lex_plain tmp _ _ Ht).
  cbn. rewrite (lex_plain _ _ _ Htt).
  cbn. rewrite (lex_plain _ _ _ Htt).
  cbn. rewrite (lex_plain tmp _ _ Ht).
  cbn. reflexivity.
Qed.

Lemma run_mv (T : Tools) (a b c stdin : string) (s : gmap string string) :
  Cmd.operand a = true -> Cmd.operand b = true -> a <> b ->
  s !! a = Some c ->
  Cmd.run_simple T {| Sh.argv := [ "mv"; a; b ]; Sh.redirect := None |} stdin s
  = Some (Cmd.quiet 0 (<[b := c]> (delete a s))).
Proof.
  intros Ha Hb Hab Hc. unfold Cmd.run_simple, Cmd.run_argv. cbn [Sh.redirect Sh.argv].
  change (String.eqb "mv" "rm") with false.
  change (String.eqb "mv" "cp") with false.
  change (String.eqb "mv" "mv") with true. cbv iota.
  rewrite Ha, Hb, Hc. cbn [andb].
  now rewrite (proj2 (String.eqb_neq a b) Hab).
Qed.

(** The edit command of a preview, run on the scratch copy [tmp] of the
    content: when the tool ends with status 0, so does the command, the
    scratch copy holds the edited text afterwards, and apart from it only
    the files of [Spec.scratch] are touched, which are gone at the end. *)
Lemma sh_preview_edit (T : Tools) (tool : Server.tool_name) (command tmp content text : string)
  (s : gmap string string) :
  Spec.safe_path command = true ->
  Spec.safe_path tmp = true ->
  s !! tmp = Some content ->
  Spec.preview_edit T tool command content = Some text ->
  exists out err,
    Cmd.sh T match tool with
             | Server.ToolPerl => "perl -i -pe '" +:+ command +:+ "' '" +:+ tmp +:+ "'"
             | Server.ToolSed => "sed -i.tmp '" +:+ command +:+ "' '" +:+ tmp +:+ "' && rm -f '"
                                 +:+ tmp +:+ ".tmp'"
             | Server.ToolAwk => "awk '" +:+ command +:+ "' '" +:+ tmp +:+ "' > '" +:+ tmp
                                 +:+ ".new' && mv '" +:+ tmp +:+ ".new' '" +:+ tmp +:+ "'"
             end s
    = Some {| Cmd.status := 0; Cmd.out := out; Cmd.err := err;
              Cmd.files := <[tmp := text]> (foldr delete s (Spec.scratch tool tmp)) |}.
Proof.
  intros Hcmd Htmp Hc Hedit.
  pose proof (safe_path_operand _ Hcmd) as Hoc.
  pose proof (safe_path_operand _ Htmp) as Hot.
  destruct tool; cbn [Spec.preview_edit Spec.scratch foldr] in *.
  - pose proof (sh_perl T false false command tmp s (safe_path_no_quote _ Hcmd)
                  (safe_path_no_quote _ Htmp)) as Hsh.
    pose proof (perl_in_place T false false command tmp content s Hot Hc) as Hp.
    cbv iota in Hsh, Hp. rewrite Hp in Hsh.
    destruct (perl_pe T command false content) as [r edit].
    destruct (exit_code r =? 0)%nat eqn:Hr; [|discriminate].
    destruct (Spec.buffered r); [|discriminate].
    apply Nat.eqb_eq in Hr. injection Hedit as <-.
    cbn [fst snd] in Hsh. rewrite Hr in Hsh.
    exists (printed r), (warned r).
    replace (<[tmp := default content edit]> s)
      with (Spec.rewritten tmp content false edit s); [exact Hsh|].
    unfold Spec.rewritten. destruct edit as [t|]; cbn [default]; [reflexivity|].
    symmetry. apply insert_id. exact Hc.
  - destruct (Sed.parse command) as [r c| |] eqn:Hp; try discriminate.
    injection Hedit as <-.
    pose proof (safe_path_suffix tmp ".tmp" Htmp eq_refl) as Htt.
    exists "", "".
    unfold Cmd.sh.
    change (tmp +:+ ".tmp'") with (tmp +:+ ".tmp" +:+ "'").
    rewrite <- (append_assoc tmp ".tmp" "'").
    rewrite (parse_sed_preview _ _ (safe_path_no_quote _ Hcmd) (safe_path_no_quote _ Htmp)).
    cbn [Cmd.run_list Cmd.run_andor Cmd.run_pipeline Cmd.start Cmd.after Cmd.status
         Cmd.files Cmd.out Cmd.err Bool.eqb Nat.eqb].
    unfold Cmd.run_simple at 1. cbn [Sh.redirect Sh.argv].
    change (Cmd.run_argv T [ "sed"; "-i.tmp"; command; tmp ] "" s)
      with (Cmd.sed "-i.tmp" command tmp s).
    unfold Cmd.sed. change (Cmd.in_place "-i.tmp") with (Some ".tmp").
    rewrite Hoc, Hot, Hp, Hc.
    cbn [andb Cmd.keep_backup Cmd.quiet Cmd.run_list Cmd.run_andor Cmd.run_pipeline Cmd.start
         Cmd.after Cmd.status Cmd.files Cmd.out Cmd.err Bool.eqb Nat.eqb].
    rewrite (run_rm T _ "" _ (safe_path_operand _ Htt)).
    unfold Cmd.after, Cmd.start, Cmd.quiet.
    cbn [Cmd.run_list Cmd.run_andor Cmd.run_pipeline
         Cmd.status Cmd.files Cmd.out Cmd.err Bool.eqb Nat.eqb String.append].
    do 2 f_equal.
    rewrite delete_insert_ne
      by (intros E; symmetry in E; revert E; apply suffix_neq; discriminate).
    now rewrite delete_insert_eq.
  - destruct (exit_code (awk T command content) =? 0)%nat eqn:Hr; [|discriminate].
    destruct (Spec.buffered (awk T command content)); [|discriminate].
    apply Nat.eqb_eq in Hr. injection Hedit as <-.
    pose proof (safe_path_suffix tmp ".new" Htmp eq_refl) as Htn.
    assert (Hne : tmp +:+ ".new" <> tmp).
    { intros E. symmetry in E. revert E. apply suffix_neq. discriminate. }
    assert (Hstr : "awk '" +:+ command +:+ "' '" +:+ tmp +:+ "' > '" +:+ tmp
                   +:+ ".new' && mv '" +:+ tmp +:+ ".new' '" +:+ tmp +:+ "'"
                   = "awk '" +:+ command +:+ "' '" +:+ tmp +:+ "' > '" +:+ (tmp +:+ ".new")
                     +:+ "' && mv '" +:+ (tmp +:+ ".new") +:+ "' '" +:+ tmp +:+ "'")
      by (now rewrite !append_assoc).
    exists "", (warned (awk T command content)).
    rewrite Hstr. unfold Cmd.sh.
    rewrite (parse_awk_preview _ _ (safe_path_no_quote _ Hcmd) (safe_path_no_quote _ Htmp)).
    cbn [Cmd.run_list Cmd.run_andor Cmd.run_pipeline Cmd.start Cmd.after Cmd.status
         Cmd.files Cmd.out Cmd.err Bool.eqb Nat.eqb].
    unfold Cmd.run_simple at 1. cbn [Sh.redirect Sh.argv].
    rewrite (safe_path_operand _ Htn).
    rewrite (run_awk T command tmp content "" _ Hoc Hot)
      by (rewrite lookup_insert_ne by exact Hne; exact Hc).
    rewrite Hr.
    cbn [Cmd.quiet Cmd.run_list Cmd.run_andor Cmd.run_pipeline Cmd.start
         Cmd.after Cmd.status Cmd.files Cmd.out Cmd.err Bool.eqb Nat.eqb].
    rewrite (run_mv T (tmp +:+ ".new") tmp (printed (awk T command content)) "" _
               (safe_path_operand _ Htn) Hot Hne)
      by apply lookup_insert_eq.
    unfold Cmd.after, Cmd.start, Cmd.quiet.
    cbn [Cmd.run_list Cmd.run_andor Cmd.run_pipeline
         Cmd.status Cmd.files Cmd.out Cmd.err Bool.eqb Nat.eqb String.append].
    rewrite !append_nil_r. do 2 f_equal. now rewrite !delete_insert_eq.
Qed.

(** [diff_preview] on a file whose name is not [.bak], for a path and a
    command that the shell passes on unchanged and a diff that [exec] can
    buffer, when the tool ends with status 0 (for sed: when the script is
    one that sed is given a meaning for here): the answer is what [diff -u] prints for the file and its
    edited copy, or that nothing would change; what the tool wrote to its
    standard error plays no part. Afterwards the file holds what it held,
    the scratch copy is gone, and so are the other files the command
    used. No other file changes but [.bak], which the first command
    removes. *)
Theorem diff_preview_shows_diff (T : Tools) (tool : Server.tool_name)
  (file command content text : string) (s : gmap string string) :
  Spec.safe_path file = true ->
  Spec.safe_path command = true ->
  Spec.base_name file <> ".bak" ->
  s !! file = Some content ->
  Spec.preview_edit T tool command content = Some text ->
  let tmp := file +:+ ".preview.tmp" in
  let shown := if String.eqb content text then "" else diff_u T file tmp content text in
  let s' := foldr delete s (tmp :: Spec.scratch tool tmp ++ [ ".bak" ]) in
  Spec.within_buffer shown = true ->
  Server.diff_preview T file command tool s
  = (Fs.Ret (if String.eqb shown "" then "No changes would be made"
             else "Preview of changes:" +:+ JS.NL +:+ shown), s')
  /\ s' !! file = Some content
  /\ s' !! tmp = None.
Proof.
  intros Hsafe Hcmd Hbase Hc Hedit tmp shown s' _.
  pose proof (base_name_dot_bak file Hbase) as Hbak.
  pose proof (safe_path_suffix file ".preview.tmp" Hsafe eq_refl) as Htmp. fold tmp in Htmp.
  assert (Hne : file <> tmp) by (apply suffix_neq; discriminate).
  assert (Hc' : delete ".bak" s !! file = Some content)
    by (rewrite lookup_delete_ne by congruence; exact Hc).
  assert (Hscratch : forall p, In p (Spec.scratch tool tmp) -> file <> p).
  { intros p Hp E. apply (f_equal String.length) in E.
    destruct tool; cbn [Spec.scratch In] in Hp;
      [destruct Hp | destruct Hp as [<-|[]] | destruct Hp as [<-|[]]];
      unfold tmp in E; rewrite !append_length in E; simpl in E; lia. }
  assert (Hs' : s' = delete tmp (<[tmp := text]>
                  (foldr delete (<[tmp := content]> (delete ".bak" s))
                     (Spec.scratch tool tmp)))).
  { unfold s'. rewrite delete_insert_eq. cbn [foldr].
    destruct tool; cbn [Spec.scratch foldr app].
    - now rewrite delete_insert_eq.
    - rewrite delete_insert_ne
        by (intros E; symmetry in E; revert E; apply suffix_neq; discriminate).
      now rewrite delete_insert_eq.
    - rewrite delete_insert_ne
        by (intros E; symmetry in E; revert E; apply suffix_neq; discriminate).
      now rewrite delete_insert_eq. }
  assert (Hkeep : foldr delete (<[tmp := content]> (delete ".bak" s)) (Spec.scratch tool tmp)
                    !! file = Some content).
  { destruct tool; cbn [Spec.scratch foldr].
    - rewrite lookup_insert_ne by congruence. exact Hc'.
    - rewrite lookup_delete_ne by (intros E; symmetry in E; revert E; apply Hscratch; now left).
      rewrite lookup_insert_ne by congruence. exact Hc'.
    - rewrite lookup_delete_ne by (intros E; symmetry in E; revert E; apply Hscratch; now left).
      rewrite lookup_insert_ne by congruence. exact Hc'. }
  split; [|split].
  - destruct (sh_preview_edit T tool command tmp content text
                (<[tmp := content]> (delete ".bak" s)) Hcmd Htmp
                (lookup_insert_eq _ _ _) Hedit) as (out & err & Hsh).
    unfold Server.diff_preview, Fs.bind.
    rewrite (require_file_found _ _ _ Hc).
    unfold Cmd.execAsync at 1. rewrite (sh_scratch_copy T file s Hsafe), Hc'.
    cbn [Cmd.quiet Cmd.status Cmd.files Cmd.out Cmd.err Nat.eqb].
    fold tmp. unfold Cmd.execAsync at 1. rewrite Hsh.
    cbn [Cmd.quiet Cmd.status Cmd.files Cmd.out Cmd.err Nat.eqb].
    unfold Cmd.execAsync at 1.
    rewrite (sh_diff_or_true T file tmp content text _ Hsafe Htmp)
      by (first [apply lookup_insert_eq | rewrite lookup_insert_ne by congruence; exact Hkeep]).
    cbn [Cmd.quiet Cmd.status Cmd.files Cmd.out Cmd.err Nat.eqb].
    unfold Cmd.execAsync. rewrite (sh_rm T tmp _ Htmp).
    cbn [Cmd.quiet Cmd.status Cmd.files Cmd.out Cmd.err Nat.eqb fst Fs.ret].
    rewrite Hs'. reflexivity.
  - rewrite Hs'. rewrite lookup_delete_ne by congruence.
    rewrite lookup_insert_ne by congruence. exact Hkeep.
  - rewrite Hs'. apply lookup_delete_eq.
Qed.

Lemma diff_preview_shows_diff_witness :
  let content := "one" +:+ JS.NL +:+ "two" +:+ JS.NL in
  let text := "one" +:+ JS.NL in
  let s : gmap string string := <["notes.txt" := content]> ∅ in
  let tmp := "notes.txt" +:+ ".preview.tmp" in
  let shown := if String.eqb content text then ""
               else diff_u Spec.idle_tools "notes.txt" tmp content text in
  let s' := foldr delete s (tmp :: Spec.scratch Server.ToolSed tmp ++ [ ".bak" ]) in
  Spec.safe_path "notes.txt" = true
  /\ Spec.safe_path "2d" = true
  /\ Spec.base_name "notes.txt" <> ".bak"
  /\ s !! "notes.txt" = Some content
  /\ Spec.preview_edit Spec.idle_tools Server.ToolSed "2d" content = Some text
  /\ Spec.within_buffer shown = true
  /\ Server.diff_preview Spec.idle_tools "notes.txt" "2d" Server.ToolSed s
     = (Fs.Ret (if String.eqb shown "" then "No changes would be made"
                else "Preview of changes:" +:+ JS.NL +:+ shown), s')
  /\ s' !! "notes.txt" = Some content
  /\ s' !! tmp = None.
Proof.
  intros content text s tmp shown s'.
  split; [reflexivity|]. split; [reflexivity|]. split; [discriminate|].
  split; [reflexivity|]. split; [reflexivity|]. split; [reflexivity|].
  apply (diff_preview_shows_diff Spec.idle_tools Server.ToolSed "notes.txt" "2d" content text s);
    [reflexivity | reflexivity | discriminate | reflexivity | reflexivity | reflexivity].
Defined.

(** ** line_edit: the ranges that are not checked *)

(** Reading the lines of a text and writing them gives the text. *)
Lemma write_read_lines (s : string) : Sed.write_lines (Sed.read_lines s) = s.
Proof.
  induction s as [|c s IH]; [reflexivity|].
  cbn [Sed.read_lines]. destruct (Ascii.eqb c JS.nl) eqn:Hc.
  - apply Ascii.eqb_eq in Hc. subst c. cbn. now rewrite IH.
  - destruct (Sed.read_lines s) as [|[x t] r].
    + simpl in IH. subst s. reflexivity.
    + rewrite <- IH. cbn [Sed.write_lines]. unfold Sed.write_line. cbn [fst snd].
      destruct t; reflexivity.
Qed.

(** A range holds its first line, and goes on to its second address when
    that comes later: [a1,a2d] drops the lines from [a1] to the later of
    the two. *)
Lemma delete_addresses_from (a1 a2 : Sed.addr) (count : nat) (ls : list (string * bool)) :
  forall i,
    Sed.apply_from (Sed.Two a1 a2) Sed.Delete count i ls
    = firstn (Sed.resolve a1 count - i) ls
      ++ skipn (Nat.max (Sed.resolve a1 count) (Sed.resolve a2 count) + 1 - i) ls.
Proof.
  intros i.
  rewrite <- (delete_range_from (Sed.resolve a1 count)
                (Nat.max (Sed.resolve a1 count) (Sed.resolve a2 count)) count ls) by lia.
  revert i. induction ls as [|l ls IH]; intros i; [reflexivity|].
  cbn [Sed.apply_from Sed.selects Sed.resolve]. rewrite IH.
  replace (i <=? Nat.max (Sed.resolve a1 count) (Sed.resolve a2 count))%nat
    with ((i <=? Sed.resolve a1 count)%nat || (i <=? Sed.resolve a2 count)%nat)%bool.
  - destruct (Nat.eqb_spec i (Sed.resolve a1 count)); [reflexivity|].
    destruct (Nat.ltb_spec (Sed.resolve a1 count) i); [|reflexivity].
    replace (i <=? Sed.resolve a1 count)%nat with false
      by (symmetry; apply Nat.leb_gt; lia).
    reflexivity.
  - destruct (Nat.leb_spec i (Sed.resolve a1 count)),
             (Nat.leb_spec i (Sed.resolve a2 count)),
             (Nat.leb_spec i (Nat.max (Sed.resolve a1 count) (Sed.resolve a2 count)));
      try reflexivity; lia.
Qed.

Lemma delete_address_from (a : Sed.addr) (count : nat) (ls : list (string * bool)) :
  forall i,
    Sed.apply_from (Sed.One a) Sed.Delete count i ls
    = firstn (Sed.resolve a count - i) ls ++ skipn (Sed.resolve a count + 1 - i) ls.
Proof.
  intros i. rewrite <- (Nat.max_id (Sed.resolve a count)) at 2.
  rewrite <- delete_addresses_from.
  revert i. induction ls as [|l ls IH]; intros i; [reflexivity|].
  cbn [Sed.apply_from Sed.selects]. rewrite IH.
  replace ((i =? Sed.resolve a count)%nat
           || (Sed.resolve a count <? i)%nat && (i <=? Sed.resolve a count)%nat)
    with (i =? Sed.resolve a count)%nat; [reflexivity|].
  destruct (Nat.eqb_spec i (Sed.resolve a count)); [reflexivity|]. simpl.
  destruct (Nat.ltb_spec (Sed.resolve a count) i); [|reflexivity].
  symmetry. apply Nat.leb_gt. lia.
Qed.

(** The scripts of [line_edit] for [delete] with [$], the last line. *)
Lemma parse_delete_to_last (r : nat) :
  (1 <= r)%nat ->
  Sed.parse (Spec.decimal r +:+ ",$" +:+ "d")
  = Sed.Script (Sed.Two (Sed.Line r) Sed.Last) Sed.Delete.
Proof.
  intros H. unfold Sed.parse.
  rewrite !includes_app, !includes_decimal by reflexivity. simpl.
  change (Spec.decimal r +:+ String "," (String "$" "d"))
    with (Spec.decimal r +:+ ",$d").
  rewrite decimal_address by (exact H || reflexivity).
  destruct r; [lia|]. reflexivity.
Qed.

(** What the [delete] of [line_edit] leaves of the file, for a range of
    two line numbers in any order, a line number, or a range up to [$]:
    the lines before the first address and the lines after the later of
    the two addresses. *)
Lemma line_edit_delete_lines (T : Tools) (file content : string)
  (lineNumber : option Z) (lineRange : option string) (text_arg : option string)
  (s : gmap string string) (r1 r2 : nat) :
  Spec.safe_path file = true ->
  s !! file = Some content ->
  let ls := Sed.read_lines content in
  (1 <= r1)%nat ->
  lineRange = Some (Spec.decimal r1 +:+ "," +:+ Spec.decimal r2) /\ (1 <= r2)%nat
  \/ lineRange = Some (Spec.decimal r1 +:+ ",$") /\ r2 = length ls
  \/ lineRange = Some "$" /\ r1 = length ls /\ r2 = r1
  \/ (lineRange = None \/ lineRange = Some "") /\ lineNumber = Some (Z.of_nat r1) /\ r2 = r1 ->
  Server.line_edit T file lineNumber lineRange "delete" text_arg s
  = (Fs.Ret ("Successfully performed delete on line(s) "
             +:+ Server.range_of lineNumber lineRange +:+ " in " +:+ file),
     <[file := Sed.write_lines (firstn (r1 - 1) ls ++ skipn (Nat.max r1 r2) ls)]>
       (<[file +:+ ".bak" := content]> s)).
Proof.
  intros Hsafe Hc ls H1 Hrange.
  destruct Hrange as [[-> H2]|[[-> ->]|[(-> & Hr1 & ->)|(Hr & -> & ->)]]].
  - rewrite (line_edit_delete_script T file content
               (Spec.decimal r1 +:+ "," +:+ Spec.decimal r2) _ _ _ s
               (Sed.Two (Sed.Line r1) (Sed.Line r2)) Hsafe Hc).
    + unfold Sed.apply. fold ls. rewrite delete_addresses_from. cbn [Sed.resolve].
      replace (Nat.max r1 r2 + 1 - 1)%nat with (Nat.max r1 r2) by lia.
      destruct (decimal_head r1) as (c & r & -> & _). reflexivity.
    + destruct (decimal_head r1) as (c & r & -> & _). reflexivity.
    + unfold Spec.no_quote. rewrite !includes_app, !includes_decimal by reflexivity.
      reflexivity.
    + rewrite append_assoc. apply operand_decimal.
    + rewrite !append_assoc. apply parse_delete_range; lia.
  - rewrite (line_edit_delete_script T file content (Spec.decimal r1 +:+ ",$") _ _ _ s
               (Sed.Two (Sed.Line r1) Sed.Last) Hsafe Hc).
    + unfold Sed.apply. fold ls. rewrite delete_addresses_from. cbn [Sed.resolve].
      replace (Nat.max r1 (length ls) + 1 - 1)%nat with (Nat.max r1 (length ls)) by lia.
      destruct (decimal_head r1) as (c & r & -> & _). reflexivity.
    + destruct (decimal_head r1) as (c & r & -> & _). reflexivity.
    + unfold Spec.no_quote. rewrite !includes_app, !includes_decimal by reflexivity.
      reflexivity.
    + rewrite append_assoc. apply operand_decimal.
    + rewrite append_assoc. apply parse_delete_to_last. exact H1.
  - rewrite (line_edit_delete_script T file content "$" _ _ _ s
               (Sed.One Sed.Last) Hsafe Hc); try reflexivity.
    unfold Sed.apply. fold ls. rewrite delete_address_from. cbn [Sed.resolve].
    rewrite Nat.max_id, <- Hr1.
    replace (r1 + 1 - 1)%nat with r1 by lia. reflexivity.
  - rewrite (line_edit_delete_script T file content (Spec.decimal r1) _ _ _ s
               (Sed.One (Sed.Line r1)) Hsafe Hc).
    + unfold Sed.apply. fold ls. rewrite delete_address_from. cbn [Sed.resolve].
      rewrite Nat.max_id. replace (r1 + 1 - 1)%nat with r1 by lia.
      destruct Hr as [->| ->]; reflexivity.
    + destruct Hr as [->| ->]; reflexivity.
    + apply no_quote_decimal.
    + apply operand_decimal.
    + apply parse_delete_line; lia.
Qed.

(** [line_edit] checks no line number against the file: a [delete] of a
    line past the end of the file, or of a range that starts there,
    reports success, writes [file.bak], and leaves the file with the very
    content it had. *)
Theorem line_edit_delete_past_end (T : Tools) (file content : string)
  (lineNumber : option Z) (lineRange : option string) (text_arg : option string)
  (s : gmap string string) (r1 r2 : nat) :
  Spec.safe_path file = true ->
  s !! file = Some content ->
  (length (Sed.read_lines content) < r1)%nat ->
  lineRange = Some (Spec.decimal r1 +:+ "," +:+ Spec.decimal r2) /\ (1 <= r2)%nat
  \/ (lineRange = None \/ lineRange = Some "") /\ lineNumber = Some (Z.of_nat r1) ->
  Server.line_edit T file lineNumber lineRange "delete" text_arg s
  = (Fs.Ret ("Successfully performed delete on line(s) "
             +:+ Server.range_of lineNumber lineRange +:+ " in " +:+ file),
     <[file := content]> (<[file +:+ ".bak" := content]> s)).
Proof.
  intros Hsafe Hc Hlen Hrange.
  assert (Hlines : exists r2',
    Server.line_edit T file lineNumber lineRange "delete" text_arg s
    = (Fs.Ret ("Successfully performed delete on line(s) "
               +:+ Server.range_of lineNumber lineRange +:+ " in " +:+ file),
       <[file := Sed.write_lines (firstn (r1 - 1) (Sed.read_lines content)
                                  ++ skipn (Nat.max r1 r2') (Sed.read_lines content))]>
         (<[file +:+ ".bak" := content]> s))).
  { destruct Hrange as [[Hr H2]|[Hr Hn]].
    - exists r2. apply line_edit_delete_lines; [assumption | assumption | lia | now left].
    - exists r1. apply line_edit_delete_lines; [assumption | assumption | lia|].
      right. right. right. auto. }
  destruct Hlines as (r2' & ->).
  rewrite firstn_all2 by lia. rewrite skipn_all2 by lia.
  now rewrite app_nil_r, write_read_lines.
Qed.

Lemma line_edit_delete_past_end_witness :
  let content := "one" +:+ JS.NL +:+ "two" +:+ JS.NL in
  let s : gmap string string := <["a.txt" := content]> ∅ in
  Spec.safe_path "a.txt" = true
  /\ s !! "a.txt" = Some content
  /\ (length (Sed.read_lines content) < 7)%nat
  /\ (@None string = Some (Spec.decimal 7 +:+ "," +:+ Spec.decimal 7) /\ (1 <= 7)%nat
      \/ (@None string = None \/ @None string = Some "") /\ Some 7%Z = Some (Z.of_nat 7))
  /\ Server.line_edit Spec.idle_tools "a.txt" (Some 7%Z) None "delete" None s
     = (Fs.Ret ("Successfully performed delete on line(s) "
                +:+ Server.range_of (Some 7%Z) None +:+ " in " +:+ "a.txt"),
        <["a.txt" := content]> (<["a.txt" +:+ ".bak" := content]> s)).
Proof.
  intros content s.
  assert (Hlen : (length (Sed.read_lines content) < 7)%nat) by (vm_compute; lia).
  assert (Hr : @None string = Some (Spec.decimal 7 +:+ "," +:+ Spec.decimal 7) /\ (1 <= 7)%nat
               \/ (@None string = None \/ @None string = Some "")
                  /\ Some 7%Z = Some (Z.of_nat 7))
    by (right; split; [left|]; reflexivity).
  split; [reflexivity|]. split; [reflexivity|]. split; [exact Hlen|]. split; [exact Hr|].
  apply (line_edit_delete_past_end Spec.idle_tools "a.txt" content (Some 7%Z) None None s 7 7);
    [reflexivity | reflexivity | exact Hlen | exact Hr].
Defined.

(** A range given backwards, [r1,r2] with [r2 < r1], is no error and no
    empty range: [delete] removes line [r1], and only that line. *)
Theorem line_edit_delete_reversed_range (T : Tools) (file content : string)
  (lineNumber : option Z) (text_arg : option string) (s : gmap string string) (r1 r2 : nat) :
  Spec.safe_path file = true ->
  s !! file = Some content ->
  let ls := Sed.read_lines content in
  (1 <= r2 < r1)%nat /\ (r1 <= length ls)%nat ->
  exists text new,
    Server.line_edit T file lineNumber
      (Some (Spec.decimal r1 +:+ "," +:+ Spec.decimal r2)) "delete" text_arg s
    = (Fs.Ret text, <[file := new]> (<[file +:+ ".bak" := content]> s))
    /\ Sed.read_lines new = firstn (r1 - 1) ls ++ skipn r1 ls
    /\ length (Sed.read_lines new) = (length ls - 1)%nat.
Proof.
  intros Hsafe Hc ls [[H2 H21] H1].
  do 2 eexists. split.
  - apply (line_edit_delete_lines T file content lineNumber _ text_arg s r1 r2 Hsafe Hc);
      [lia | left; split; [reflexivity | lia]].
  - fold ls. replace (Nat.max r1 r2) with r1 by lia.
    rewrite read_write_lines
      by (apply file_lines_cut; [lia | apply read_lines_file_lines]).
    split; [reflexivity|].
    rewrite length_app, length_firstn, length_skipn. lia.
Qed.

Lemma line_edit_delete_reversed_range_witness :
  let content := "one" +:+ JS.NL +:+ "two" +:+ JS.NL +:+ "three" +:+ JS.NL +:+ "four" +:+ JS.NL in
  let s : gmap string string := <["a.txt" := content]> ∅ in
  let ls := Sed.read_lines content in
  Spec.safe_path "a.txt" = true
  /\ s !! "a.txt" = Some content
  /\ ((1 <= 1 < 3)%nat /\ (3 <= length ls)%nat)
  /\ exists text new,
      Server.line_edit Spec.idle_tools "a.txt" None
        (Some (Spec.decimal 3 +:+ "," +:+ Spec.decimal 1)) "delete" None s
      = (Fs.Ret text, <["a.txt" := new]> (<["a.txt" +:+ ".bak" := content]> s))
      /\ Sed.read_lines new = firstn (3 - 1) ls ++ skipn 3 ls
      /\ length (Sed.read_lines new) = (length ls - 1)%nat.
Proof.
  intros content s ls.
  assert (Hr : (1 <= 1 < 3)%nat /\ (3 <= length ls)%nat) by (vm_compute; lia).
  split; [reflexivity|]. split; [reflexivity|]. split; [exact Hr|].
  apply (line_edit_delete_reversed_range Spec.idle_tools "a.txt" content None None s 3 1);
    [reflexivity | reflexivity | exact Hr].
Defined.

(** [delete] with [$]: the range [r,$] removes the lines from [r] to the
    end of the file, and [$] alone removes the last line. *)
Theorem line_edit_delete_to_last_line (T : Tools) (file content : string)
  (lineNumber : option Z) (lineRange : option string) (text_arg : option string)
  (s : gmap string string) (r : nat) :
  Spec.safe_path file = true ->
  s !! file = Some content ->
  let ls := Sed.read_lines content in
  (1 <= r <= length ls)%nat ->
  lineRange = Some (Spec.decimal r +:+ ",$")
  \/ (lineRange = Some "$" /\ r = length ls) ->
  exists text new,
    Server.line_edit T file lineNumber lineRange "delete" text_arg s
    = (Fs.Ret text, <[file := new]> (<[file +:+ ".bak" := content]> s))
    /\ Sed.read_lines new = firstn (r - 1) ls.
Proof.
  intros Hsafe Hc ls Hr Hrange.
  assert (Hlines : exists r2, (length ls <= Nat.max r r2)%nat /\
    Server.line_edit T file lineNumber lineRange "delete" text_arg s
    = (Fs.Ret ("Successfully performed delete on line(s) "
               +:+ Server.range_of lineNumber lineRange +:+ " in " +:+ file),
       <[file := Sed.write_lines (firstn (r - 1) ls ++ skipn (Nat.max r r2) ls)]>
         (<[file +:+ ".bak" := content]> s))).
  { destruct Hrange as [Hl|[Hl Hlast]].
    - exists (length ls). split; [lia|].
      apply line_edit_delete_lines; [assumption | assumption | lia|].
      right. left. split; [exact Hl | reflexivity].
    - exists r. split; [lia|].
      apply line_edit_delete_lines; [assumption | assumption | lia|].
      right. right. left. split; [exact Hl|]. split; [exact Hlast | reflexivity]. }
  destruct Hlines as (r2 & Hmax & Heq).
  do 2 eexists. split; [exact Heq|].
  rewrite skipn_all2 by exact Hmax. rewrite app_nil_r.
  apply read_write_lines.
  rewrite <- (app_nil_r (firstn (r - 1) ls)), <- (skipn_all ls).
  apply file_lines_cut; [lia | apply read_lines_file_lines].
Qed.

Lemma line_edit_delete_to_last_line_witness :
  let content := "one" +:+ JS.NL +:+ "two" +:+ JS.NL +:+ "three" +:+ JS.NL +:+ "four" in
  let s : gmap string string := <["a.txt" := content]> ∅ in
  let ls := Sed.read_lines content in
  Spec.safe_path "a.txt" = true
  /\ s !! "a.txt" = Some content
  /\ (1 <= 3 <= length ls)%nat
  /\ (Some "3,$" = Some (Spec.decimal 3 +:+ ",$")
      \/ (Some "3,$" = Some "$" /\ 3%nat = length ls))
  /\ exists text new,
      Server.line_edit Spec.idle_tools "a.txt" None (Some "3,$") "delete" None s
      = (Fs.Ret text, <["a.txt" := new]> (<["a.txt" +:+ ".bak" := content]> s))
      /\ Sed.read_lines new = firstn (3 - 1) ls.
Proof.
  intros content s ls.
  assert (Hr : (1 <= 3 <= length ls)%nat) by (vm_compute; lia).
  split; [reflexivity|]. split; [reflexivity|]. split; [exact Hr|].
  split; [left; reflexivity|].
  apply (line_edit_delete_to_last_line Spec.idle_tools "a.txt" content None (Some "3,$")
           None s 3); [reflexivity | reflexivity | exact Hr | left; reflexivity].
Defined.

(** ** Line numbers the readers do not check *)

(** A line number that is no number passes the range check of
    [show_around_line]: both comparisons with [NaN] are false, the loop
    runs no turn, and the call succeeds with an empty excerpt. *)
Theorem show_around_line_not_a_number (file content text : string) (context : Z)
  (s : gmap string string) :
  s !! file = Some content ->
  JS.parseInt text = JS.NaN ->
  Server.show_around_line file (Server.Text text) context s
  = (Fs.Ret ("Context around line NaN in " +:+ file +:+ ":" +:+ JS.NL), s).
Proof.
  intros Hf Hnan.
  unfold Server.show_around_line, Fs.bind, Fs.readFile.
  rewrite (require_file_found _ _ _ Hf), Hf, Hnan. reflexivity.
Qed.

Lemma show_around_line_not_a_number_witness :
  let s : gmap string string := <["a.txt" := "one"]> ∅ in
  s !! "a.txt" = Some "one"
  /\ JS.parseInt "last" = JS.NaN
  /\ Server.show_around_line "a.txt" (Server.Text "last") 5 s
     = (Fs.Ret ("Context around line NaN in " +:+ "a.txt" +:+ ":" +:+ JS.NL), s).
Proof.
  intros s. split; [reflexivity|]. split; [reflexivity|].
  apply (show_around_line_not_a_number "a.txt" "one" "last" 5 s); reflexivity.
Defined.

(** [read_file] with a range that ends in [$] shows the lines from
    [start] to the last one, numbered from [start], under the heading
    [Lines start-$]. *)
Theorem read_file_to_last_line (E : RegExpEngine) (file content startStr : string)
  (lines : option Server.lines_arg) (start context : Z) (s : gmap string string) :
  s !! file = Some content ->
  Server.truthy_lines lines = true ->
  Server.range_pieces lines = (Some startStr, Some "$") ->
  JS.parseInt startStr = JS.Int start ->
  (1 <= start)%Z ->
  let fileLines := JS.split JS.nl content in
  let count := Z.of_nat (length fileLines) in
  exists shown,
    Server.read_file E file lines None context s
    = (Fs.Ret ("Lines " +:+ JS.Z_toString start +:+ "-$ of " +:+ file +:+ ":" +:+ JS.NL
               +:+ JS.join JS.NL shown), s)
    /\ length shown = Z.to_nat (count - (start - 1))
    /\ forall i line, nth_error shown i = Some line ->
         exists text,
           nth_error fileLines (Z.to_nat (start - 1) + i) = Some text
           /\ line = JS.padStart 4 (JS.Z_toString (start + Z.of_nat i)) +:+ ": " +:+ text.
Proof.
  intros Hf Hl Hp Hs Hle fileLines count.
  set (sel := JS.slice fileLines (JS.Int (start - 1)) (JS.Int count)).
  set (render := fun (line : string) (index : nat) =>
                   JS.padStart 4 (JS.toString (JS.add (JS.Int start)
                                                 (JS.Int (Z.of_nat index))))
                   +:+ ": " +:+ line).
  exists (JS.mapi render sel). split; [|split].
  - unfold Server.read_file, Fs.bind, Fs.readFile.
    rewrite (require_file_found _ _ _ Hf), Hf. fold fileLines.
    rewrite Hl, Hp. unfold Server.parse_piece. rewrite Hs.
    rewrite bool_decide_eq_true_2 by reflexivity.
    cbn [JS.strict_eq JS.sub JS.toString]. rewrite Z.eqb_refl. reflexivity.
  - unfold JS.mapi. rewrite mapi_from_length. unfold sel.
    rewrite slice_length by lia. fold count. f_equal; lia.
  - intros i line Hi. unfold JS.mapi in Hi. rewrite mapi_from_nth in Hi.
    destruct (nth_error sel i) as [text|] eqn:Hn; [|discriminate].
    simpl in Hi. injection Hi as <-.
    exists text. split; [|reflexivity].
    apply slice_nth in Hn; [exact Hn | lia | lia].
Qed.

Lemma read_file_to_last_line_witness :
  let content := "one" +:+ JS.NL +:+ "two" +:+ JS.NL +:+ "three" in
  let s : gmap string string := <["a.txt" := content]> ∅ in
  let lines := Some (Server.LinesString "2-$") in
  let fileLines := JS.split JS.nl content in
  let count := Z.of_nat (length fileLines) in
  s !! "a.txt" = Some content
  /\ Server.truthy_lines lines = true
  /\ Server.range_pieces lines = (Some "2", Some "$")
  /\ JS.parseInt "2" = JS.Int 2
  /\ (1 <= 2)%Z
  /\ exists shown,
      Server.read_file PlainRegExp.engine "a.txt" lines None 3 s
      = (Fs.Ret ("Lines " +:+ JS.Z_toString 2 +:+ "-$ of " +:+ "a.txt" +:+ ":" +:+ JS.NL
                 +:+ JS.join JS.NL shown), s)
      /\ length shown = Z.to_nat (count - (2 - 1))
      /\ forall i line, nth_error shown i = Some line ->
           exists text,
             nth_error fileLines (Z.to_nat (2 - 1) + i) = Some text
             /\ line = JS.padStart 4 (JS.Z_toString (2 + Z.of_nat i)) +:+ ": " +:+ text.
Proof.
  intros content s lines fileLines count.
  split; [reflexivity|]. split; [reflexivity|]. split; [reflexivity|].
  split; [reflexivity|]. split; [lia|].
  apply (read_file_to_last_line PlainRegExp.engine "a.txt" content "2" lines 2 3 s);
    [reflexivity | reflexivity | reflexivity | reflexivity | lia].
Defined.

(** A range that starts at line 0 is not read as starting at line 1:
    [slice] gets the index -1, which counts from the end of the file, and
    unless the range reaches the last line the answer shows no line at
    all. *)
Theorem read_file_from_line_zero (E : RegExpEngine) (file content startStr endStr : string)
  (lines : option Server.lines_arg) (end_ context : Z) (s : gmap string string) :
  s !! file = Some content ->
  Server.truthy_lines lines = true ->
  Server.range_pieces lines = (Some startStr, Some endStr) ->
  JS.parseInt startStr = JS.Int 0 ->
  endStr <> "$" ->
  JS.parseInt endStr = JS.Int end_ ->
  (0 <= end_ < Z.of_nat (length (JS.split JS.nl content)))%Z ->
  Server.read_file E file lines None context s
  = (Fs.Ret ("Lines 0-" +:+ JS.Z_toString end_ +:+ " of " +:+ file +:+ ":" +:+ JS.NL), s).
Proof.
  intros Hf Hl Hp Hs Hd He Hle.
  unfold Server.read_file, Fs.bind, Fs.readFile.
  rewrite (require_file_found _ _ _ Hf), Hf.
  set (fileLines := JS.split JS.nl content) in *.
  rewrite Hl, Hp. unfold Server.parse_piece. rewrite Hs, He.
  rewrite bool_decide_eq_false_2 by congruence.
  cbn [JS.strict_eq JS.sub JS.toString].
  replace (end_ =? Z.of_nat (length fileLines))%Z with false
    by (symmetry; apply Z.eqb_neq; lia).
  assert (Hsel : JS.slice fileLines (JS.Int (0 - 1)) (JS.Int end_) = []).
  { unfold JS.slice, JS.rel_index.
    change (0 - 1 <? 0)%Z with true. cbv iota.
    destruct (end_ <? 0)%Z eqn:Eb; [apply Z.ltb_lt in Eb; lia|].
    replace (Nat.min (Z.to_nat end_) (length fileLines)
             - Z.to_nat (Z.max (Z.of_nat (length fileLines) + (0 - 1)) 0))%nat
      with 0%nat by lia.
    reflexivity. }
  rewrite Hsel. reflexivity.
Qed.

Lemma read_file_from_line_zero_witness :
  let content := "one" +:+ JS.NL +:+ "two" +:+ JS.NL +:+ "three" in
  let s : gmap string string := <["a.txt" := content]> ∅ in
  let lines := Some (Server.LinesString "0-2") in
  s !! "a.txt" = Some content
  /\ Server.truthy_lines lines = true
  /\ Server.range_pieces lines = (Some "0", Some "2")
  /\ JS.parseInt "0" = JS.Int 0
  /\ "2" <> "$"
  /\ JS.parseInt "2" = JS.Int 2
  /\ (0 <= 2 < Z.of_nat (length (JS.split JS.nl content)))%Z
  /\ Server.read_file PlainRegExp.engine "a.txt" lines None 3 s
     = (Fs.Ret ("Lines 0-" +:+ JS.Z_toString 2 +:+ " of " +:+ "a.txt" +:+ ":" +:+ JS.NL), s).
Proof.
  intros content s lines.
  assert (Hr : (0 <= 2 < Z.of_nat (length (JS.split JS.nl content)))%Z) by (vm_compute; split; [discriminate | reflexivity]).
  split; [reflexivity|]. split; [reflexivity|]. split; [reflexivity|].
  split; [reflexivity|]. split; [discriminate|]. split; [reflexivity|]. split; [exact Hr|].
  apply (read_file_from_line_zero PlainRegExp.engine "a.txt" content "0" "2" lines 2 3 s);
    [reflexivity | reflexivity | reflexivity | reflexivity | discriminate | reflexivity
    | exact Hr].
Defined.

(** ** The line after the last newline *)

Lemma read_lines_nil (s : string) : Sed.read_lines s = [] -> s = "".
Proof.
  destruct s as [|c s]; [reflexivity|]. cbn [Sed.read_lines].
  destruct (Ascii.eqb c JS.nl); [discriminate|].
  destruct (Sed.read_lines s) as [|[x t] r]; discriminate.
Qed.

(** [split] finds one piece more than sed finds lines in a text that ends
    with a newline, and that piece is empty. *)
Lemma split_after_last_newline (body : string) :
  let content := body +:+ JS.NL in
  length (JS.split JS.nl content) = S (length (Sed.read_lines content))
  /\ nth (length (Sed.read_lines content)) (JS.split JS.nl content) "undefined" = "".
Proof.
  induction body as [|c body IH]; [split; reflexivity|].
  cbv zeta in *.
  change (String c body +:+ JS.NL) with (String c (body +:+ JS.NL)).
  cbn [JS.split Sed.read_lines].
  destruct IH as [IHl IHn].
  destruct (Ascii.eqb c JS.nl).
  - cbn [length nth]. split; [now rewrite IHl | exact IHn].
  - destruct (Sed.read_lines (body +:+ JS.NL)) as [|[x t] r] eqn:Hr.
    + apply read_lines_nil in Hr. destruct body; discriminate.
    + destruct (JS.split JS.nl (body +:+ JS.NL)) as [|y ys]; [discriminate|].
      cbn [length nth] in *. split; [exact IHl | exact IHn].
Qed.

(** The readers and the editors do not count lines alike. In a file that
    ends with a newline and has [n] lines for sed, [show_around_line]
    accepts the line number [n + 1] and shows an empty line there, while
    the [delete] of [line_edit] on line [n + 1] finds no such line and
    leaves the file as it is. *)
Theorem readers_count_the_line_after_the_last_newline (T : Tools) (file body : string)
  (s : gmap string string) :
  Spec.safe_path file = true ->
  s !! file = Some (body +:+ JS.NL) ->
  let content := body +:+ JS.NL in
  let n := length (Sed.read_lines content) in
  Server.show_around_line file (Server.Number (JS.Int (Z.of_nat (S n)))) 0 s
  = (Fs.Ret ("Context around line " +:+ JS.Z_toString (Z.of_nat (S n)) +:+ " in " +:+ file
             +:+ ":" +:+ JS.NL
             +:+ "> " +:+ JS.padStart 4 (JS.Z_toString (Z.of_nat (S n))) +:+ ": "), s)
  /\ Server.line_edit T file (Some (Z.of_nat (S n))) None "delete" None s
     = (Fs.Ret ("Successfully performed delete on line(s) " +:+ JS.Z_toString (Z.of_nat (S n))
                +:+ " in " +:+ file),
        <[file := content]> (<[file +:+ ".bak" := content]> s)).
Proof.
  intros Hsafe Hf content n.
  destruct (split_after_last_newline body) as [Hlen Hnth]. fold content in Hlen, Hnth.
  fold n in Hlen, Hnth. split.
  - unfold Server.show_around_line, Fs.bind, Fs.readFile.
    rewrite (require_file_found _ _ _ Hf), Hf. fold content. rewrite Hlen.
    unfold JS.gt, JS.lt.
    replace (Z.of_nat (S n) <? 1)%Z with false by (symmetry; apply Z.ltb_ge; lia).
    rewrite Z.ltb_irrefl. cbn [orb JS.Math_max JS.Math_min JS.sub JS.add JS.for_range].
    replace (Z.max 1 (Z.of_nat (S n) - 0)) with (Z.of_nat (S n)) by lia.
    replace (Z.min (Z.of_nat (S n)) (Z.of_nat (S n) + 0)) with (Z.of_nat (S n)) by lia.
    replace (Z.to_nat (Z.of_nat (S n) - Z.of_nat (S n) + 1)) with 1%nat by lia.
    cbn [seq map JS.join String.concat JS.strict_eq].
    rewrite Z.add_0_r, Z.eqb_refl.
    unfold Server.numbered, JS.at_index.
    replace (Z.of_nat (S n) - 1 <? 0)%Z with false by (symmetry; apply Z.ltb_ge; lia).
    replace (Z.to_nat (Z.of_nat (S n) - 1)) with n by lia.
    rewrite Hnth. reflexivity.
  - rewrite (line_edit_delete_lines T file content (Some (Z.of_nat (S n))) None None s
               (S n) (S n) Hsafe Hf);
      [|lia | right; right; right; split; [left; reflexivity | split; reflexivity]].
    fold n. rewrite firstn_all2 by lia. rewrite skipn_all2 by lia.
    rewrite app_nil_r, write_read_lines. reflexivity.
Qed.

Lemma readers_count_the_line_after_the_last_newline_witness :
  let body := "one" +:+ JS.NL +:+ "two" in
  let s : gmap string string := <["a.txt" := body +:+ JS.NL]> ∅ in
  let content := body +:+ JS.NL in
  let n := length (Sed.read_lines content) in
  Spec.safe_path "a.txt" = true
  /\ s !! "a.txt" = Some (body +:+ JS.NL)
  /\ Server.show_around_line "a.txt" (Server.Number (JS.Int (Z.of_nat (S n)))) 0 s
     = (Fs.Ret ("Context around line " +:+ JS.Z_toString (Z.of_nat (S n)) +:+ " in " +:+ "a.txt"
                +:+ ":" +:+ JS.NL
                +:+ "> " +:+ JS.padStart 4 (JS.Z_toString (Z.of_nat (S n))) +:+ ": "), s)
  /\ Server.line_edit Spec.idle_tools "a.txt" (Some (Z.of_nat (S n))) None "delete" None s
     = (Fs.Ret ("Successfully performed delete on line(s) " +:+ JS.Z_toString (Z.of_nat (S n))
                +:+ " in " +:+ "a.txt"),
        <["a.txt" := content]> (<["a.txt" +:+ ".bak" := content]> s)).
Proof.
  intros body s content n.
  split; [reflexivity|]. split; [reflexivity|].
  apply (readers_count_the_line_after_the_last_newline Spec.idle_tools "a.txt" body s);
    reflexivity.
Defined.

(** ** quick_replace: what it reports and what it touches *)

Lemma starts_with_prefix (find a b : string) :
  Sed.starts_with find (a +:+ b) = false -> Sed.starts_with find a = false.
Proof.
  revert a. induction find as [|c find IH]; intros a; [discriminate|].
  destruct a as [|d a]; [reflexivity|].
  cbn [String.append Sed.starts_with].
  destruct (Ascii.eqb c d); [apply IH | reflexivity].
Qed.

(** A text that does not occur in the file occurs in none of its lines. *)
Lemma occurrences_lines (find content : string) :
  Spec.occurrences find content = 0%nat ->
  Forall (fun l => Spec.occurrences find (fst l) = 0%nat) (Sed.read_lines content).
Proof.
  induction content as [|c s IH]; intros H; [constructor|].
  cbn [Spec.occurrences] in H.
  destruct (Sed.starts_with find (String c s)) eqn:Hs; [discriminate|].
  specialize (IH H). cbn [Sed.read_lines].
  destruct (Ascii.eqb c JS.nl).
  - constructor; [reflexivity | exact IH].
  - pose proof (write_read_lines s) as Hw.
    destruct (Sed.read_lines s) as [|[x t] r].
    + simpl in Hw. subst s. constructor; [|constructor].
      cbn [fst Spec.occurrences]. now rewrite Hs.
    + pose proof (Forall_inv IH) as Hx. pose proof (Forall_inv_tail IH) as Hr.
      constructor; [|exact Hr].
      cbn [fst Spec.occurrences] in *. rewrite Hx.
      cbn [Sed.write_lines] in Hw. unfold Sed.write_line in Hw. cbn [fst snd] in Hw.
      rewrite (starts_with_prefix find (String c x)
                 (match t with true => JS.NL | false => "" end +:+ Sed.write_lines r));
        [reflexivity|].
      rewrite <- Hs. f_equal. cbn [String.append]. f_equal. rewrite <- Hw.
      destruct t; [now rewrite append_assoc | reflexivity].
Qed.

(** [quick_replace] does not look whether the text occurs: when it does
    not, the call reports the replacement all the same, writes [file.bak],
    and leaves the file with the content it had. *)
Theorem quick_replace_text_not_found (T : Tools) (file find replace content : string)
  (all : bool) (s : gmap string string) :
  Spec.safe_path file = true ->
  s !! file = Some content ->
  find <> "" ->
  Spec.all_chars Spec.literal_for_sed find = true ->
  JS.includes JS.nl replace = false ->
  Spec.occurrences find content = 0%nat ->
  Server.quick_replace T file find replace all s
  = (Fs.Ret ("Replaced " +:+ JS.DQ +:+ find +:+ JS.DQ +:+ " with " +:+ JS.DQ +:+ replace
             +:+ JS.DQ +:+ " in " +:+ file),
     <[file := content]> (<[file +:+ ".bak" := content]> s)).
Proof.
  intros Hsafe Hc Hne Hfind Hrep Hocc.
  rewrite (quick_replace_plain_text T file find replace content all s Hsafe Hc Hne Hfind Hrep).
  do 2 f_equal.
  rewrite <- (write_read_lines content) at 2. f_equal.
  pose proof (occurrences_lines find content Hocc) as Hall.
  induction Hall as [|[x t] r Hx _ IH]; [reflexivity|].
  cbn [map]. rewrite IH. f_equal.
  unfold Spec.replace_in_line. cbn [fst snd] in *.
  destruct (replace_none find replace x Hx) as [H1 H2].
  destruct all; [now rewrite H2 | now rewrite H1].
Qed.

Lemma quick_replace_text_not_found_witness :
  let content := "one" +:+ JS.NL +:+ "two" +:+ JS.NL in
  let s : gmap string string := <["a.txt" := content]> ∅ in
  Spec.safe_path "a.txt" = true
  /\ s !! "a.txt" = Some content
  /\ "three" <> ""
  /\ Spec.all_chars Spec.literal_for_sed "three" = true
  /\ JS.includes JS.nl "3" = false
  /\ Spec.occurrences "three" content = 0%nat
  /\ Server.quick_replace Spec.idle_tools "a.txt" "three" "3" true s
     = (Fs.Ret ("Replaced " +:+ JS.DQ +:+ "three" +:+ JS.DQ +:+ " with " +:+ JS.DQ +:+ "3"
                +:+ JS.DQ +:+ " in " +:+ "a.txt"),
        <["a.txt" := content]> (<["a.txt" +:+ ".bak" := content]> s)).
Proof.
  intros content s.
  split; [reflexivity|]. split; [reflexivity|]. split; [discriminate|].
  split; [reflexivity|]. split; [reflexivity|]. split; [reflexivity|].
  apply (quick_replace_text_not_found Spec.idle_tools "a.txt" "three" "3" content true s);
    [reflexivity | reflexivity | discriminate | reflexivity | reflexivity | reflexivity].
Defined.

(** Whatever the texts to find and to put hold, quotes and shell
    characters included, they reach sed inside its script and the shell
    runs nothing else. So, when the script is one that sed is given a
    meaning for here (a substitution of plain text, or a script that sed
    rejects), [quick_replace] changes no file other than the file and its
    [.bak]. *)
Theorem quick_replace_touches_only_its_file (T : Tools) (file find replace : string)
  (all : bool) (s : gmap string string) (p : string) :
  Spec.safe_path file = true ->
  fst (Server.quick_replace T file find replace all s) <> Fs.Stuck ->
  p <> file -> p <> file +:+ ".bak" ->
  snd (Server.quick_replace T file find replace all s) !! p = s !! p.
Proof.
  intros Hsafe _ Hp Hpb.
  unfold Server.quick_replace, Fs.bind.
  destruct (Server.require_file file s) as [r s0] eqn:Hreq.
  assert (Hs0 : s0 = s).
  { pose proof (require_file_state file s) as H. now rewrite Hreq in H. }
  subst s0. destruct r as [[]| |]; try reflexivity.
  unfold Cmd.execAsync.
  replace (if all
           then "s/" +:+ Server.escapedFind find +:+ "/" +:+ Server.escapedReplace replace +:+ "/g"
           else "s/" +:+ Server.escapedFind find +:+ "/" +:+ Server.escapedReplace replace +:+ "/")
    with (Server.escape_quotes (Server.replace_script find replace all))
    by (unfold Server.replace_script, Server.escapedFind, Server.escapedReplace;
        rewrite !escape_quotes_app; now destruct all).
  rewrite (sh_sed T _ _ _ (safe_path_no_quote _ Hsafe)).
  unfold Cmd.sed. change (Cmd.in_place "-i.bak") with (Some ".bak").
  destruct (Cmd.operand (Server.replace_script find replace all) && Cmd.operand file);
    [|reflexivity].
  destruct (Sed.parse (Server.replace_script find replace all)); try reflexivity.
  destruct (s !! file) as [content|]; [|reflexivity].
  cbn [Cmd.quiet Cmd.status Cmd.files Nat.eqb snd Cmd.keep_backup].
  unfold Fs.ret. cbn [snd].
  now rewrite !lookup_insert_ne by congruence.
Qed.

Lemma quick_replace_touches_only_its_file_witness :
  let s : gmap string string := <["b.txt" := "kept"]> (<["a.txt" := "it's"]> ∅) in
  Spec.safe_path "a.txt" = true
  /\ fst (Server.quick_replace Spec.idle_tools "a.txt" "'; rm -f 'b.txt" "x" true s) <> Fs.Stuck
  /\ "b.txt" <> "a.txt"
  /\ "b.txt" <> "a.txt" +:+ ".bak"
  /\ snd (Server.quick_replace Spec.idle_tools "a.txt" "'; rm -f 'b.txt" "x" true s) !! "b.txt"
     = s !! "b.txt".
Proof.
  intros s.
  assert (Hns : fst (Server.quick_replace Spec.idle_tools "a.txt" "'; rm -f 'b.txt" "x" true s)
                <> Fs.Stuck) by (vm_compute; discriminate).
  split; [reflexivity|]. split; [exact Hns|]. split; [discriminate|]. split; [discriminate|].
  apply (quick_replace_touches_only_its_file Spec.idle_tools "a.txt" "'; rm -f 'b.txt" "x"
           true s "b.txt"); [reflexivity | exact Hns | discriminate | discriminate].
Defined.

(** ** line_edit: the range reaches the shell *)

(** The command line of [line_edit] for a range that closes the quote. *)
Lemma parse_delete_injected (file victim : string) :
  Spec.no_quote file = true -> Spec.no_quote victim = true ->
  Sh.parse ("sed -i.bak '" +:+ ("1d' '" +:+ file +:+ "'; rm -f '" +:+ victim +:+ "' '")
            +:+ "d' '" +:+ file +:+ "'")
  = Sh.Parsed
      [ [ (true, [ {| Sh.argv := [ "sed"; "-i.bak"; "1d"; file ]; Sh.redirect := None |} ]) ];
        [ (true, [ {| Sh.argv := [ "rm"; "-f"; victim; "d"; file ];
                      Sh.redirect := None |} ]) ] ].
Proof.
  intros Hf Hv. unfold Sh.parse. rewrite !append_assoc.
  cbn. rewrite (lex_plain file _ _ Hf).
  cbn. rewrite (lex_plain victim _ _ Hv).
  cbn. rewrite (lex_plain file _ _ Hf).
  cbn. reflexivity.
Qed.

(** [line_edit] puts [lineRange] between quotes without escaping it: a
    range that holds a quote ends the script of sed there, and what
    follows is run by the shell as commands of its own. With the range
    below the call reports success, and the file [victim], any file, is
    removed, as is the edited file itself. *)
Theorem line_edit_range_is_run_by_the_shell (T : Tools) (file victim content : string)
  (s : gmap string string) :
  Spec.safe_path file = true ->
  Spec.safe_path victim = true ->
  s !! file = Some content ->
  let lineRange := "1d' '" +:+ file +:+ "'; rm -f '" +:+ victim +:+ "' '" in
  exists s',
    Server.line_edit T file None (Some lineRange) "delete" None s
    = (Fs.Ret ("Successfully performed delete on line(s) " +:+ lineRange +:+ " in " +:+ file),
       s')
    /\ s' !! victim = None
    /\ s' !! file = None.
Proof.
  intros Hsafe Hvictim Hc lineRange.
  pose proof (safe_path_operand _ Hsafe) as Hof.
  pose proof (safe_path_operand _ Hvictim) as Hov.
  exists (delete victim (delete "d" (delete file
            (<[file := Sed.apply (Sed.One (Sed.Line 1)) Sed.Delete content]>
               (<[file +:+ ".bak" := content]> s))))).
  split; [|split].
  - unfold Server.line_edit, Fs.bind.
    rewrite (require_file_found _ _ _ Hc).
    change (Server.range_of None (Some lineRange)) with lineRange.
    change (String.eqb "delete" "replace") with false.
    change (String.eqb "delete" "delete") with true. cbv iota.
    unfold Fs.ret, Cmd.execAsync, Cmd.sh. unfold lineRange at 1.
    rewrite (parse_delete_injected file victim (safe_path_no_quote _ Hsafe)
               (safe_path_no_quote _ Hvictim)).
    cbn [Cmd.run_list Cmd.run_andor Cmd.run_pipeline Cmd.start Cmd.after Cmd.status
         Cmd.files Cmd.out Cmd.err Bool.eqb Nat.eqb].
    unfold Cmd.run_simple at 1. cbn [Sh.redirect Sh.argv].
    change (Cmd.run_argv T [ "sed"; "-i.bak"; "1d"; file ] "" s)
      with (Cmd.sed "-i.bak" "1d" file s).
    rewrite (sed_in_place "1d" file content (Sed.One (Sed.Line 1)) Sed.Delete s
               eq_refl Hof eq_refl Hc).
    cbn [Cmd.quiet Cmd.run_list Cmd.run_andor Cmd.run_pipeline Cmd.start Cmd.after Cmd.status
         Cmd.files Cmd.out Cmd.err Bool.eqb Nat.eqb].
    unfold Cmd.run_simple, Cmd.run_argv. cbn [Sh.redirect Sh.argv].
    change (String.eqb "rm" "rm") with true. change (String.eqb "-f" "-f") with true.
    cbn [forallb andb]. rewrite Hov, Hof.
    change (Cmd.operand "d") with true.
    cbn [andb foldr Cmd.quiet Cmd.run_list Cmd.run_andor Cmd.run_pipeline Cmd.start Cmd.after
         Cmd.status Cmd.files Cmd.out Cmd.err Bool.eqb Nat.eqb String.append].
    reflexivity.
  - apply lookup_delete_eq.
  - destruct (decide (file = victim)) as [<-|Hv]; [apply lookup_delete_eq|].
    rewrite lookup_delete_ne by congruence.
    destruct (decide (file = "d")) as [->|Hd]; [apply lookup_delete_eq|].
    rewrite lookup_delete_ne by congruence. apply lookup_delete_eq.
Qed.

Lemma line_edit_range_is_run_by_the_shell_witness :
  let s : gmap string string := <["b.txt" := "kept"]> (<["a.txt" := "one"]> ∅) in
  let lineRange := "1d' '" +:+ "a.txt" +:+ "'; rm -f '" +:+ "b.txt" +:+ "' '" in
  Spec.safe_path "a.txt" = true
  /\ Spec.safe_path "b.txt" = true
  /\ s !! "a.txt" = Some "one"
  /\ exists s',
      Server.line_edit Spec.idle_tools "a.txt" None (Some lineRange) "delete" None s
      = (Fs.Ret ("Successfully performed delete on line(s) " +:+ lineRange +:+ " in "
                 +:+ "a.txt"), s')
      /\ s' !! "b.txt" = None
      /\ s' !! "a.txt" = None.
Proof.
  intros s lineRange.
  split; [reflexivity|]. split; [reflexivity|]. split; [reflexivity|].
  apply (line_edit_range_is_run_by_the_shell Spec.idle_tools "a.txt" "b.txt" "one" s);
    reflexivity.
Defined.
